(** * Docuware-Node-Helper: a shallow embedding of [src/docuware.ts]

    The development follows the source file top to bottom: JavaScript
    strings, objects and values, the process-wide [GLOBALS], the cookie
    formatter, the HTTP retry wrapper, the document translators, the query
    parser and the command dispatcher.  Effects (HTTP calls, [console.log],
    timers, the mutable globals) are threaded through an explicit [world];
    what the program cannot decide by itself (the server's replies,
    [Math.random], number and JSON parsing, the compiled predicate) is
    read from an environment.

    Limits of the model, each recalled where it applies: strings hold
    code units 0..255; numbers are integers; of an object only its own
    string-keyed properties are kept (no prototype chain); writing a
    downloaded file always succeeds; the [while (true)] of the pagination
    is run with a bound on the number of pages. *)

From Stdlib Require Import ZArith List String Ascii Bool Lia QArith Qround.
From Stdlib Require Import DecimalString Lqa.
Import ListNotations.

Local Open Scope Z_scope.
Local Open Scope list_scope.
Local Open Scope string_scope.

Set Implicit Arguments.

(* ================================================================= *)
(** ** JavaScript strings *)

(** A JavaScript string is a sequence of UTF-16 code units.  A [string]
    here is a sequence of code units in the range 0..255, one [ascii]
    each. *)
Module JSString.

(** [WhiteSpace] and [LineTerminator] of ECMAScript, restricted to the
    code units 0..255: TAB, LF, VT, FF, CR, SP and NBSP.  This is the set
    [String.prototype.trim] strips. *)
Definition isWhiteSpace (c : ascii) : bool :=
  let n := nat_of_ascii c in
  (Nat.leb 9 n && Nat.leb n 13) || Nat.eqb n 32 || Nat.eqb n 160.

Fixpoint allWhiteSpace (s : string) : bool :=
  match s with
  | EmptyString => true
  | String c s' => isWhiteSpace c && allWhiteSpace s'
  end.

Fixpoint trimStart (s : string) : string :=
  match s with
  | EmptyString => EmptyString
  | String c s' => if isWhiteSpace c then trimStart s' else s
  end.

Fixpoint trimEnd (s : string) : string :=
  match s with
  | EmptyString => EmptyString
  | String c s' =>
      match trimEnd s' with
      | EmptyString => if isWhiteSpace c then EmptyString else String c EmptyString
      | t => String c t
      end
  end.

(** [s.trim()] *)
Definition trim (s : string) : string := trimEnd (trimStart s).

(** [s.split(sep)] for a one-character separator: always at least one
    piece; [n] separators give [n + 1] pieces. *)
Fixpoint split (sep : ascii) (s : string) : list string :=
  match s with
  | EmptyString => [EmptyString]
  | String c s' =>
      if Ascii.eqb c sep then EmptyString :: split sep s'
      else match split sep s' with
           | h :: t => String c h :: t
           | [] => [String c EmptyString]
           end
  end.

(** [s.slice(from, to)], negative indices counting from the end. *)
Definition slice (s : string) (from to : Z) : string :=
  let len := Z.of_nat (String.length s) in
  let f := if (from <? 0)%Z then Z.max (len + from) 0 else Z.min from len in
  let t := if (to <? 0)%Z then Z.max (len + to) 0 else Z.min to len in
  substring (Z.to_nat f) (Z.to_nat (Z.max (t - f) 0)) s.

(** [s.substring(1)] *)
Definition substring_from (n : nat) (s : string) : string :=
  substring n (String.length s - n) s.

(** [pieces.join(sep)] on an array of strings. *)
Definition join (sep : string) (pieces : list string) : string :=
  String.concat sep pieces.



Fixpoint contains_char (c : ascii) (s : string) : bool :=
  match s with
  | EmptyString => false
  | String d s' => Ascii.eqb d c || contains_char c s'
  end.

(** Decimal rendering of an integer, as in a template literal. *)
Definition of_Z (n : Z) : string :=
  match n with
  | Z0 => "0"
  | Zpos p => NilEmpty.string_of_uint (Pos.to_uint p)
  | Zneg p => String "-" (NilEmpty.string_of_uint (Pos.to_uint p))
  end.

End JSString.

(* ================================================================= *)
(** ** Exceptions and results *)

(** What a JavaScript evaluation can end in: a value, or a thrown
    exception (for an [async] function: a rejected promise). *)
Inductive exn : Type :=
| TypeError (what : string)     (* property access on null/undefined, call of a non-function *)
| SyntaxError (what : string)   (* JSON.parse or Function on text that does not parse *)
| TransportError (what : string). (* axios rejects: network failure, timeout, ... *)

Inductive res (A : Type) : Type :=
| Ok (a : A)
| Throw (e : exn).
Arguments Ok {A} a.
Arguments Throw {A} e.

Definition res_bind {A B} (r : res A) (k : A -> res B) : res B :=
  match r with
  | Ok a => k a
  | Throw e => Throw e
  end.

Declare Scope res_scope.
Delimit Scope res_scope with res.
Notation "'let?' x := r 'in' k" := (res_bind r (fun x => k))
  (at level 10, x name, r at level 100, k at level 200) : res_scope.
Local Open Scope res_scope.

(** [xs.map(f)] where the callback can throw: the first exception ends the map. *)
Fixpoint res_map {A B} (f : A -> res B) (xs : list A) : res (list B) :=
  match xs with
  | [] => Ok []
  | x :: xs' =>
      let? y := f x in
      let? ys := res_map f xs' in
      Ok (y :: ys)
  end.

(** [xs.filter(p)] where the predicate can throw. *)
Fixpoint res_filter {A} (p : A -> res bool) (xs : list A) : res (list A) :=
  match xs with
  | [] => Ok []
  | x :: xs' =>
      let? keep := p x in
      let? ys := res_filter p xs' in
      Ok (if keep then x :: ys else ys)
  end.

(** [xs.reduce(f, a)] / [xs.forEach(...)] updating an accumulator, where
    the callback can throw. *)
Fixpoint res_fold {A B} (f : A -> B -> res A) (xs : list B) (a : A) : res A :=
  match xs with
  | [] => Ok a
  | x :: xs' => let? a' := f a x in res_fold f xs' a'
  end.

(** The elements of an array paired with their indices. *)
Definition indexed {A} (xs : list A) : list (Z * A) :=
  combine (map Z.of_nat (seq 0 (List.length xs))) xs.

(* ================================================================= *)
(** ** The query expression parser (first statement of
     [getDocumentsWithQuery]) *)

Record Condition : Type := mkCondition
  { DBName : string;
    Value : list string }.

Record QueryBody : Type := mkQueryBody
  { Conditions : list Condition;   (* the "Condition" property *)
    Operation : string }.

(** The callback of [downloadQueryStr.split('|').map(...)]:
<<
  let [key, value] = conditionStr.split('=').map(x => x.trim());
  value = value.slice(1, -1); // remove []
  return { "DBName": key, "Value": [value] };
>>
  [split] never returns an empty array, so [key] is always a string;
  [value] is [undefined] when the piece has no ['='], and
  [value.slice] then throws a [TypeError]. *)
Definition parseCondition (conditionStr : string) : res Condition :=
  match map JSString.trim (JSString.split "=" conditionStr) with
  | key :: value :: _ =>
      Ok (mkCondition key [JSString.slice value 1 (-1)])
  | _ => Throw (TypeError "Cannot read properties of undefined (reading 'slice')")
  end.

Definition parseQuery (downloadQueryStr : string) : res QueryBody :=
  res_bind (res_map parseCondition (JSString.split "|" downloadQueryStr))
           (fun conds => Ok (mkQueryBody conds "Or")).

(* ================================================================= *)
(** ** JavaScript objects used as maps *)

(** The own string-keyed properties of an ordinary object, kept in
    insertion order.  [Object.keys] does not return them in that order:
    keys that are array indices come first, in ascending numeric order,
    and the other keys follow in insertion order. *)
Module JSObject.

Definition t (V : Type) : Type := list (string * V).

Definition empty {V : Type} : t V := [].

Fixpoint lookup {V : Type} (k : string) (o : t V) : option V :=
  match o with
  | [] => None
  | (k', v) :: o' => if String.eqb k' k then Some v else lookup k o'
  end.

(** Define or overwrite an own property; an overwritten property keeps
    its place. *)
Fixpoint set {V : Type} (k : string) (v : V) (o : t V) : t V :=
  match o with
  | [] => [(k, v)]
  | (k', v') :: o' =>
      if String.eqb k' k then (k, v) :: o' else (k', v') :: set k v o'
  end.

(** [o[k] = v] on an object created by the literal [{}].  The key
    ["__proto__"] is the accessor inherited from [Object.prototype]:
    assigning to it never creates an own property (the prototype chain
    itself is not modelled). *)
Definition assign {V : Type} (k : string) (v : V) (o : t V) : t V :=
  if String.eqb k "__proto__" then o else set k v o.

Definition digit_of (c : ascii) : option Z :=
  let n := nat_of_ascii c in
  if Nat.leb 48 n && Nat.leb n 57 then Some (Z.of_nat (n - 48)) else None.

Fixpoint digits_value (acc : Z) (s : string) : option Z :=
  match s with
  | EmptyString => Some acc
  | String c s' =>
      match digit_of c with
      | Some d => digits_value (10 * acc + d) s'
      | None => None
      end
  end.

(** A key is an array index when it is the canonical decimal form of an
    integer in [0, 2^32 - 2]. *)
Definition arrayIndex (k : string) : option Z :=
  match k with
  | EmptyString => None
  | String c rest =>
      if Ascii.eqb c "0" && negb (String.eqb rest EmptyString) then None
      else match digits_value 0 k with
           | Some n => if (n <? 4294967295)%Z then Some n else None
           | None => None
           end
  end.

Definition isArrayIndex (k : string) : bool :=
  match arrayIndex k with Some _ => true | None => false end.

Fixpoint insert_index (n : Z) (k : string) (ks : list (Z * string)) : list (Z * string) :=
  match ks with
  | [] => [(n, k)]
  | (m, k') :: ks' =>
      if (n <? m)%Z then (n, k) :: ks else (m, k') :: insert_index n k ks'
  end.

Fixpoint index_keys (ks : list string) : list (Z * string) :=
  match ks with
  | [] => []
  | k :: ks' =>
      match arrayIndex k with
      | Some n => insert_index n k (index_keys ks')
      | None => index_keys ks'
      end
  end.

(** [Object.keys(o)] *)
Definition keys {V : Type} (o : t V) : list string :=
  let ks := map fst o in
  map snd (index_keys ks) ++ filter (fun k => negb (isArrayIndex k)) ks.

End JSObject.

(* ================================================================= *)
(** ** JavaScript values *)

(** The values the program handles: what [JSON.parse] and minimist
    produce, plus the response stream of a download.  Numbers are the
    integers: no fraction, NaN or infinity occurs in the data modelled. *)
#[warning="-register-all"]
Inductive value : Type :=
| VUndefined
| VNull
| VBool (b : bool)
| VNum (n : Z)
| VStr (s : string)
| VArr (elems : list value)
| VObj (props : JSObject.t value)
| VStream (content : string).   (* a readable stream; an object to the language *)

Module JS.

(** ToBoolean *)
Definition truthy (v : value) : bool :=
  match v with
  | VUndefined | VNull => false
  | VBool b => b
  | VNum n => negb (n =? 0)%Z
  | VStr s => negb (String.eqb s EmptyString)
  | VArr _ | VObj _ | VStream _ => true
  end.

(** ToString; an array joins its elements with [","], [null] and
    [undefined] elements giving the empty string. *)
Fixpoint to_string (v : value) : string :=
  match v with
  | VUndefined => "undefined"
  | VNull => "null"
  | VBool true => "true"
  | VBool false => "false"
  | VNum n => JSString.of_Z n
  | VStr s => s
  | VArr elems =>
      JSString.join ","
        ((fix each (l : list value) : list string :=
            match l with
            | [] => []
            | VUndefined :: l' => EmptyString :: each l'
            | VNull :: l' => EmptyString :: each l'
            | x :: l' => to_string x :: each l'
            end) elems)
  | VObj _ | VStream _ => "[object Object]"
  end.

(** ToPrimitive *)
Definition to_primitive (v : value) : value :=
  match v with
  | VArr _ | VObj _ | VStream _ => VStr (to_string v)
  | _ => v
  end.

Section Coercions.

  (** ToNumber on a string, [None] for NaN.  Number parsing is the
      host's; it is a parameter of the model. *)
Variable StringToNumber : string -> option Z.

  (** ToNumber, [None] for NaN. *)
Definition to_number (v : value) : option Z :=
    match to_primitive v with
    | VUndefined => None
    | VNull => Some 0%Z
    | VBool true => Some 1%Z
    | VBool false => Some 0%Z
    | VNum n => Some n
    | VStr s => StringToNumber s
    | _ => None
    end.

Definition isNaN (v : value) : bool :=
    match to_number v with Some _ => false | None => true end.

  (** [a == b] on primitives. *)
Definition loose_eq_prim (a b : value) : bool :=
    match a, b with
    | (VUndefined | VNull), (VUndefined | VNull) => true
    | (VUndefined | VNull), _ => false
    | _, (VUndefined | VNull) => false
    | VStr s, VStr t => String.eqb s t
    | _, _ =>
        match to_number a, to_number b with
        | Some n, Some m => (n =? m)%Z
        | _, _ => false
        end
    end.

Definition isObject (v : value) : bool :=
    match v with
    | VArr _ | VObj _ | VStream _ => true
    | _ => false
    end.

  (** [a == b].  Two objects are equal only when they are the same
      object; the objects compared in this program are never aliases of
      one another. *)
Definition loose_eq (a b : value) : bool :=
    if isObject a && isObject b then false
    else loose_eq_prim (to_primitive a) (to_primitive b).

End Coercions.

Definition nth_value (l : list value) (i : Z) : value :=
  if (i <? 0)%Z then VUndefined else nth (Z.to_nat i) l VUndefined.

(** [v[k]]: reading a property.  Throws on [null] and [undefined].
    Only own data properties and [length] are modelled; methods are the
    dedicated functions below. *)
Definition get (v : value) (k : string) : res value :=
  match v with
  | VUndefined | VNull =>
      Throw (TypeError ("Cannot read properties of " ++ to_string v ++ " (reading '" ++ k ++ "')"))
  | VObj o =>
      match JSObject.lookup k o with
      | Some x => Ok x
      | None => Ok VUndefined
      end
  | VArr l =>
      if String.eqb k "length" then Ok (VNum (Z.of_nat (List.length l)))
      else match JSObject.arrayIndex k with
           | Some i => Ok (nth_value l i)
           | None => Ok VUndefined
           end
  | VStr s =>
      if String.eqb k "length" then Ok (VNum (Z.of_nat (String.length s)))
      else match JSObject.arrayIndex k with
           | Some i =>
               match String.get (Z.to_nat i) s with
               | Some c => Ok (VStr (String c EmptyString))
               | None => Ok VUndefined
               end
           | None => Ok VUndefined
           end
  | VBool _ | VNum _ | VStream _ => Ok VUndefined
  end.

(** The receiver of an array method ([map], [forEach], [filter],
    [find], [reduce]): anything but an array has no such method. *)
Definition array_method (name : string) (v : value) : res (list value) :=
  match v with
  | VArr l => Ok l
  | VUndefined | VNull =>
      Throw (TypeError ("Cannot read properties of " ++ to_string v ++ " (reading '" ++ name ++ "')"))
  | _ => Throw (TypeError (name ++ " is not a function"))
  end.

(** The receiver of a string method ([substring], [replace]). *)
Definition string_method (name : string) (v : value) : res string :=
  match v with
  | VStr s => Ok s
  | VUndefined | VNull =>
      Throw (TypeError ("Cannot read properties of " ++ to_string v ++ " (reading '" ++ name ++ "')"))
  | _ => Throw (TypeError (name ++ " is not a function"))
  end.

Definition index_strings (n : nat) : list string :=
  map (fun i => JSString.of_Z (Z.of_nat i)) (seq 0 n).

(** [Object.keys(v)] *)
Definition object_keys (v : value) : res (list string) :=
  match v with
  | VUndefined | VNull => Throw (TypeError "Cannot convert undefined or null to object")
  | VObj o => Ok (JSObject.keys o)
  | VArr l => Ok (index_strings (List.length l))
  | VStr s => Ok (index_strings (String.length s))
  | VBool _ | VNum _ | VStream _ => Ok []
  end.

End JS.
(* ================================================================= *)
(** ** The world: globals, HTTP, console, timers *)

(** [interface Globals] and the constant [GLOBALS].  [endpoint] and
    [cookie] are declared [string], but the dispatcher stores command-line
    values in them unconverted, so they hold a [value]. *)
Record Globals : Type := mkGlobals
  { endpoint : value;
    cookie : value;
    retryMaxCount : Z;
    retryDelayBaseInSeconds : Z;
    retryDelayRandomMinInSeconds : Z;
    retryDelayRandomMaxInSeconds : Z }.

Definition GLOBALS_initial : Globals :=
  {| endpoint := VStr "";
     cookie := VStr "";
     retryMaxCount := 100;
     retryDelayBaseInSeconds := 10;
     retryDelayRandomMinInSeconds := 10;
     retryDelayRandomMaxInSeconds := 20 |}.

(** [{ id, cabinetId, row }], the record both translators build. *)
Record DocumentRecord : Type := mkDocument
  { id : value;
    cabinetId : value;
    row : JSObject.t value }.

Inductive http_method : Type := GET | POST.

(** The [data] of a request. *)
Inductive payload : Type :=
| NoData
| MultipartForm (fields : list (string * value))      (* a FormData of text fields *)
| MultipartFile (field : string) (path : value)       (* a FormData holding a file read stream *)
| UrlEncoded (fields : list (string * value))         (* qs.stringify({...}) *)
| JsonLoginToken                                      (* the fixed LoginToken request body *)
| JsonFieldUpdate (fields : list (string * value))    (* JSON.stringify({Field: [...]}) *)
| JsonQuery (q : QueryBody).                          (* the condition body, sent as an object *)

(** The configuration object handed to [axios]. *)
Record request : Type := mkRequest
  { method : http_method;
    url : string;
    header_cookie : value;
    header_content_type : option string;
    responseType : option string;
    acceptAnyStatus : bool;        (* [validateStatus: (status) => true] *)
    data : payload }.

Record response : Type := mkResponse
  { status : Z;
    set_cookie : option (list string);   (* [response.headers['set-cookie']] *)
    body : value }.                      (* [response.data] *)

(** What the awaited [axios(...)] promise does: it resolves with a
    response, or rejects (no connection, timeout, malformed reply...). *)
Inductive outcome : Type :=
| Resolves (r : response)
| Rejects (what : string).

Inductive event : Type :=
| HttpCall (r : request)
| Delay (seconds : Z)                        (* [UtilFunctions.delay(seconds)] *)
| ConsoleLog (v : value)                     (* [console.log(v)] *)
| ConsoleLogError (e : exn)                  (* [console.log(ex)] in a catch *)
| ConsoleLogJSON (docs : list DocumentRecord) (* [console.log(JSON.stringify(documents))] *)
| ReadStreamOpened (path : value)            (* [fs.createReadStream] *)
| ReadStreamClosed
| FileWritten (folder : value) (title : string) (content : value).

(** Everything outside the program that it consults. *)
Record Env : Type := mkEnv
  { axios_reply : nat -> request -> outcome;   (* the reply to the n-th HTTP call *)
    Math_random : nat -> Q;                    (* the n-th draw, in [0, 1) *)
    StringToNumber : string -> option Z;       (* ToNumber on strings, [None] for NaN *)
    JSON_parse : string -> option value;       (* [None]: a SyntaxError is thrown *)
    (** [Function("fields", `return ${src}`)]: [None] when the source does
        not parse; otherwise the function, taken to be free of side effects *)
    Function_return : string -> option (JSObject.t value -> res value) }.

Record world : Type := mkWorld
  { GLOBALS : Globals;
    calls : nat;             (* HTTP calls made so far *)
    draws : nat;             (* random numbers drawn so far *)
    trace : list event }.    (* what happened, oldest first *)

Definition world_initial : world :=
  {| GLOBALS := GLOBALS_initial; calls := 0; draws := 0; trace := [] |}.

(** The result of running a computation: it ends (normally or with an
    exception) in some world, or the loop bound given to the model was too
    small to see it end. *)
Inductive run (A : Type) : Type :=
| Done (r : res A) (w : world)
| OutOfFuel.
Arguments Done {A} r w.
Arguments OutOfFuel {A}.

Definition M (A : Type) : Type := world -> run A.

Definition ret {A} (a : A) : M A := fun w => Done (Ok a) w.

Definition throw {A} (e : exn) : M A := fun w => Done (Throw e) w.

Definition bind {A B} (m : M A) (k : A -> M B) : M B :=
  fun w =>
    match m w with
    | Done (Ok a) w' => k a w'
    | Done (Throw e) w' => Done (Throw e) w'
    | OutOfFuel => OutOfFuel
    end.

(** [try { m } catch (ex) { handler ex }] *)
Definition try_catch {A} (m : M A) (handler : exn -> M A) : M A :=
  fun w =>
    match m w with
    | Done (Throw e) w' => handler e w'
    | r => r
    end.

Definition lift {A} (r : res A) : M A := fun w => Done r w.

Declare Scope js_scope.
Delimit Scope js_scope with js.
Notation "x <- m ;; k" := (bind m (fun x => k))
  (at level 61, m at next level, right associativity) : js_scope.
Notation "m ;; k" := (bind m (fun _ => k))
  (at level 61, right associativity) : js_scope.
Local Open Scope js_scope.

Definition emit (e : event) : M unit :=
  fun w => Done (Ok tt)
    {| GLOBALS := GLOBALS w; calls := calls w; draws := draws w;
       trace := (trace w ++ [e])%list |}.

Definition console_log (s : string) : M unit := emit (ConsoleLog (VStr s)).

Definition read_globals : M Globals := fun w => Done (Ok (GLOBALS w)) w.

Definition write_globals (g : Globals) : M unit :=
  fun w => Done (Ok tt)
    {| GLOBALS := g; calls := calls w; draws := draws w; trace := trace w |}.

Definition set_endpoint (v : value) : M unit :=
  g <- read_globals ;;
  write_globals
    (mkGlobals v (cookie g) (retryMaxCount g) (retryDelayBaseInSeconds g)
       (retryDelayRandomMinInSeconds g) (retryDelayRandomMaxInSeconds g)).

Definition set_cookie_global (v : value) : M unit :=
  g <- read_globals ;;
  write_globals
    (mkGlobals (endpoint g) v (retryMaxCount g) (retryDelayBaseInSeconds g)
       (retryDelayRandomMinInSeconds g) (retryDelayRandomMaxInSeconds g)).

(** [xs.map(f)] / [for (...) { await f(x) }] with an effectful body. *)
Fixpoint mapM {A B} (f : A -> M B) (xs : list A) : M (list B) :=
  match xs with
  | [] => ret []
  | x :: xs' => y <- f x ;; ys <- mapM f xs' ;; ret (y :: ys)
  end.

Section Host.

Variable E : Env.

(** [Math.random()] *)
Definition random : M Q :=
  fun w => Done (Ok (Math_random E (draws w)))
    {| GLOBALS := GLOBALS w; calls := calls w; draws := S (draws w);
       trace := trace w |}.

(** [await axios(config)].  With the default [validateStatus] a status
    outside 200..299 rejects the promise. *)
Definition axios (config : request) : M response :=
  fun w =>
    let w' := {| GLOBALS := GLOBALS w; calls := S (calls w); draws := draws w;
                 trace := (trace w ++ [HttpCall config])%list |} in
    match axios_reply E (calls w) config with
    | Resolves r =>
        if acceptAnyStatus config || ((200 <=? status r)%Z && (status r <? 300)%Z)
        then Done (Ok r) w'
        else Done (Throw (TransportError "Request failed with status code")) w'
    | Rejects what => Done (Throw (TransportError what)) w'
    end.

End Host.

(** [namespace UtilFunctions] *)
Module UtilFunctions.
Definition delay (inSeconds : Z) : M unit := emit (Delay inSeconds).
End UtilFunctions.

(* ================================================================= *)
(** ** [formatCookie] *)

(** The part of [s] before the first [c] and the part after it. *)
Fixpoint break_at (c : ascii) (s : string) : option (string * string) :=
  match s with
  | EmptyString => None
  | String d s' =>
      if Ascii.eqb d c then Some (EmptyString, s')
      else match break_at c s' with
           | Some (pre, post) => Some (String d pre, post)
           | None => None
           end
  end.

(** [cookie.match(/^([^=]+)=([^;]+);/)], giving the two groups.  The first
    group cannot hold ['='], so it is the non-empty text before the first
    ['=']; the second cannot hold [';'] and must be followed by one, so it
    is the non-empty text up to the first [';'] after that ['=']. *)
Definition cookie_match (cookie : string) : option (string * string) :=
  match break_at "=" cookie with
  | Some (name, rest) =>
      if String.eqb name EmptyString then None
      else match break_at ";" rest with
           | Some (val, _) =>
               if String.eqb val EmptyString then None else Some (name, val)
           | None => None
           end
  | None => None
  end.

(** The reducer of [cookieStr.reduce(..., {})]:
    [if (matches) obj[matches[1]] = matches[2]; return obj;] *)
Definition cookie_reducer (obj : JSObject.t string) (cookie : string) : JSObject.t string :=
  match cookie_match cookie with
  | Some (name, val) => JSObject.assign name val obj
  | None => obj
  end.

(** [cookie + '=' + cookieObj[cookie]] *)
Definition cookie_entry (cookieObj : JSObject.t string) (cookie : string) : string :=
  cookie ++ "=" ++
  match JSObject.lookup cookie cookieObj with
  | Some v => v
  | None => "undefined"
  end.

Definition formatCookie (cookieStr : list string) : string :=
  let cookieObj := fold_left cookie_reducer cookieStr JSObject.empty in
  JSString.trim
    (JSString.join "; " (map (cookie_entry cookieObj) (JSObject.keys cookieObj))).

(** [formatCookie(response.headers['set-cookie'])]: without such a header
    the argument is [undefined] and [reduce] cannot be read from it. *)
Definition formatCookie_header (h : option (list string)) : res string :=
  match h with
  | Some l => Ok (formatCookie l)
  | None => Throw (TypeError "Cannot read properties of undefined (reading 'reduce')")
  end.

(* ================================================================= *)
(** ** [namespace DocuwareHelper] *)

Module DocuwareHelper.
Section WithEnv.

Variable E : Env.

(** [`${GLOBALS.endpoint}/${url}`] *)
Definition endpoint_url (g : Globals) (path : string) : string :=
  JS.to_string (endpoint g) ++ "/" ++ path.

Definition generateToken (username password hostID ep : value) : M value :=
  set_endpoint ep ;;
  g <- read_globals ;;
  response <- axios E
    {| method := POST;
       url := endpoint_url g "docuware/platform/Account/Logon";
       header_cookie := VUndefined;
       header_content_type := Some "multipart/form-data";
       responseType := None;
       acceptAnyStatus := false;
       data := MultipartForm
                 [("Username", username); ("Password", password);
                  ("Organization", VStr "Peters Engineering");
                  ("HostID", hostID);
                  ("RedirectToMyselfInCaseOfError", VStr "false");
                  ("RememberMe", VStr "true")] |} ;;
  loginCookie <- lift (formatCookie_header (set_cookie response)) ;;
  g <- read_globals ;;
  response <- axios E
    {| method := POST;
       url := endpoint_url g "docuware/platform/Organization/LoginToken";
       header_cookie := VStr loginCookie;
       header_content_type := Some "application/json";
       responseType := None;
       acceptAnyStatus := false;
       data := JsonLoginToken |} ;;
  set_cookie_global (VStr loginCookie) ;;
  ret (body response).

Definition initAuthFromToken (token ep : value) : M value :=
  set_endpoint ep ;;
  g <- read_globals ;;
  response <- axios E
    {| method := POST;
       url := endpoint_url g "docuware/platform/Account/TokenLogOn";
       header_cookie := cookie g;
       header_content_type := Some "application/x-www-form-urlencoded";
       responseType := None;
       acceptAnyStatus := false;
       data := UrlEncoded
                 [("Token", token); ("LicenseType", VStr "PlatformService");
                  ("RememberMe", VStr "false")] |} ;;
  tokenCookie <- lift (formatCookie_header (set_cookie response)) ;;
  set_cookie_global (VStr tokenCookie) ;;
  ret (VStr tokenCookie).

Definition initAuthFromCreds (username password hostID ep : value) : M value :=
  token <- generateToken username password hostID ep ;;
  initAuthFromToken token ep ;;
  g <- read_globals ;;
  ret (cookie g).

(** The argument of [UtilFunctions.delay] in both retry loops:
    [base + Math.floor((randomMax - randomMin) * Math.random())]. *)
Definition backoff : M unit :=
  g <- read_globals ;;
  r <- random E ;;
  UtilFunctions.delay
    (retryDelayBaseInSeconds g
     + Qfloor (inject_Z (retryDelayRandomMaxInSeconds g
                         - retryDelayRandomMinInSeconds g) * r)).

(** One turn of either loop: the [try] block and its [catch].
    [Some v] is [return v]; [None] is [continue]. *)
Definition attempt (config : request) : M (option value) :=
  try_catch
    (res <- axios E config ;;
     if (status res =? 200)%Z then ret (Some (body res))
     else (backoff ;; ret None))
    (fun ex => emit (ConsoleLogError ex) ;; ret (Some VNull)).

Definition get_config (g : Globals) (path : string) (rt : option string) : request :=
  {| method := GET;
     url := endpoint_url g path;
     header_cookie := cookie g;
     header_content_type := None;
     responseType := rt;
     acceptAnyStatus := true;
     data := NoData |}.

Definition post_config (g : Globals) (path : string) (d : payload)
           (contentType : option string) : request :=
  {| method := POST;
     url := endpoint_url g path;
     header_cookie := cookie g;
     header_content_type := contentType;
     responseType := None;
     acceptAnyStatus := true;
     data := d |}.

(** [for (let i = 0; i < GLOBALS.retryMaxCount; i++) { ... }] with
    [remaining] turns to go.  [getRequest] has no statement after its
    loop, so it returns [undefined] when the loop ends. *)
Fixpoint getRequest_loop (remaining : nat) (path : string) (rt : option string) : M value :=
  match remaining with
  | O => ret VUndefined
  | S n =>
      g <- read_globals ;;
      r <- attempt (get_config g path rt) ;;
      match r with
      | Some v => ret v
      | None => getRequest_loop n path rt
      end
  end.

Definition getRequest (path : string) (rt : option string) : M value :=
  g <- read_globals ;;
  getRequest_loop (Z.to_nat (retryMaxCount g)) path rt.

(** [postRequest] ends with [return null]. *)
Fixpoint postRequest_loop (remaining : nat) (path : string) (d : payload)
         (contentType : option string) : M value :=
  match remaining with
  | O => ret VNull
  | S n =>
      g <- read_globals ;;
      r <- attempt (post_config g path d contentType) ;;
      match r with
      | Some v => ret v
      | None => postRequest_loop n path d contentType
      end
  end.

Definition postRequest (path : string) (d : payload) (contentType : option string) : M value :=
  g <- read_globals ;;
  postRequest_loop (Z.to_nat (retryMaxCount g)) path d contentType.

Definition getOrganizations : M value :=
  getRequest "docuware/platform/Organizations" None.

Definition getFileCabinets (orgId : string) : M value :=
  r <- getRequest ("docuware/platform/FileCabinets?orgid=" ++ orgId) None ;;
  lift (JS.get r "FileCabinet").

Definition getFileCabinet (fileCabinetId : value) : M value :=
  getRequest ("docuware/platform/FileCabinets/" ++ JS.to_string fileCabinetId) None.

(** [cabinets.filter((cabinet) => cabinet.Name == cabinetName)] *)
Definition cabinets_named (cabinets : value) (cabinetName : value) : res (list value) :=
  let? l := JS.array_method "filter" cabinets in
  res_filter
    (fun cabinet =>
       let? name := JS.get cabinet "Name" in
       Ok (JS.loose_eq (StringToNumber E) name cabinetName))
    l.

Definition getCabinetIDsFromName (cabinetName : value) : M (list value) :=
  cabinets <- getFileCabinets "1" ;;
  lift (let? matching := cabinets_named cabinets cabinetName in
        res_map (fun x => JS.get x "Id") matching).

Definition batchRequestCount : Z := 1000.

Definition read_or_undefined (k : string) (o : JSObject.t value) : value :=
  match JSObject.lookup k o with
  | Some v => v
  | None => VUndefined
  end.

(** [headers[idx]] used as a property key. *)
Definition header_key (headers : list value) (idx : Z) : string :=
  JS.to_string (JS.nth_value headers idx).

(** The callback of [fetchedDocuments['Rows'].map(...)]. *)
Definition table_row (headers : list value) (fileCabinetId : value) (r : value)
  : res DocumentRecord :=
  let? items := JS.get r "Items" in
  let? l := JS.array_method "forEach" items in
  let fieldsMap :=
    fold_left (fun m (p : Z * value) => JSObject.assign (header_key headers (fst p)) (snd p) m)
              (indexed l) JSObject.empty in
  Ok {| id := read_or_undefined "DWDOCID" fieldsMap;
        cabinetId := fileCabinetId;
        row := fieldsMap |}.

Definition table_url (fileCabinetId : value) (start : Z) : string :=
  "docuware/platform/FileCabinets/" ++ JS.to_string fileCabinetId
  ++ "/Documents?format=table&start=" ++ JSString.of_Z start
  ++ "&count=" ++ JSString.of_Z batchRequestCount.

(** [fetchedDocuments['Headers'].map((header) => header['FieldName'])] *)
Definition table_headers (fetchedDocuments : value) : res (list value) :=
  let? hs := JS.get fetchedDocuments "Headers" in
  let? l := JS.array_method "map" hs in
  res_map (fun header => JS.get header "FieldName") l.

(** [!fetchedDocuments['Rows'] || (fetchedDocuments['Rows'].length == 0)] *)
Definition no_rows (rows : value) : res bool :=
  if negb (JS.truthy rows) then Ok true
  else let? len := JS.get rows "length" in
       Ok (JS.loose_eq (StringToNumber E) len (VNum 0)).

(** The [while (true)] loop of [getAllDocumentsFromCabinet]; [fuel]
    bounds the number of pages the model will fetch.  [headers] is
    [None] while the variable is [null]. *)
Fixpoint getAllDocuments_loop (fuel : nat) (fileCabinetId : value) (start : Z)
         (documents : list DocumentRecord) (headers : option (list value))
  : M (list DocumentRecord) :=
  match fuel with
  | O => fun _ => OutOfFuel
  | S fuel' =>
      fetchedDocuments <- getRequest (table_url fileCabinetId start) None ;;
      headers' <- match headers with
                  | Some h => ret h
                  | None => lift (table_headers fetchedDocuments)
                  end ;;
      rows <- lift (JS.get fetchedDocuments "Rows") ;;
      stop <- lift (no_rows rows) ;;
      if (stop : bool) then ret documents
      else
        l <- lift (JS.array_method "map" rows) ;;
        processedDocuments <- lift (res_map (table_row headers' fileCabinetId) l) ;;
        getAllDocuments_loop fuel' fileCabinetId (start + batchRequestCount)
          (documents ++ processedDocuments)%list (Some headers')
  end.

Definition getAllDocumentsFromCabinet (fuel : nat) (fileCabinetId : value)
  : M (list DocumentRecord) :=
  getAllDocuments_loop fuel fileCabinetId 0 [] None.

Definition downloadDocument (fileCabinetId documentId : value) : M value :=
  getRequest
    ("docuware/platform/FileCabinets/" ++ JS.to_string fileCabinetId
     ++ "/Documents/" ++ JS.to_string documentId
     ++ "/FileDownload?targetFileType=Auto&keepAnnotations=false")
    (Some "stream").

Definition uploadDocument (fileCabinetId filePath : value) : M value :=
  emit (ReadStreamOpened filePath) ;;
  d <- postRequest
         ("docuware/platform/FileCabinets/" ++ JS.to_string fileCabinetId ++ "/Documents")
         (MultipartFile "file" filePath) (Some "multipart/form-data") ;;
  emit ReadStreamClosed ;;
  ret d.

(** [Object.keys(jsonFields).map(field => ({FieldName: field,
    Item: jsonFields[field], ItemElementName: "String"}))] *)
Definition update_fields (jsonFields : value) : res (list (string * value)) :=
  let? ks := JS.object_keys jsonFields in
  res_map (fun field => let? item := JS.get jsonFields field in Ok (field, item)) ks.

Definition update_url (fileCabinetId documentId : value) : string :=
  "docuware/platform/FileCabinets/" ++ JS.to_string fileCabinetId
  ++ "/Documents/" ++ JS.to_string documentId ++ "/Fields".

Definition updateDocument (fileCabinetId documentId jsonFields : value) : M value :=
  fieldData <- lift (update_fields jsonFields) ;;
  postRequest (update_url fileCabinetId documentId)
    (JsonFieldUpdate fieldData) (Some "application/json").

(** The reducer of [data.Fields.reduce(..., {})]:
    [obj[field.FieldName] = field.Item || ""]. *)
Definition field_reducer (obj : JSObject.t value) (field : value) : res (JSObject.t value) :=
  let? name := JS.get field "FieldName" in
  let? item := JS.get field "Item" in
  Ok (JSObject.assign (JS.to_string name)
        (if JS.truthy item then item else VStr "") obj).

(** The part of [getDocument] after the request. *)
Definition document_of (documentCabinetId documentId data : value) : res DocumentRecord :=
  let? fields := JS.get data "Fields" in
  let? l := JS.array_method "reduce" fields in
  let? r := res_fold field_reducer l JSObject.empty in
  Ok {| id := documentId; cabinetId := documentCabinetId; row := r |}.

Definition getDocument (documentCabinetId documentId : value) : M DocumentRecord :=
  d <- getRequest
         ("docuware/platform/FileCabinets/" ++ JS.to_string documentCabinetId
          ++ "/Documents/" ++ JS.to_string documentId) None ;;
  lift (document_of documentCabinetId documentId d).

Definition getDocumentsWithFunction (fuel : nat) (documentCabinetId : value)
           (downloadFunctionStr : value) : M (list DocumentRecord) :=
  match Function_return E (JS.to_string downloadFunctionStr) with
  | None => throw (SyntaxError "Function")
  | Some predicateFunction =>
      documents <- getAllDocumentsFromCabinet fuel documentCabinetId ;;
      lift (res_filter
              (fun document =>
                 let? keep := predicateFunction (row document) in
                 Ok (JS.truthy keep))
              documents)
  end.

(** The callback of [fetchedDocuments.Items.map(...)]. *)
Definition query_row (headers : list value) (documentCabinetId : value) (r : value)
  : res DocumentRecord :=
  let? fields := JS.get r "Fields" in
  let? l := JS.array_method "forEach" fields in
  let? fieldsMap :=
    res_fold (fun m (p : Z * value) =>
                let? item := JS.get (snd p) "Item" in
                Ok (JSObject.assign (header_key headers (fst p)) item m))
             (indexed l) JSObject.empty in
  Ok {| id := read_or_undefined "DWDOCID" fieldsMap;
        cabinetId := documentCabinetId;
        row := fieldsMap |}.

(** [getDocumentsWithQuery] from [if (fetchedDocuments.Count.Value == 0)]
    to its end. *)
Definition query_documents (documentCabinetId fetchedDocuments : value)
  : res (list DocumentRecord) :=
  let? count := JS.get fetchedDocuments "Count" in
  let? countValue := JS.get count "Value" in
  if JS.loose_eq (StringToNumber E) countValue (VNum 0) then Ok []
  else
    let? items := JS.get fetchedDocuments "Items" in
    let? first := JS.get items "0" in
    let? firstFields := JS.get first "Fields" in
    let? fl := JS.array_method "map" firstFields in
    let? headers := res_map (fun field => JS.get field "FieldName") fl in
    let? l := JS.array_method "map" items in
    res_map (query_row headers documentCabinetId) l.

Definition getDocumentsWithQuery (documentCabinetId downloadQueryStr : value)
  : M (list DocumentRecord) :=
  jsonBody <- lift (let? s := JS.string_method "split" downloadQueryStr in parseQuery s) ;;
  res <- postRequest
           ("docuware/platform/FileCabinets/" ++ JS.to_string documentCabinetId
            ++ "/Query/DialogExpressionLink")
           (JsonQuery jsonBody) (Some "application/json") ;;
  queryLink <- lift (let? s := JS.string_method "substring" res in
                     Ok (JSString.substring_from 1 s)) ;;
  fetchedDocuments <- getRequest queryLink None ;;
  lift (query_documents documentCabinetId fetchedDocuments).

End WithEnv.
End DocuwareHelper.

(* ================================================================= *)
(** ** [namespace DocuwareCMD] *)

Module DocuwareCMD.
Section WithEnv.

Variable E : Env.

(** [const args = minimist(process.argv.slice(2))]: a flag that is not
    given reads as [undefined]; minimist turns a numeric-looking
    argument into a number and a flag without argument into [true]. *)
Variable args : string -> value.

Definition dquote : string := String (ascii_of_nat 34) EmptyString.

(** [value == 'literal'] *)
Definition equals (v : value) (literal : string) : bool :=
  JS.loose_eq (StringToNumber E) v (VStr literal).

(** [case 'literal':] of a [switch], which compares with [===]. *)
Definition is_case (v : value) (literal : string) : bool :=
  match v with
  | VStr s => String.eqb s literal
  | _ => false
  end.

(** [if (args[f] && !isNaN(args[f])) GLOBALS.x = Number(args[f]);] *)
Definition override (flag : string) (current : Z) : Z :=
  if JS.truthy (args flag) then
    match JS.to_number (StringToNumber E) (args flag) with
    | Some n => n
    | None => current
    end
  else current.

Definition retry_overrides : M unit :=
  g <- read_globals ;;
  write_globals
    {| endpoint := endpoint g;
       cookie := cookie g;
       retryMaxCount := override "retrymax" (retryMaxCount g);
       retryDelayBaseInSeconds := override "retrybase" (retryDelayBaseInSeconds g);
       retryDelayRandomMinInSeconds := override "retryrandmin" (retryDelayRandomMinInSeconds g);
       retryDelayRandomMaxInSeconds := override "retryrandmax" (retryDelayRandomMaxInSeconds g) |}.

(** The [gencookie] and [gentoken] branches share their three checks. *)
Definition with_credentials (k : value -> value -> value -> M unit) : M unit :=
  let username := args "u" in
  let password := args "p" in
  let hostID := args "h" in
  if negb (JS.truthy username) then console_log "-u username not defined."
  else if negb (JS.truthy password) then console_log "-p password not defined."
  else if negb (JS.truthy hostID) then console_log "-h hostname not defined."
  else k username password hostID.

(** [a + b] rendered in a template literal. *)
Definition plus_string (a b : value) : string :=
  match JS.to_primitive a, JS.to_primitive b with
  | VStr s, pb => s ++ JS.to_string pb
  | pa, VStr t => JS.to_string pa ++ t
  | pa, pb =>
      match JS.to_number (StringToNumber E) pa, JS.to_number (StringToNumber E) pb with
      | Some x, Some y => JSString.of_Z (x + y)
      | _, _ => "NaN"
      end
  end.

(** [xs.find(p)], [undefined] when nothing matches. *)
Fixpoint res_find (p : value -> res bool) (xs : list value) : res value :=
  match xs with
  | [] => Ok VUndefined
  | x :: xs' => let? hit := p x in if (hit : bool) then Ok x else res_find p xs'
  end.

(** [arr.find((x) => x[prop] == literal)[field]] *)
Definition find_where (arr : value) (prop literal field : string) : res value :=
  let? l := JS.array_method "find" arr in
  let? hit := res_find (fun x => let? v := JS.get x prop in Ok (equals v literal)) l in
  JS.get hit field.

Definition upload (cabinet : value) : M unit :=
  let readFilePath := args "p" in
  if negb (JS.truthy readFilePath) then console_log "-p read path not specified."
  else
    cabId <- lift (JS.get cabinet "Id") ;;
    d <- DocuwareHelper.uploadDocument E cabId readFilePath ;;
    docId <- lift (let? fields := JS.get d "Fields" in
                   find_where fields "FieldName" "DWDOCID" "Item") ;;
    console_log ("DWDOCID: " ++ JS.to_string docId) ;;
    g <- read_globals ;;
    href <- lift (let? links := JS.get d "Links" in
                  find_where links "rel" "self" "href") ;;
    console_log ("LINK: " ++ plus_string (endpoint g) href) ;;
    console_log "File uploaded".

(** [s.replace(...)] with the global pattern for an apostrophe: every
    apostrophe becomes a double quote (code unit 34). *)
Fixpoint requote (s : string) : string :=
  match s with
  | EmptyString => EmptyString
  | String c s' =>
      String (if Ascii.eqb c "'" then ascii_of_nat 34 else c) (requote s')
  end.

(** The chain of [if]s filling [documents]; [None] is the [return]
    after "None of -f -q -i defined.". *)
Definition fetch_documents (fuel : nat) (mode cabinet : value)
  : M (option (list DocumentRecord)) :=
  let downloadFunction := args "f" in
  let downloadQuery := args "q" in
  let specificId := args "i" in
  if JS.truthy specificId then
    cabId <- lift (JS.get cabinet "Id") ;;
    d <- DocuwareHelper.getDocument E cabId specificId ;;
    ret (Some [d])
  else if JS.truthy downloadQuery then
    cabId <- lift (JS.get cabinet "Id") ;;
    ds <- DocuwareHelper.getDocumentsWithQuery E cabId downloadQuery ;;
    ret (Some ds)
  else if JS.truthy downloadFunction then
    cabId <- lift (JS.get cabinet "Id") ;;
    ds <- DocuwareHelper.getDocumentsWithFunction E fuel cabId downloadFunction ;;
    ret (Some ds)
  else if negb (equals mode "update") then
    cabId <- lift (JS.get cabinet "Id") ;;
    ds <- DocuwareHelper.getAllDocumentsFromCabinet E fuel cabId ;;
    ret (Some ds)
  else
    console_log "None of -f -q -i defined." ;;
    ret None.

(** [case 'update': { ... }] *)
Definition update (cabinet : value) (documents : list DocumentRecord) : M unit :=
  updateJSONStr <- lift (let? s := JS.string_method "replace"
                                     (if JS.truthy (args "u") then args "u" else VStr "") in
                         Ok (requote s)) ;;
  if String.eqb updateJSONStr EmptyString then console_log "-u update json not defined."
  else
    match JSON_parse E updateJSONStr with
    | None => console_log "-u is not valid json (remember to use single quotes)."
    | Some updateJSON =>
        if (1 <? List.length documents)%nat then
          console_log "Multiple matching documents found, tighten the fitler function."
        else
          console_log "Updating document..." ;;
          documentId <- lift (match documents with
                              | document :: _ => Ok (id document)
                              | [] => Throw (TypeError "Cannot read properties of undefined (reading 'id')")
                              end) ;;
          cabId <- lift (JS.get cabinet "Id") ;;
          DocuwareHelper.updateDocument E cabId documentId updateJSON ;;
          console_log "Completed document update..."
    end.

(** One turn of the download loop. *)
Definition download_one (cabinet fileName writeFolder : value) (p : Z * DocumentRecord)
  : M unit :=
  let documentTitle := JS.to_string fileName ++ "_" ++ JSString.of_Z (fst p) ++ ".pdf" in
  cabId <- lift (JS.get cabinet "Id") ;;
  stream <- DocuwareHelper.downloadDocument E cabId (id (snd p)) ;;
  (* path.join accepts strings only *)
  match writeFolder with
  | VStr _ =>
      match stream with
      | VStream _ =>
          emit (FileWritten writeFolder documentTitle stream) ;;
          console_log ("File " ++ dquote ++ documentTitle ++ dquote ++ " downloaded.")
      | VUndefined | VNull =>
          throw (TypeError "Cannot read properties of null (reading 'pipe')")
      | _ => throw (TypeError "stream.pipe is not a function")
      end
  | _ => throw (TypeError "The path argument must be of type string")
  end.

(** [case 'download': { ... }] *)
Definition download (cabinet cabinetName : value) (documents : list DocumentRecord) : M unit :=
  let fileName := if JS.truthy (args "n") then args "n" else VStr "" in
  let writeFolder := args "p" in
  if negb (JS.truthy writeFolder) then console_log "-p write folder path not specified."
  else if negb (JS.truthy fileName) then console_log "-n file name perfix not specified."
  else
    console_log ("Starting downloads for " ++ dquote ++ JS.to_string cabinetName ++ dquote) ;;
    mapM (download_one cabinet fileName writeFolder) (indexed documents) ;;
    console_log ("Downloads completed for " ++ dquote ++ JS.to_string cabinetName ++ dquote).

(** [switch (mode) { ... }] *)
Definition dispatch (mode cabinet cabinetName : value) (documents : list DocumentRecord)
  : M unit :=
  if is_case mode "get" then emit (ConsoleLogJSON documents)
  else if is_case mode "update" then update cabinet documents
  else if is_case mode "download" then download cabinet cabinetName documents
  else console_log ("Mode " ++ dquote ++ JS.to_string mode ++ dquote
                    ++ " not supported, use one of upload/update/download.").

(** [execute] from [const cabinets = ...] on: the session cookie is in
    place. *)
Definition with_session (fuel : nat) (mode : value) : M unit :=
  cabinets <- DocuwareHelper.getFileCabinets E "1" ;;
  if equals mode "lscabinets" then
    l <- lift (JS.array_method "forEach" cabinets) ;;
    mapM (fun cabinet =>
            name <- lift (JS.get cabinet "Name") ;;
            cid <- lift (JS.get cabinet "Id") ;;
            console_log (JS.to_string name ++ ": " ++ JS.to_string cid)) l ;;
    ret tt
  else
    let cabinetName := args "c" in
    if negb (JS.truthy cabinetName) then console_log "-c cabinet name not defined."
    else
      matchingCabinets <- lift (DocuwareHelper.cabinets_named E cabinets cabinetName) ;;
      match matchingCabinets with
      | [] => console_log ("No matching cabinet(s) for " ++ dquote
                           ++ JS.to_string cabinetName ++ dquote ++ ".")
      | cabinet :: others =>
          (match others with
           | [] => ret tt
           | _ :: _ =>
               console_log ("WARNING: There are multiple cabinets with the name " ++ dquote
                            ++ JS.to_string cabinetName ++ dquote ++ ", using the first one.")
           end) ;;
          if equals mode "upload" then upload cabinet
          else
            console_log "Fetching documents..." ;;
            fetched <- fetch_documents fuel mode cabinet ;;
            match fetched with
            | None => ret tt
            | Some documents =>
                console_log "Completed document fetching." ;;
                match documents with
                | [] => console_log "No matching documents found."
                | _ :: _ => dispatch mode cabinet cabinetName documents
                end
            end
      end.

Definition execute (fuel : nat) : M unit :=
  retry_overrides ;;
  let mode := args "m" in
  if negb (JS.truthy mode) then console_log "-m mode not defined."
  else
    let ep := args "e" in
    set_endpoint ep ;;
    if negb (JS.truthy ep) then console_log "-e endpoint not defined."
    else if equals mode "gencookie" then
      with_credentials (fun username password hostID =>
        DocuwareHelper.initAuthFromCreds E username password hostID ep ;;
        g <- read_globals ;;
        emit (ConsoleLog (cookie g)))
    else if equals mode "gentoken" then
      with_credentials (fun username password hostID =>
        token <- DocuwareHelper.generateToken E username password hostID ep ;;
        emit (ConsoleLog token))
    else
      let cookie := args "x" in
      let token := args "t" in
      if negb (JS.truthy token) && negb (JS.truthy cookie) then
        console_log "neither token -t nor cookie -c defined."
      else if JS.truthy token && JS.truthy cookie then
        console_log "both cookie and token were provided... using existing cookie."
      else
        (if JS.truthy token && negb (JS.truthy cookie)
         then (DocuwareHelper.initAuthFromToken E token ep ;; ret tt)
         else set_cookie_global cookie) ;;
        with_session fuel mode.

End WithEnv.
End DocuwareCMD.

(* ================================================================= *)
(** ** Worlds reached by the retry loops *)

(** The world after the HTTP call [config] was made. *)
Definition called (config : request) (w : world) : world :=
  {| GLOBALS := GLOBALS w; calls := S (calls w); draws := draws w;
     trace := (trace w ++ [HttpCall config])%list |}.

(** The world after [e] was appended to the trace. *)
Definition logged (e : event) (w : world) : world :=
  {| GLOBALS := GLOBALS w; calls := calls w; draws := draws w;
     trace := (trace w ++ [e])%list |}.

(** The seconds the next backoff waits in world [w]. *)
Definition backoff_seconds (E : Env) (w : world) : Z :=
  retryDelayBaseInSeconds (GLOBALS w)
  + Qfloor (inject_Z (retryDelayRandomMaxInSeconds (GLOBALS w)
                      - retryDelayRandomMinInSeconds (GLOBALS w))
            * Math_random E (draws w)).

(** The world after one backoff: a random number drawn, then the delay. *)
Definition backed_off (E : Env) (w : world) : world :=
  {| GLOBALS := GLOBALS w; calls := calls w; draws := S (draws w);
     trace := (trace w ++ [Delay (backoff_seconds E w)])%list |}.

(** The world after [k] turns of a retry loop that each made the call
    [config] and backed off. *)
Fixpoint retried (E : Env) (config : request) (k : nat) (w : world) : world :=
  match k with
  | O => w
  | S k' => retried E config k' (backed_off E (called config w))
  end.

Definition count_calls (t : list event) : nat :=
  List.length (filter (fun e => match e with HttpCall _ => true | _ => false end) t).

Definition count_delays (t : list event) : nat :=
  List.length (filter (fun e => match e with Delay _ => true | _ => false end) t).

(** A reply is an HTTP response whose status is not 200. *)
Definition not_200 (o : outcome) : Prop :=
  exists r, o = Resolves r /\ status r <> 200%Z.

(* ================================================================= *)
(** ** Pieces of a split string *)

(** Append [m] to the last piece. *)
Fixpoint app_last (pieces : list string) (m : string) : list string :=
  match pieces with
  | [] => [m]
  | [p] => [p ++ m]
  | p :: rest => p :: app_last rest m
  end.

(* ================================================================= *)
(** ** What the cookie string is expected to hold *)







(** A name the object keeps among its own keys in insertion order: not an
    array index and not ["__proto__"]. *)
Definition plain_name (n : string) : bool :=
  negb (JSObject.isArrayIndex n) && negb (String.eqb n "__proto__").

(* ================================================================= *)
(** ** What a document row is expected to hold *)

(** What [field.Item || ""] evaluates to. *)
Definition stored (item : value) : value :=
  if JS.truthy item then item else VStr "".



(* ================================================================= *)
(** ** Worlds reached by the pagination loop *)

(** The world after [n] pages were requested, one call each, at the
    offsets [start], [start + 1000], ... *)
Fixpoint paged (fileCabinetId : value) (start : Z) (n : nat) (w : world) : world :=
  match n with
  | O => w
  | S n' =>
      paged fileCabinetId (start + DocuwareHelper.batchRequestCount) n'
        (called (DocuwareHelper.get_config (GLOBALS w)
                   (DocuwareHelper.table_url fileCabinetId start) None) w)
  end.

(** The names in force for a page: those already taken, or those of the
    page when none was taken yet. *)
Definition names_for (headers : option (list value)) (page : value) : res (list value) :=
  match headers with
  | Some h => Ok h
  | None => DocuwareHelper.table_headers page
  end.


(* ================================================================= *)
(** ** Relations between worlds *)



(* ================================================================= *)
(** ** More scenarios *)

(** A host whose [Math.random()] always gives one half and whose server
    is always busy. *)
Definition host_half : Env :=
  {| axios_reply := fun _ _ => Resolves {| status := 503; set_cookie := None; body := VNull |};
     Math_random := fun _ => (1 # 2)%Q;
     StringToNumber := fun _ => None;
     JSON_parse := fun _ => None;
     Function_return := fun _ => None |}.

(* ================================================================= *)
(** ** The requests of the session functions *)

(** The world after [GLOBALS.endpoint = ep]. *)
Definition with_endpoint (ep : value) (w : world) : world :=
  {| GLOBALS := mkGlobals ep (cookie (GLOBALS w)) (retryMaxCount (GLOBALS w))
                  (retryDelayBaseInSeconds (GLOBALS w))
                  (retryDelayRandomMinInSeconds (GLOBALS w))
                  (retryDelayRandomMaxInSeconds (GLOBALS w));
     calls := calls w; draws := draws w; trace := trace w |}.

(** The world after [GLOBALS.cookie = c]. *)
Definition with_cookie (c : value) (w : world) : world :=
  {| GLOBALS := mkGlobals (endpoint (GLOBALS w)) c (retryMaxCount (GLOBALS w))
                  (retryDelayBaseInSeconds (GLOBALS w))
                  (retryDelayRandomMinInSeconds (GLOBALS w))
                  (retryDelayRandomMaxInSeconds (GLOBALS w));
     calls := calls w; draws := draws w; trace := trace w |}.

(** A status the default [validateStatus] of axios accepts. *)
Definition accepted (r : response) : Prop := (200 <= status r < 300)%Z.

(** The credential post of [generateToken]. *)
Definition logon_request (ep username password hostID : value) : request :=
  {| method := POST;
     url := JS.to_string ep ++ "/docuware/platform/Account/Logon";
     header_cookie := VUndefined;
     header_content_type := Some "multipart/form-data";
     responseType := None;
     acceptAnyStatus := false;
     data := MultipartForm
               [("Username", username); ("Password", password);
                ("Organization", VStr "Peters Engineering");
                ("HostID", hostID);
                ("RedirectToMyselfInCaseOfError", VStr "false");
                ("RememberMe", VStr "true")] |}.

(** The token request of [generateToken], carrying the login cookie. *)
Definition login_token_request (ep : value) (loginCookie : string) : request :=
  {| method := POST;
     url := JS.to_string ep ++ "/docuware/platform/Organization/LoginToken";
     header_cookie := VStr loginCookie;
     header_content_type := Some "application/json";
     responseType := None;
     acceptAnyStatus := false;
     data := JsonLoginToken |}.

(** The token exchange of [initAuthFromToken], carrying the cookie that
    was in [GLOBALS] before. *)
Definition token_logon_request (ep oldCookie token : value) : request :=
  {| method := POST;
     url := JS.to_string ep ++ "/docuware/platform/Account/TokenLogOn";
     header_cookie := oldCookie;
     header_content_type := Some "application/x-www-form-urlencoded";
     responseType := None;
     acceptAnyStatus := false;
     data := UrlEncoded
               [("Token", token); ("LicenseType", VStr "PlatformService");
                ("RememberMe", VStr "false")] |}.

(** A server for the credential login: a session cookie on the logon, the
    token on the token request, a fresh cookie on the token logon. *)
Definition script_login (n : nat) : response :=
  match n with
  | 0%nat => {| status := 200;
                set_cookie := Some [".DWPLATFORMAUTH=login; path=/; HttpOnly"];
                body := VNull |}
  | 1%nat => {| status := 200; set_cookie := None; body := VStr "TOKEN-1" |}
  | _ => {| status := 200;
            set_cookie := Some [".DWPLATFORMAUTH=session; path=/; HttpOnly";
                                "DWPLATFORMBROWSERID=77; path=/"];
            body := VNull |}
  end.

(* ================================================================= *)
(** ** Cabinets *)

(** A cabinet entry of the FileCabinets reply, with a text name. *)
Definition cabinet_entry (p : string * value) : value :=
  VObj [("Name", VStr (fst p)); ("Id", snd p)].

(** The reply that lists the cabinets [l]. *)
Definition cabinets_reply (l : list (string * value)) : value :=
  VObj [("FileCabinet", VArr (map cabinet_entry l))].

(** The number of occurrences of a character in a string. *)
Fixpoint count_char (c : ascii) (s : string) : nat :=
  match s with
  | EmptyString => 0%nat
  | String d s' => ((if Ascii.eqb d c then 1 else 0) + count_char c s')%nat
  end.

(** A condition written the way the parser expects it, [NAME=[VALUE]],
    and a query of several of them separated by ['|']. *)
Definition condition_text (c : string * string) : string :=
  fst c ++ "=[" ++ snd c ++ "]".

Definition query_text (cs : list (string * string)) : string :=
  JSString.join "|" (map condition_text cs).

(** Neither ['='] nor ['|'] occurs in the string. *)
Definition no_separator (s : string) : bool :=
  negb (JSString.contains_char "=" s) && negb (JSString.contains_char "|" s).

(** A run that ends normally having done one thing only: print [msg].
    No HTTP call, no random draw, and the session cookie is as before. *)
Definition says_only (r : run unit) (w : world) (msg : string) : Prop :=
  exists g,
    r = Done (Ok tt) {| GLOBALS := g; calls := calls w; draws := draws w;
                        trace := (trace w ++ [ConsoleLog (VStr msg)])%list |}
    /\ cookie g = cookie (GLOBALS w).

(** The title the download loop gives the [i]-th document. *)
Definition download_title (fileName : value) (i : nat) : string :=
  JS.to_string fileName ++ "_" ++ JSString.of_Z (Z.of_nat i) ++ ".pdf".

(** What the download loop leaves in the trace for the documents [docs],
    numbered from [i], when its first request is the [c]-th HTTP call of
    the run and the [n]-th call is answered with the stream [content n]:
    per document the request, the file written and the line printed. *)
Fixpoint download_trace (g : Globals) (cabId folder fileName : value)
         (content : nat -> string) (i c : nat) (docs : list DocumentRecord) : list event :=
  match docs with
  | [] => []
  | d :: rest =>
      HttpCall (DocuwareHelper.get_config g
                  ("docuware/platform/FileCabinets/" ++ JS.to_string cabId
                   ++ "/Documents/" ++ JS.to_string (id d)
                   ++ "/FileDownload?targetFileType=Auto&keepAnnotations=false")
                  (Some "stream"))
      :: FileWritten folder (download_title fileName i) (VStream (content c))
      :: ConsoleLog (VStr ("File " ++ DocuwareCMD.dquote ++ download_title fileName i
                           ++ DocuwareCMD.dquote ++ " downloaded."))
      :: download_trace g cabId folder fileName content (S i) (S c) rest
  end.

(** A per-document response: the list of its fields. *)
Definition field_entry (p : string * value) : value :=
  VObj [("FieldName", VStr (fst p)); ("Item", snd p)].

Definition fields_reply (l : list (string * value)) : value :=
  VObj [("Fields", VArr (map field_entry l))].

(** A link of an upload reply. *)
Definition link_entry (p : string * value) : value :=
  VObj [("rel", VStr (fst p)); ("href", snd p)].

(** The reply to an upload: the fields and the links of the new
    document. *)
Definition upload_reply (fields links : list (string * value)) : value :=
  VObj [("Fields", VArr (map field_entry fields)); ("Links", VArr (map link_entry links))].
(* ================================================================= *)
(** ** Scenarios *)

(** Hosts used to run the program on concrete inputs.  Unless a scenario
    says otherwise, [Math.random()] gives 0, no string converts to a
    number, and nothing parses as JSON or as a function body. *)
Definition host (reply : nat -> request -> outcome) : Env :=
  {| axios_reply := reply;
     Math_random := fun _ => 0%Q;
     StringToNumber := fun _ => None;
     JSON_parse := fun _ => None;
     Function_return := fun _ => None |}.

(** A server that answers every call with the [n]-th response of a script. *)
Definition scripted (script : nat -> response) : Env :=
  host (fun n _ => Resolves (script n)).

(** 204 No Content first, 200 afterwards. *)
Definition script_204_then_200 (n : nat) : response :=
  match n with
  | O => {| status := 204; set_cookie := None; body := VStr "" |}
  | S _ => {| status := 200; set_cookie := None; body := VStr "ok" |}
  end.

(** Three times 503, then 200. *)
Definition script_3_failures (n : nat) : response :=
  if (n <? 3)%nat
  then {| status := 503; set_cookie := None; body := VStr "busy" |}
  else {| status := 200; set_cookie := None; body := VStr "the 200 body" |}.

(** 429 for ever. *)
Definition script_always_429 (n : nat) : response :=
  {| status := 429; set_cookie := None; body := VStr "slow down" |}.

(** One 503, then the connection is reset. *)
Definition reply_503_then_reset (n : nat) (_ : request) : outcome :=
  match n with
  | O => Resolves {| status := 503; set_cookie := None; body := VNull |}
  | S _ => Rejects "ECONNRESET"
  end.

(** A world whose retry policy allows [n] attempts. *)
Definition world_with_attempts (n : Z) : world :=
  {| GLOBALS := {| endpoint := VStr "https://test.docuware.cloud";
                   cookie := VStr "sid=1";
                   retryMaxCount := n;
                   retryDelayBaseInSeconds := 10;
                   retryDelayRandomMinInSeconds := 10;
                   retryDelayRandomMaxInSeconds := 20 |};
     calls := 0; draws := 0; trace := [] |}.






(** A query result that counts no document and has no [Items] at all, and
    one that claims a document but lists none. *)
Definition result_count_0 : value :=
  VObj [("Count", VObj [("Value", VNum 0)])].

Definition result_count_1_no_items : value :=
  VObj [("Count", VObj [("Value", VNum 1)]); ("Items", VArr [])].

(** A tabular source with the columns DWDOCID and NAME: the page that
    lists the documents [ids], and the record expected for a document. *)
Definition table_page (ids : list Z) : value :=
  VObj [("Headers", VArr [VObj [("FieldName", VStr "DWDOCID")];
                          VObj [("FieldName", VStr "NAME")]]);
        ("Rows", VArr (map (fun i => VObj [("Items", VArr [VNum i; VStr "doc"])]) ids))].

Definition table_record (fileCabinetId : value) (i : Z) : DocumentRecord :=
  {| id := VNum i;
     cabinetId := fileCabinetId;
     row := [("DWDOCID", VNum i); ("NAME", VStr "doc")] |}.

(** The source answers the first call with the page of [ids0], the second
    with the page of [ids1], and every later call with a page without
    rows. *)
Definition two_pages (ids0 ids1 : list Z) (n : nat) : response :=
  {| status := 200;
     set_cookie := None;
     body := match n with
             | 0%nat => table_page ids0
             | 1%nat => table_page ids1
             | _ => table_page []
             end |}.


(** Command lines.  [flags l] reads as [undefined] every flag [l] does not
    give. *)
Definition flags (l : list (string * value)) (flag : string) : value :=
  match JSObject.lookup flag l with
  | Some v => v
  | None => VUndefined
  end.

(** [-m lscabinets -e https://test.docuware.cloud -t ABC -x SID=1] *)
Definition args_token_and_cookie : string -> value :=
  flags [("m", VStr "lscabinets"); ("e", VStr "https://test.docuware.cloud");
         ("t", VStr "ABC"); ("x", VStr "SID=1")].

(** The same without [-t]. *)
Definition args_cookie_only : string -> value :=
  flags [("m", VStr "lscabinets"); ("e", VStr "https://test.docuware.cloud");
         ("x", VStr "SID=1")].

(** [-m update -c "Meter - STG" -q "SERIAL_NO = [3080RC20114]"
     -u "{'SERIAL_NO': '3080RC20119'}" -e ... -x SID=1] *)
Definition args_update : string -> value :=
  flags [("m", VStr "update"); ("e", VStr "https://test.docuware.cloud");
         ("x", VStr "SID=1"); ("c", VStr "Meter - STG");
         ("q", VStr "SERIAL_NO = [3080RC20114]");
         ("u", VStr "{'SERIAL_NO': '3080RC20119'}")].

Definition cabinets_body : value :=
  VObj [("FileCabinet", VArr [VObj [("Name", VStr "Meter - STG"); ("Id", VStr "abc")]])].

Definition query_item (docid : Z) : value :=
  VObj [("Fields", VArr [VObj [("FieldName", VStr "DWDOCID"); ("Item", VNum docid)];
                         VObj [("FieldName", VStr "SERIAL_NO");
                               ("Item", VStr "3080RC20114")]])].

(** A server that lists one cabinet, then answers the query with a link,
    then serves two matching documents. *)
Definition script_two_matches (n : nat) : response :=
  {| status := 200;
     set_cookie := None;
     body := match n with
             | 0%nat => cabinets_body
             | 1%nat => VStr "/docuware/platform/FileCabinets/abc/Query/Documents?q=1"
             | _ => VObj [("Count", VObj [("Value", VNum 2)]);
                          ("Items", VArr [query_item 1; query_item 2])]
             end |}.

(** The host of [script_two_matches], with a [JSON.parse] that accepts the
    update text. *)
Definition host_two_matches : Env :=
  {| axios_reply := fun n _ => Resolves (script_two_matches n);
     Math_random := fun _ => 0%Q;
     StringToNumber := fun _ => None;
     JSON_parse := fun _ => Some (VObj [("SERIAL_NO", VStr "3080RC20119")]);
     Function_return := fun _ => None |}.

Definition two_documents : list DocumentRecord :=
  [ {| id := VNum 1; cabinetId := VStr "abc";
       row := [("DWDOCID", VNum 1); ("SERIAL_NO", VStr "3080RC20114")] |};
    {| id := VNum 2; cabinetId := VStr "abc";
       row := [("DWDOCID", VNum 2); ("SERIAL_NO", VStr "3080RC20114")] |} ].

(** A host whose server is scripted and whose [Function] compiles every
    predicate text to [fields.NAME == 'doc' && fields.DWDOCID != 1]:
    a read of a missing field gives [undefined], the comparison never
    throws. *)
Definition predicate_not_first (fields : JSObject.t value) : res value :=
  let? name := JS.get (VObj fields) "NAME" in
  let? docid := JS.get (VObj fields) "DWDOCID" in
  Ok (VBool (JS.loose_eq (fun _ => None) name (VStr "doc")
             && negb (JS.loose_eq (fun _ => None) docid (VNum 1)))).

Definition host_with_predicate (script : nat -> response) : Env :=
  {| axios_reply := fun n _ => Resolves (script n);
     Math_random := fun _ => 0%Q;
     StringToNumber := fun _ => None;
     JSON_parse := fun _ => None;
     Function_return := fun _ => Some predicate_not_first |}.

(** What [filter] keeps when the predicate [p] does not throw. *)
Definition kept_by (p : JSObject.t value -> res value) (d : DocumentRecord) : bool :=
  match p (row d) with
  | Ok v => JS.truthy v
  | Throw _ => false
  end.


(* ================================================================= *)
(** ** Theorems *)

Unset Implicit Arguments.

(** *** Facts about strings *)

Section StringFacts.

Import JSString.

Lemma append_assoc (a b c : string) : (a ++ b) ++ c = a ++ (b ++ c).
Proof. induction a as [|x a IH]; simpl; [reflexivity | now rewrite IH]. Qed.

Lemma append_empty_r (a : string) : a ++ "" = a.
Proof. induction a as [|x a IH]; simpl; [reflexivity | now rewrite IH]. Qed.

Lemma trimStart_white (w s : string) :
  allWhiteSpace w = true -> trimStart (w ++ s) = trimStart s.
Proof.
  induction w as [|x w IH]; simpl; intros H; [reflexivity|].
  apply andb_true_iff in H as [Hx Hw]. rewrite Hx. auto.
Qed.

Lemma trimEnd_all_white (w : string) :
  allWhiteSpace w = true -> trimEnd w = "".
Proof.
  induction w as [|x w IH]; simpl; intros H; [reflexivity|].
  apply andb_true_iff in H as [Hx Hw]. rewrite (IH Hw), Hx. reflexivity.
Qed.

Lemma trimEnd_white (s w : string) :
  allWhiteSpace w = true -> trimEnd (s ++ w) = trimEnd s.
Proof.
  intros H. induction s as [|x s IH]; simpl.
  - now apply trimEnd_all_white.
  - now rewrite IH.
Qed.

Lemma trimStart_app (s w : string) :
  trimStart (s ++ w) = if allWhiteSpace s then trimStart w else trimStart s ++ w.
Proof.
  induction s as [|x s IH]; simpl; [reflexivity|].
  destruct (isWhiteSpace x); simpl; [exact IH | reflexivity].
Qed.

Lemma trimStart_all_white (w : string) :
  allWhiteSpace w = true -> trimStart w = "".
Proof.
  intros H. rewrite <- (append_empty_r w). now rewrite trimStart_white.
Qed.

(** [trim] forgets white space added at either end. *)
Lemma trim_white_r (s w : string) :
  allWhiteSpace w = true -> trim (s ++ w) = trim s.
Proof.
  intros H. unfold trim. rewrite trimStart_app.
  destruct (allWhiteSpace s) eqn:Hs.
  - now rewrite (trimStart_all_white w H), (trimStart_all_white s Hs).
  - now apply trimEnd_white.
Qed.

Lemma trim_white_l (w s : string) :
  allWhiteSpace w = true -> trim (w ++ s) = trim s.
Proof. intros H. unfold trim. now rewrite trimStart_white. Qed.

Lemma white_has_no (c : ascii) (w : string) :
  isWhiteSpace c = false -> allWhiteSpace w = true -> contains_char c w = false.
Proof.
  intros Hc. induction w as [|x w IH]; simpl; intros H; [reflexivity|].
  apply andb_true_iff in H as [Hx Hw]. rewrite (IH Hw), orb_false_r.
  destruct (Ascii.eqb_spec x c) as [->|]; [congruence | reflexivity].
Qed.

(** [split]: the pieces around a separator, and text without one. *)

Lemma split_not_nil (c : ascii) (s : string) : split c s <> [].
Proof.
  destruct s as [|x s]; simpl; [discriminate|].
  destruct (Ascii.eqb x c); [discriminate|].
  destruct (split c s); discriminate.
Qed.

Lemma split_at_sep (c : ascii) (a b : string) :
  split c (a ++ String c b) = (split c a ++ split c b)%list.
Proof.
  induction a as [|x a IH]; simpl.
  - now rewrite Ascii.eqb_refl.
  - destruct (Ascii.eqb x c); [now rewrite IH|].
    rewrite IH.
    destruct (split c a) as [|h t] eqn:Ha; [now apply split_not_nil in Ha|].
    reflexivity.
Qed.

Lemma split_no_sep_l (c : ascii) (m s h : string) (t : list string) :
  contains_char c m = false -> split c s = h :: t ->
  split c (m ++ s) = (m ++ h) :: t.
Proof.
  intros Hm Hs. induction m as [|x m IH]; simpl in *; [assumption|].
  apply orb_false_iff in Hm as [Hx Hm]. rewrite Hx, (IH Hm). reflexivity.
Qed.

Lemma split_app_head (c : ascii) (l z h : string) (t : list string) :
  split c z = h :: t ->
  split c (l ++ z) = (app_last (split c l) h ++ t)%list.
Proof.
  intros Hz. induction l as [|x l IH]; simpl; [assumption|].
  destruct (Ascii.eqb x c) eqn:Hx.
  - rewrite IH.
    destruct (split c l) as [|h' t'] eqn:Hl; [now apply split_not_nil in Hl|].
    reflexivity.
  - rewrite IH.
    destruct (split c l) as [|h' t'] eqn:Hl; [now apply split_not_nil in Hl|].
    destruct t'; reflexivity.
Qed.

Lemma split_no_sep_r (c : ascii) (l m : string) :
  contains_char c m = false -> split c (l ++ m) = app_last (split c l) m.
Proof.
  intros Hm.
  assert (Hs : split c m = [m]).
  { rewrite <- (append_empty_r m) at 1.
    now rewrite (split_no_sep_l c m "" "" [] Hm eq_refl), append_empty_r. }
  rewrite (split_app_head c l m m [] Hs). now rewrite app_nil_r.
Qed.

Lemma map_app_last_trim (pieces : list string) (w : string) :
  pieces <> [] -> allWhiteSpace w = true ->
  map trim (app_last pieces w) = map trim pieces.
Proof.
  intros Hne Hw. induction pieces as [|p rest IH]; [congruence|].
  destruct rest as [|q rest].
  - simpl. now rewrite trim_white_r.
  - change (trim p :: map trim (app_last (q :: rest) w) = trim p :: map trim (q :: rest)).
    rewrite IH; [reflexivity | discriminate].
Qed.

End StringFacts.

(** *** The query parser *)

Section QueryParser.

Import JSString.

(** The pieces of one condition, trimmed, do not depend on the white
    space around an ['=']. *)
Lemma condition_pieces_white (a b w1 w2 : string) :
  allWhiteSpace w1 = true -> allWhiteSpace w2 = true ->
  map trim (split "=" (a ++ w1 ++ "=" ++ w2 ++ b))
  = map trim (split "=" (a ++ "=" ++ b)).
Proof.
  intros H1 H2.
  assert (N1 : contains_char "=" w1 = false) by (now apply white_has_no).
  assert (N2 : contains_char "=" w2 = false) by (now apply white_has_no).
  rewrite <- (append_assoc a w1).
  change ("=" ++ w2 ++ b) with (String "=" (w2 ++ b)).
  change ("=" ++ b) with (String "=" b).
  rewrite !split_at_sep, !map_app.
  f_equal.
  - rewrite split_no_sep_r by assumption.
    apply map_app_last_trim; [apply split_not_nil | assumption].
  - destruct (split "=" b) as [|h t] eqn:Hb; [now apply split_not_nil in Hb|].
    rewrite (split_no_sep_l "=" w2 b h t N2 Hb). simpl.
    now rewrite trim_white_l.
Qed.

Lemma parseCondition_white (a b w1 w2 : string) :
  allWhiteSpace w1 = true -> allWhiteSpace w2 = true ->
  parseCondition (a ++ w1 ++ "=" ++ w2 ++ b) = parseCondition (a ++ "=" ++ b).
Proof.
  intros H1 H2. unfold parseCondition.
  now rewrite condition_pieces_white.
Qed.

Lemma res_map_cons (f : string -> res Condition) (p : string) (l : list string) :
  res_map f (p :: l)
  = res_bind (f p) (fun y => res_bind (res_map f l) (fun ys => Ok (y :: ys))).
Proof. reflexivity. Qed.

Lemma res_map_app_last (f : string -> res Condition) (x y : string)
      (pieces t : list string) :
  (forall a, f (a ++ x) = f (a ++ y)) ->
  res_map f (app_last pieces x ++ t) = res_map f (app_last pieces y ++ t).
Proof.
  intros Hf. induction pieces as [|p rest IH].
  - pose proof (Hf "") as H0. simpl in H0. simpl. now rewrite H0.
  - destruct rest as [|q rest].
    + simpl. now rewrite Hf.
    + change (res_map f (p :: (app_last (q :: rest) x ++ t)%list)
              = res_map f (p :: (app_last (q :: rest) y ++ t)%list)).
      rewrite !res_map_cons. now rewrite IH.
Qed.

Lemma parseQuery_white (l r w1 w2 : string) :
  allWhiteSpace w1 = true -> allWhiteSpace w2 = true ->
  parseQuery (l ++ w1 ++ "=" ++ w2 ++ r) = parseQuery (l ++ "=" ++ r).
Proof.
  intros H1 H2.
  assert (N1 : contains_char "|" w1 = false) by (now apply white_has_no).
  assert (N2 : contains_char "|" w2 = false) by (now apply white_has_no).
  destruct (split "|" r) as [|h t] eqn:Hr; [now apply split_not_nil in Hr|].
  assert (Hx : split "|" (w1 ++ "=" ++ w2 ++ r) = (w1 ++ "=" ++ w2 ++ h) :: t).
  { apply split_no_sep_l; [assumption|].
    change ("=" ++ w2 ++ r) with ("=" ++ (w2 ++ r)).
    apply (split_no_sep_l "|" "=" (w2 ++ r) (w2 ++ h) t); [reflexivity|].
    now apply split_no_sep_l. }
  assert (Hy : split "|" ("=" ++ r) = ("=" ++ h) :: t).
  { now apply (split_no_sep_l "|" "=" r h t). }
  unfold parseQuery.
  rewrite (split_app_head "|" l _ _ _ Hx), (split_app_head "|" l _ _ _ Hy).
  rewrite (res_map_app_last parseCondition (w1 ++ "=" ++ w2 ++ h) ("=" ++ h) _ t);
    [reflexivity|].
  intros a. now apply parseCondition_white.
Qed.

End QueryParser.

(** C5.  The query ["A = [1] | B = [2]"] parses to the two conditions
    [{DBName:"A",Value:["1"]}] and [{DBName:"B",Value:["2"]}] with
    Operation ["Or"]; and for every input, the white space that surrounds
    an ['='] has no influence on the parsed result: replacing the white
    space [w1], [w2] around an ['='] by any other white space [v1], [v2]
    (or by none) gives the same conditions, or the same exception. *)
Theorem C5_query_parser :
  parseQuery "A = [1] | B = [2]"
  = Ok (mkQueryBody [mkCondition "A" ["1"]; mkCondition "B" ["2"]] "Or")
  /\ forall l r w1 w2 v1 v2 : string,
       JSString.allWhiteSpace w1 = true -> JSString.allWhiteSpace w2 = true ->
       JSString.allWhiteSpace v1 = true -> JSString.allWhiteSpace v2 = true ->
       parseQuery (l ++ w1 ++ "=" ++ w2 ++ r) = parseQuery (l ++ v1 ++ "=" ++ v2 ++ r).
Proof.
  split; [reflexivity|].
  intros l r w1 w2 v1 v2 Hw1 Hw2 Hv1 Hv2.
  rewrite (parseQuery_white l r w1 w2 Hw1 Hw2).
  now rewrite (parseQuery_white l r v1 v2 Hv1 Hv2).
Qed.

Lemma C5_query_parser_witness :
  parseQuery ("SERIAL_NO" ++ "   " ++ "=" ++ "  " ++ "[3080RC20119] | B=[2]")
  = parseQuery ("SERIAL_NO" ++ "" ++ "=" ++ " " ++ "[3080RC20119] | B=[2]").
Proof.
  apply (proj2 C5_query_parser); reflexivity.
Defined.

(** *** The retry wrapper *)

Section RetryWrapper.

Variable E : Env.

Import DocuwareHelper.

Lemma attempt_200 (config : request) (w : world) (r : response) :
  axios_reply E (calls w) config = Resolves r ->
  acceptAnyStatus config = true ->
  status r = 200%Z ->
  attempt E config w = Done (Ok (Some (body r))) (called config w).
Proof.
  intros Hr Ha Hs. unfold attempt, try_catch, bind, axios.
  rewrite Hr, Ha. simpl. rewrite Hs. reflexivity.
Qed.

Lemma attempt_not_200 (config : request) (w : world) (r : response) :
  axios_reply E (calls w) config = Resolves r ->
  acceptAnyStatus config = true ->
  status r <> 200%Z ->
  attempt E config w = Done (Ok None) (backed_off E (called config w)).
Proof.
  intros Hr Ha Hs. unfold attempt, try_catch, bind, axios.
  rewrite Hr, Ha. simpl.
  apply Z.eqb_neq in Hs. rewrite Hs. reflexivity.
Qed.

Lemma attempt_rejected (config : request) (w : world) (what : string) :
  axios_reply E (calls w) config = Rejects what ->
  attempt E config w
  = Done (Ok (Some VNull))
         (logged (ConsoleLogError (TransportError what)) (called config w)).
Proof.
  intros Hr. unfold attempt, try_catch, bind, axios.
  rewrite Hr. reflexivity.
Qed.

Lemma retried_globals (config : request) (k : nat) (w : world) :
  GLOBALS (retried E config k w) = GLOBALS w.
Proof.
  revert w. induction k as [|k IH]; intros w; simpl; [reflexivity|].
  now rewrite IH.
Qed.

Lemma retried_calls (config : request) (k : nat) (w : world) :
  calls (retried E config k w) = (calls w + k)%nat.
Proof.
  revert w. induction k as [|k IH]; intros w; simpl; [lia|].
  rewrite IH. simpl. lia.
Qed.

Lemma retried_count_calls (config : request) (k : nat) (w : world) :
  count_calls (trace (retried E config k w)) = (count_calls (trace w) + k)%nat.
Proof.
  revert w. induction k as [|k IH]; intros w; simpl; [lia|].
  rewrite IH. unfold count_calls. simpl.
  rewrite !filter_app, !length_app. simpl. lia.
Qed.

Lemma retried_count_delays (config : request) (k : nat) (w : world) :
  count_delays (trace (retried E config k w)) = (count_delays (trace w) + k)%nat.
Proof.
  revert w. induction k as [|k IH]; intros w; simpl; [lia|].
  rewrite IH. unfold count_delays. simpl.
  rewrite !filter_app, !length_app. simpl. lia.
Qed.

(** One turn of the GET loop, by the reply it meets. *)
Lemma getRequest_loop_200 n path rt w r :
  axios_reply E (calls w) (get_config (GLOBALS w) path rt) = Resolves r ->
  status r = 200%Z ->
  getRequest_loop E (S n) path rt w
  = Done (Ok (body r)) (called (get_config (GLOBALS w) path rt) w).
Proof.
  intros Hr Hs. simpl. unfold bind at 1. unfold read_globals.
  unfold bind. now rewrite (attempt_200 _ w r Hr eq_refl Hs).
Qed.

Lemma getRequest_loop_not_200 n path rt w r :
  axios_reply E (calls w) (get_config (GLOBALS w) path rt) = Resolves r ->
  status r <> 200%Z ->
  getRequest_loop E (S n) path rt w
  = getRequest_loop E n path rt
      (backed_off E (called (get_config (GLOBALS w) path rt) w)).
Proof.
  intros Hr Hs. simpl. unfold bind at 1. unfold read_globals.
  unfold bind. now rewrite (attempt_not_200 _ w r Hr eq_refl Hs).
Qed.

Lemma getRequest_loop_rejected n path rt w what :
  axios_reply E (calls w) (get_config (GLOBALS w) path rt) = Rejects what ->
  getRequest_loop E (S n) path rt w
  = Done (Ok VNull)
      (logged (ConsoleLogError (TransportError what))
         (called (get_config (GLOBALS w) path rt) w)).
Proof.
  intros Hr. simpl. unfold bind at 1. unfold read_globals.
  unfold bind. now rewrite (attempt_rejected _ w what Hr).
Qed.

Lemma postRequest_loop_200 n path d ct w r :
  axios_reply E (calls w) (post_config (GLOBALS w) path d ct) = Resolves r ->
  status r = 200%Z ->
  postRequest_loop E (S n) path d ct w
  = Done (Ok (body r)) (called (post_config (GLOBALS w) path d ct) w).
Proof.
  intros Hr Hs. simpl. unfold bind at 1. unfold read_globals.
  unfold bind. now rewrite (attempt_200 _ w r Hr eq_refl Hs).
Qed.

Lemma postRequest_loop_not_200 n path d ct w r :
  axios_reply E (calls w) (post_config (GLOBALS w) path d ct) = Resolves r ->
  status r <> 200%Z ->
  postRequest_loop E (S n) path d ct w
  = postRequest_loop E n path d ct
      (backed_off E (called (post_config (GLOBALS w) path d ct) w)).
Proof.
  intros Hr Hs. simpl. unfold bind at 1. unfold read_globals.
  unfold bind. now rewrite (attempt_not_200 _ w r Hr eq_refl Hs).
Qed.

Lemma postRequest_loop_rejected n path d ct w what :
  axios_reply E (calls w) (post_config (GLOBALS w) path d ct) = Rejects what ->
  postRequest_loop E (S n) path d ct w
  = Done (Ok VNull)
      (logged (ConsoleLogError (TransportError what))
         (called (post_config (GLOBALS w) path d ct) w)).
Proof.
  intros Hr. simpl. unfold bind at 1. unfold read_globals.
  unfold bind. now rewrite (attempt_rejected _ w what Hr).
Qed.

(** [k] turns that each meet a status other than 200 leave the loop where
    it was, [k] turns later. *)
Lemma getRequest_loop_retried k : forall n path rt w,
  (forall j, (j < k)%nat ->
     not_200 (axios_reply E (calls w + j) (get_config (GLOBALS w) path rt))) ->
  getRequest_loop E (k + n) path rt w
  = getRequest_loop E n path rt (retried E (get_config (GLOBALS w) path rt) k w).
Proof.
  induction k as [|k IH]; intros n path rt w H; [reflexivity|].
  destruct (H 0%nat) as (r & Hr & Hs); [lia|].
  rewrite Nat.add_0_r in Hr.
  change (S k + n)%nat with (S (k + n)).
  rewrite (getRequest_loop_not_200 _ _ _ _ r Hr Hs).
  rewrite IH; [reflexivity|].
  intros j Hj. simpl GLOBALS. simpl calls.
  replace (S (calls w) + j)%nat with (calls w + S j)%nat by lia.
  apply H. lia.
Qed.

Lemma postRequest_loop_retried k : forall n path d ct w,
  (forall j, (j < k)%nat ->
     not_200 (axios_reply E (calls w + j) (post_config (GLOBALS w) path d ct))) ->
  postRequest_loop E (k + n) path d ct w
  = postRequest_loop E n path d ct (retried E (post_config (GLOBALS w) path d ct) k w).
Proof.
  induction k as [|k IH]; intros n path d ct w H; [reflexivity|].
  destruct (H 0%nat) as (r & Hr & Hs); [lia|].
  rewrite Nat.add_0_r in Hr.
  change (S k + n)%nat with (S (k + n)).
  rewrite (postRequest_loop_not_200 _ _ _ _ _ r Hr Hs).
  rewrite IH; [reflexivity|].
  intros j Hj. simpl GLOBALS. simpl calls.
  replace (S (calls w) + j)%nat with (calls w + S j)%nat by lia.
  apply H. lia.
Qed.

Lemma getRequest_unfold path rt w :
  getRequest E path rt w
  = getRequest_loop E (Z.to_nat (retryMaxCount (GLOBALS w))) path rt w.
Proof. reflexivity. Qed.

Lemma postRequest_unfold path d ct w :
  postRequest E path d ct w
  = postRequest_loop E (Z.to_nat (retryMaxCount (GLOBALS w))) path d ct w.
Proof. reflexivity. Qed.

(** With at least one attempt allowed, a first reply of status 200 ends
    the request after a single call. *)
Lemma getRequest_first_200 path rt w r :
  (0 < retryMaxCount (GLOBALS w))%Z ->
  axios_reply E (calls w) (get_config (GLOBALS w) path rt) = Resolves r ->
  status r = 200%Z ->
  getRequest E path rt w
  = Done (Ok (body r)) (called (get_config (GLOBALS w) path rt) w).
Proof.
  intros Hmax Hr Hs. rewrite getRequest_unfold.
  destruct (Z.to_nat (retryMaxCount (GLOBALS w))) as [|n] eqn:Hn; [lia|].
  now apply getRequest_loop_200.
Qed.

Lemma postRequest_first_200 path d ct w r :
  (0 < retryMaxCount (GLOBALS w))%Z ->
  axios_reply E (calls w) (post_config (GLOBALS w) path d ct) = Resolves r ->
  status r = 200%Z ->
  postRequest E path d ct w
  = Done (Ok (body r)) (called (post_config (GLOBALS w) path d ct) w).
Proof.
  intros Hmax Hr Hs. rewrite postRequest_unfold.
  destruct (Z.to_nat (retryMaxCount (GLOBALS w))) as [|n] eqn:Hn; [lia|].
  now apply postRequest_loop_200.
Qed.

(** A run whose first [k] replies carry a status other than 200 and whose
    next reply carries 200. *)
Lemma getRequest_until_200 path rt w k r :
  (k < Z.to_nat (retryMaxCount (GLOBALS w)))%nat ->
  (forall j, (j < k)%nat ->
     not_200 (axios_reply E (calls w + j) (get_config (GLOBALS w) path rt))) ->
  axios_reply E (calls w + k) (get_config (GLOBALS w) path rt) = Resolves r ->
  status r = 200%Z ->
  getRequest E path rt w
  = Done (Ok (body r))
      (called (get_config (GLOBALS w) path rt)
         (retried E (get_config (GLOBALS w) path rt) k w)).
Proof.
  intros Hk Hbefore Hat Hs. rewrite getRequest_unfold.
  set (maxAttempts := Z.to_nat (retryMaxCount (GLOBALS w))) in *.
  replace maxAttempts with (k + S (maxAttempts - S k))%nat by lia.
  rewrite getRequest_loop_retried by assumption.
  pose proof (getRequest_loop_200 (maxAttempts - S k) path rt
                (retried E (get_config (GLOBALS w) path rt) k w) r) as H.
  rewrite retried_globals, retried_calls in H. now apply H.
Qed.

Lemma postRequest_until_200 path d ct w k r :
  (k < Z.to_nat (retryMaxCount (GLOBALS w)))%nat ->
  (forall j, (j < k)%nat ->
     not_200 (axios_reply E (calls w + j) (post_config (GLOBALS w) path d ct))) ->
  axios_reply E (calls w + k) (post_config (GLOBALS w) path d ct) = Resolves r ->
  status r = 200%Z ->
  postRequest E path d ct w
  = Done (Ok (body r))
      (called (post_config (GLOBALS w) path d ct)
         (retried E (post_config (GLOBALS w) path d ct) k w)).
Proof.
  intros Hk Hbefore Hat Hs. rewrite postRequest_unfold.
  set (maxAttempts := Z.to_nat (retryMaxCount (GLOBALS w))) in *.
  replace maxAttempts with (k + S (maxAttempts - S k))%nat by lia.
  rewrite postRequest_loop_retried by assumption.
  pose proof (postRequest_loop_200 (maxAttempts - S k) path d ct
                (retried E (post_config (GLOBALS w) path d ct) k w) r) as H.
  rewrite retried_globals, retried_calls in H. now apply H.
Qed.

(** The calls and the delays of such a run. *)
Lemma until_200_counts config k w :
  count_calls (trace (called config (retried E config k w)))
  = (count_calls (trace w) + k + 1)%nat
  /\ count_delays (trace (called config (retried E config k w)))
     = (count_delays (trace w) + k)%nat.
Proof.
  pose proof (retried_count_calls config k w) as Hc.
  pose proof (retried_count_delays config k w) as Hd.
  unfold count_calls, count_delays in *. simpl.
  rewrite !filter_app, !length_app. simpl. lia.
Qed.

End RetryWrapper.

(** C4.  For any sequence [resp] of HTTP responses: if the first response
    with status 200 is the one to attempt [k] and [k] is within
    [retryMaxCount] attempts, [getRequest] and [postRequest] return its
    body, after exactly [k] backoffs and [k + 1] calls; if all
    [retryMaxCount] attempts meet a status other than 200, [getRequest]
    returns [undefined] and [postRequest] returns [null]. *)
Theorem C4_retry_until_200 (E : Env) (w : world) (path : string)
        (rt : option string) (d : payload) (ct : option string)
        (resp : nat -> response) :
  let maxAttempts := Z.to_nat (retryMaxCount (GLOBALS w)) in
  let get := DocuwareHelper.get_config (GLOBALS w) path rt in
  let post := DocuwareHelper.post_config (GLOBALS w) path d ct in
  (forall k : nat,
      (k < maxAttempts)%nat ->
      (forall j, (j < k)%nat -> status (resp j) <> 200%Z) ->
      status (resp k) = 200%Z ->
      ((forall j, (j <= k)%nat -> axios_reply E (calls w + j) get = Resolves (resp j)) ->
       DocuwareHelper.getRequest E path rt w
       = Done (Ok (body (resp k))) (called get (retried E get k w)))
      /\
      ((forall j, (j <= k)%nat -> axios_reply E (calls w + j) post = Resolves (resp j)) ->
       DocuwareHelper.postRequest E path d ct w
       = Done (Ok (body (resp k))) (called post (retried E post k w))))
  /\
  ((forall j, (j < maxAttempts)%nat -> status (resp j) <> 200%Z) ->
   ((forall j, (j < maxAttempts)%nat -> axios_reply E (calls w + j) get = Resolves (resp j)) ->
    DocuwareHelper.getRequest E path rt w
    = Done (Ok VUndefined) (retried E get maxAttempts w))
   /\
   ((forall j, (j < maxAttempts)%nat -> axios_reply E (calls w + j) post = Resolves (resp j)) ->
    DocuwareHelper.postRequest E path d ct w
    = Done (Ok VNull) (retried E post maxAttempts w))).
Proof.
  intros maxAttempts get post. split.
  - intros k Hk Hbefore Hat. split; intros Hreply.
    + apply getRequest_until_200; try assumption; [|apply Hreply; lia].
      intros j Hj. exists (resp j). split; [apply Hreply; lia | now apply Hbefore].
    + apply postRequest_until_200; try assumption; [|apply Hreply; lia].
      intros j Hj. exists (resp j). split; [apply Hreply; lia | now apply Hbefore].
  - intros Hall. split; intros Hreply.
    + rewrite getRequest_unfold. fold maxAttempts.
      rewrite <- (Nat.add_0_r maxAttempts) at 1.
      rewrite getRequest_loop_retried; [reflexivity|].
      intros j Hj. exists (resp j). split; [now apply Hreply | now apply Hall].
    + rewrite postRequest_unfold. fold maxAttempts.
      rewrite <- (Nat.add_0_r maxAttempts) at 1.
      rewrite postRequest_loop_retried; [reflexivity|].
      intros j Hj. exists (resp j). split; [now apply Hreply | now apply Hall].
Qed.

Lemma script_3_failures_before (j : nat) :
  (j < 3)%nat -> status (script_3_failures j) <> 200%Z.
Proof.
  intros Hj. unfold script_3_failures.
  destruct (Nat.ltb_spec j 3); [discriminate | lia].
Qed.

(** Three responses 503 followed by a 200: the 200 body is returned. *)
Lemma C4_retry_until_200_witness :
  DocuwareHelper.getRequest (scripted script_3_failures) "docuware/platform/Organizations"
    None (world_with_attempts 100)
  = Done (Ok (VStr "the 200 body"))
      (called (DocuwareHelper.get_config (GLOBALS (world_with_attempts 100))
                 "docuware/platform/Organizations" None)
         (retried (scripted script_3_failures)
            (DocuwareHelper.get_config (GLOBALS (world_with_attempts 100))
               "docuware/platform/Organizations" None)
            3 (world_with_attempts 100))).
Proof.
  refine (proj1 (proj1 (C4_retry_until_200 (scripted script_3_failures)
                          (world_with_attempts 100) "docuware/platform/Organizations"
                          None NoData None script_3_failures)
                   3%nat _ script_3_failures_before eq_refl) _).
  - simpl. lia.
  - intros j _. reflexivity.
Defined.

(** C9.  When the HTTP call of an attempt raises a transport-level
    exception (here after [k] earlier attempts that met a status other
    than 200), [getRequest] and [postRequest] catch it, log it and return
    [null] at once: the run ends after [k + 1] calls, however many
    attempts the retry policy still allows. *)
Theorem C9_transport_exception (E : Env) (w : world) (path : string)
        (rt : option string) (d : payload) (ct : option string)
        (k : nat) (what : string) :
  let maxAttempts := Z.to_nat (retryMaxCount (GLOBALS w)) in
  let get := DocuwareHelper.get_config (GLOBALS w) path rt in
  let post := DocuwareHelper.post_config (GLOBALS w) path d ct in
  (k < maxAttempts)%nat ->
  ((forall j, (j < k)%nat -> not_200 (axios_reply E (calls w + j) get)) ->
   axios_reply E (calls w + k) get = Rejects what ->
   exists w',
     DocuwareHelper.getRequest E path rt w = Done (Ok VNull) w'
     /\ w' = logged (ConsoleLogError (TransportError what)) (called get (retried E get k w))
     /\ calls w' = (calls w + k + 1)%nat)
  /\
  ((forall j, (j < k)%nat -> not_200 (axios_reply E (calls w + j) post)) ->
   axios_reply E (calls w + k) post = Rejects what ->
   exists w',
     DocuwareHelper.postRequest E path d ct w = Done (Ok VNull) w'
     /\ w' = logged (ConsoleLogError (TransportError what)) (called post (retried E post k w))
     /\ calls w' = (calls w + k + 1)%nat).
Proof.
  intros maxAttempts get post Hk. split; intros Hbefore Hat; eexists; split.
  - rewrite getRequest_unfold. fold maxAttempts.
    replace maxAttempts with (k + S (maxAttempts - S k))%nat by lia.
    rewrite getRequest_loop_retried by assumption.
    pose proof (@getRequest_loop_rejected E (maxAttempts - S k) path rt
                  (retried E get k w) what) as H.
    rewrite retried_globals, retried_calls in H.
    apply H. exact Hat.
  - split; [reflexivity|]. simpl. rewrite retried_calls. lia.
  - rewrite postRequest_unfold. fold maxAttempts.
    replace maxAttempts with (k + S (maxAttempts - S k))%nat by lia.
    rewrite postRequest_loop_retried by assumption.
    pose proof (@postRequest_loop_rejected E (maxAttempts - S k) path d ct
                  (retried E post k w) what) as H.
    rewrite retried_globals, retried_calls in H.
    apply H. exact Hat.
  - split; [reflexivity|]. simpl. rewrite retried_calls. lia.
Qed.

(** A 503, then a connection reset: two calls, [null], and the remaining
    98 attempts are not made. *)
Lemma C9_transport_exception_witness :
  exists w',
    DocuwareHelper.getRequest (host reply_503_then_reset) "docuware/platform/Organizations"
      None (world_with_attempts 100) = Done (Ok VNull) w'
    /\ w' = logged (ConsoleLogError (TransportError "ECONNRESET"))
              (called (DocuwareHelper.get_config (GLOBALS (world_with_attempts 100))
                         "docuware/platform/Organizations" None)
                 (retried (host reply_503_then_reset)
                    (DocuwareHelper.get_config (GLOBALS (world_with_attempts 100))
                       "docuware/platform/Organizations" None)
                    1 (world_with_attempts 100)))
    /\ calls w' = 2%nat.
Proof.
  refine (proj1 (C9_transport_exception (host reply_503_then_reset)
                   (world_with_attempts 100) "docuware/platform/Organizations"
                   None NoData None 1%nat "ECONNRESET" _) _ eq_refl).
  - simpl. lia.
  - intros j Hj. assert (j = 0%nat) as -> by lia.
    eexists. split; [reflexivity | discriminate].
Defined.

(** C2 (as amended).  In both retry loops, a response whose status is 200
    is returned at once as the result, with no delay; a response with any
    other status, 2xx or not, is not returned: it triggers one backoff
    delay, after which the loop goes on with the attempts that remain.
    So in a run that ends with the body of a response, that response is
    the first one with status 200, and the delays of the run are as many
    as the responses before it. *)
Theorem C2_retry_unless_200 (E : Env) (w : world) (path : string)
        (rt : option string) (d : payload) (ct : option string)
        (n : nat) (r : response) :
  let get := DocuwareHelper.get_config (GLOBALS w) path rt in
  let post := DocuwareHelper.post_config (GLOBALS w) path d ct in
  (axios_reply E (calls w) get = Resolves r ->
   DocuwareHelper.getRequest_loop E (S n) path rt w
   = if (status r =? 200)%Z
     then Done (Ok (body r)) (called get w)
     else DocuwareHelper.getRequest_loop E n path rt (backed_off E (called get w)))
  /\
  (axios_reply E (calls w) post = Resolves r ->
   DocuwareHelper.postRequest_loop E (S n) path d ct w
   = if (status r =? 200)%Z
     then Done (Ok (body r)) (called post w)
     else DocuwareHelper.postRequest_loop E n path d ct (backed_off E (called post w)))
  /\
  (forall k : nat,
      (k < Z.to_nat (retryMaxCount (GLOBALS w)))%nat ->
      (forall j, (j < k)%nat -> not_200 (axios_reply E (calls w + j) get)) ->
      axios_reply E (calls w + k) get = Resolves r ->
      status r = 200%Z ->
      exists w',
        DocuwareHelper.getRequest E path rt w = Done (Ok (body r)) w'
        /\ count_calls (trace w') = (count_calls (trace w) + k + 1)%nat
        /\ count_delays (trace w') = (count_delays (trace w) + k)%nat).
Proof.
  intros get post. split; [|split].
  - intros Hr. destruct (Z.eqb_spec (status r) 200) as [Hs|Hs].
    + now apply getRequest_loop_200.
    + now apply getRequest_loop_not_200 with (r := r).
  - intros Hr. destruct (Z.eqb_spec (status r) 200) as [Hs|Hs].
    + now apply postRequest_loop_200.
    + now apply postRequest_loop_not_200 with (r := r).
  - intros k Hk Hbefore Hat Hs. eexists. split.
    + exact (getRequest_until_200 E path rt w k r Hk Hbefore Hat Hs).
    + apply until_200_counts.
Qed.

Lemma C2_retry_unless_200_witness :
  DocuwareHelper.getRequest_loop (scripted script_204_then_200) 2
    "docuware/platform/Organizations" None (world_with_attempts 2)
  = DocuwareHelper.getRequest_loop (scripted script_204_then_200) 1
      "docuware/platform/Organizations" None
      (backed_off (scripted script_204_then_200)
         (called (DocuwareHelper.get_config (GLOBALS (world_with_attempts 2))
                    "docuware/platform/Organizations" None)
            (world_with_attempts 2))).
Proof.
  exact (proj1 (C2_retry_unless_200 (scripted script_204_then_200) (world_with_attempts 2)
                  "docuware/platform/Organizations" None NoData None 1
                  (script_204_then_200 0)) eq_refl).
Defined.

(** C2 as stated fails: 204 is a 2xx status, yet the response that carries
    it is not returned; the wrapper waits 10 seconds and sends the request
    again. *)
Lemma C2_counterexample :
  let first := script_204_then_200 0 in
  let config := DocuwareHelper.get_config (GLOBALS (world_with_attempts 100))
                  "docuware/platform/Organizations" None in
  (200 <= status first < 300)%Z
  /\ DocuwareHelper.getRequest (scripted script_204_then_200)
       "docuware/platform/Organizations" None (world_with_attempts 100)
     = Done (Ok (VStr "ok"))
         {| GLOBALS := GLOBALS (world_with_attempts 100);
            calls := 2; draws := 1;
            trace := [HttpCall config; Delay 10; HttpCall config] |}.
Proof.
  split; [simpl; lia | reflexivity].
Qed.

(** *** [formatCookie] *)

Section CookieFacts.

Import JSString.




Lemma contains_char_app (c : ascii) (a b : string) :
  contains_char c (a ++ b) = contains_char c a || contains_char c b.
Proof.
  induction a as [|x a IH]; simpl; [reflexivity|].
  now rewrite IH, orb_assoc.
Qed.





End CookieFacts.

Section CookieObject.










Lemma index_keys_plain (ks : list string) :
  forallb plain_name ks = true -> JSObject.index_keys ks = [].
Proof.
  induction ks as [|k ks IH]; simpl; intros H; [reflexivity|].
  apply andb_true_iff in H as [Hk H]. unfold plain_name, JSObject.isArrayIndex in Hk.
  destruct (JSObject.arrayIndex k); [discriminate | now apply IH].
Qed.





End CookieObject.




(** *** The single-document translator *)

Section DocumentFields.

Import DocuwareHelper.








End DocumentFields.




(** *** The query result translator *)

Section QueryResult.

Variable E : Env.

Import DocuwareHelper.

Lemma getDocumentsWithQuery_zero_count (documentCabinetId fetchedDocuments count countValue : value)
      (w : world) (q link : string) (jsonBody : QueryBody) (r1 r2 : response) :
  JS.get fetchedDocuments "Count" = Ok count ->
  JS.get count "Value" = Ok countValue ->
  JS.loose_eq (StringToNumber E) countValue (VNum 0) = true ->
  (0 < retryMaxCount (GLOBALS w))%Z ->
  parseQuery q = Ok jsonBody ->
  let post := post_config (GLOBALS w)
                ("docuware/platform/FileCabinets/" ++ JS.to_string documentCabinetId
                 ++ "/Query/DialogExpressionLink")
                (JsonQuery jsonBody) (Some "application/json") in
  let get := get_config (GLOBALS w) (JSString.substring_from 1 link) None in
  axios_reply E (calls w) post = Resolves r1 ->
  status r1 = 200%Z -> body r1 = VStr link ->
  axios_reply E (S (calls w)) get = Resolves r2 ->
  status r2 = 200%Z -> body r2 = fetchedDocuments ->
  getDocumentsWithQuery E documentCabinetId (VStr q) w
  = Done (Ok []) (called get (called post w)).
Proof.
  intros Hc Hv Hz Hmax Hq post get H1 Hs1 Hb1 H2 Hs2 Hb2.
  unfold getDocumentsWithQuery.
  unfold bind at 1. unfold lift at 1. simpl JS.string_method. cbn [res_bind].
  rewrite Hq.
  unfold bind at 1.
  rewrite (postRequest_first_200 E _ _ _ w r1 Hmax H1 Hs1). rewrite Hb1.
  unfold bind at 1. unfold lift at 1. simpl JS.string_method. cbn [res_bind].
  unfold bind at 1.
  rewrite (getRequest_first_200 E _ _ (called post w) r2); [| assumption | exact H2 | assumption].
  rewrite Hb2. unfold lift, query_documents.
  rewrite Hc. cbn [res_bind]. rewrite Hv. cbn [res_bind]. rewrite Hz. reflexivity.
Qed.

End QueryResult.

(** C7.  When the count of the fetched result is zero,
    [getDocumentsWithQuery] returns the empty list whatever the result
    holds besides its count: [Items] is not read, be it absent, empty or
    not an array at all; the run consists of the two requests and nothing
    is thrown.  With a count that is not zero, an empty [Items] makes the
    read of its first element's fields throw. *)
Theorem C7_zero_count_short_circuit (E : Env) (documentCabinetId : value)
        (fetchedDocuments count countValue : value) :
  JS.get fetchedDocuments "Count" = Ok count ->
  JS.get count "Value" = Ok countValue ->
  (JS.loose_eq (StringToNumber E) countValue (VNum 0) = true ->
   DocuwareHelper.query_documents E documentCabinetId fetchedDocuments = Ok []
   /\ forall (w : world) (q link : string) (jsonBody : QueryBody) (r1 r2 : response),
       (0 < retryMaxCount (GLOBALS w))%Z ->
       parseQuery q = Ok jsonBody ->
       let post := DocuwareHelper.post_config (GLOBALS w)
                     ("docuware/platform/FileCabinets/" ++ JS.to_string documentCabinetId
                      ++ "/Query/DialogExpressionLink")
                     (JsonQuery jsonBody) (Some "application/json") in
       let get := DocuwareHelper.get_config (GLOBALS w)
                    (JSString.substring_from 1 link) None in
       axios_reply E (calls w) post = Resolves r1 ->
       status r1 = 200%Z -> body r1 = VStr link ->
       axios_reply E (S (calls w)) get = Resolves r2 ->
       status r2 = 200%Z -> body r2 = fetchedDocuments ->
       DocuwareHelper.getDocumentsWithQuery E documentCabinetId (VStr q) w
       = Done (Ok []) (called get (called post w)))
  /\ (JS.loose_eq (StringToNumber E) countValue (VNum 0) = false ->
      JS.get fetchedDocuments "Items" = Ok (VArr []) ->
      DocuwareHelper.query_documents E documentCabinetId fetchedDocuments
      = Throw (TypeError "Cannot read properties of undefined (reading 'Fields')")).
Proof.
  intros Hc Hv. split; intros Hz.
  - split.
    + unfold DocuwareHelper.query_documents.
      rewrite Hc. simpl. rewrite Hv. simpl. now rewrite Hz.
    + intros w q link jsonBody r1 r2 Hmax Hq post get H1 Hs1 Hb1 H2 Hs2 Hb2.
      now apply (@getDocumentsWithQuery_zero_count E documentCabinetId fetchedDocuments
                   count countValue w q link jsonBody r1 r2).
  - intros Hitems. unfold DocuwareHelper.query_documents.
    rewrite Hc. simpl. rewrite Hv. simpl. rewrite Hz, Hitems. reflexivity.
Qed.

Lemma C7_zero_count_short_circuit_witness :
  DocuwareHelper.query_documents (host (fun _ _ => Rejects "offline")) (VStr "cab")
    result_count_0 = Ok []
  /\ DocuwareHelper.query_documents (host (fun _ _ => Rejects "offline")) (VStr "cab")
       result_count_1_no_items
     = Throw (TypeError "Cannot read properties of undefined (reading 'Fields')").
Proof.
  split.
  - exact (proj1 (proj1 (@C7_zero_count_short_circuit (host (fun _ _ => Rejects "offline"))
                           (VStr "cab") result_count_0 (VObj [("Value", VNum 0)]) (VNum 0)
                           eq_refl eq_refl) eq_refl)).
  - exact (proj2 (@C7_zero_count_short_circuit (host (fun _ _ => Rejects "offline"))
                    (VStr "cab") result_count_1_no_items (VObj [("Value", VNum 1)]) (VNum 1)
                    eq_refl eq_refl) eq_refl eq_refl).
Defined.

(** *** Pagination *)

Section Pagination.

Variable E : Env.

Import DocuwareHelper.

Lemma no_rows_nonempty (l : list value) :
  l <> [] -> no_rows E (VArr l) = Ok false.
Proof.
  intros H. unfold no_rows. simpl.
  destruct l as [|x l]; [contradiction | reflexivity].
Qed.


Lemma loop_continues fuel cab start documents headers w page w1 hs l processed :
  getRequest E (table_url cab start) None w = Done (Ok page) w1 ->
  names_for headers page = Ok hs ->
  JS.get page "Rows" = Ok (VArr l) ->
  l <> [] ->
  res_map (table_row hs cab) l = Ok processed ->
  getAllDocuments_loop E (S fuel) cab start documents headers w
  = getAllDocuments_loop E fuel cab (start + batchRequestCount)
      (documents ++ processed)%list (Some hs) w1.
Proof.
  intros Hget Hh Hrows Hne Hmap. cbn [getAllDocuments_loop].
  unfold bind at 1. rewrite Hget.
  unfold bind at 1.
  assert (Hn : match headers with
               | Some h => ret h
               | None => lift (table_headers page)
               end w1 = Done (Ok hs) w1).
  { destruct headers; simpl in Hh; [now inversion Hh | unfold lift; now rewrite Hh]. }
  rewrite Hn. unfold bind at 1. unfold lift at 1. rewrite Hrows.
  unfold bind at 1. unfold lift at 1. rewrite (no_rows_nonempty l Hne).
  unfold bind at 1. unfold lift at 1. cbn [JS.array_method].
  unfold bind at 1. unfold lift at 1. rewrite Hmap. reflexivity.
Qed.



End Pagination.

Section TablePages.

Import DocuwareHelper.




End TablePages.





(** *** The command dispatcher *)

Section Dispatcher.

Variable E : Env.
Variable args : string -> value.

Import DocuwareCMD.






(** With both a token and a cookie, [execute] ends at the message. *)
Lemma execute_token_and_cookie (fuel : nat) (w : world) :
  JS.truthy (args "m") = true ->
  JS.truthy (args "e") = true ->
  equals E (args "m") "gencookie" = false ->
  equals E (args "m") "gentoken" = false ->
  JS.truthy (args "t") = true ->
  JS.truthy (args "x") = true ->
  exists g,
    execute E args fuel w
    = Done (Ok tt)
        {| GLOBALS := g; calls := calls w; draws := draws w;
           trace := (trace w
                     ++ [ConsoleLog (VStr "both cookie and token were provided... using existing cookie.")])%list |}
    /\ cookie g = cookie (GLOBALS w).
Proof.
  intros Hm He Hc Ht Htok Hcook. unfold execute.
  unfold bind at 1. unfold retry_overrides at 1. unfold bind at 1, read_globals at 1.
  unfold write_globals at 1. rewrite Hm. cbn [negb].
  unfold bind at 1, set_endpoint at 1. unfold bind at 1, read_globals at 1.
  unfold write_globals at 1. rewrite He, Hc, Ht, Htok, Hcook. cbn [negb andb].
  eexists. split; [reflexivity | reflexivity].
Qed.

End Dispatcher.



(** The whole run for [-m update] with a query that two documents match:
    the cabinet list, the query and its result are fetched, and the run
    ends at the message; no request goes to a [.../Fields] address. *)
Example execute_update_two_matches :
  exists w',
    DocuwareCMD.execute host_two_matches args_update 1 world_initial = Done (Ok tt) w'
    /\ calls w' = 3%nat
    /\ map (fun e => match e with HttpCall r => url r | _ => "" end)
           (filter (fun e => match e with HttpCall _ => true | _ => false end) (trace w'))
       = ["https://test.docuware.cloud/docuware/platform/FileCabinets?orgid=1";
          "https://test.docuware.cloud/docuware/platform/FileCabinets/abc/Query/DialogExpressionLink";
          "https://test.docuware.cloud/docuware/platform/FileCabinets/abc/Query/Documents?q=1"]
    /\ last (trace w') (Delay 0)
       = ConsoleLog (VStr "Multiple matching documents found, tighten the fitler function.").
Proof.
  eexists. split; [vm_compute; reflexivity|].
  split; [reflexivity|]. split; reflexivity.
Qed.

(** C1.  The claim describes what the message announces; the code does
    something else.  When both [-t] and [-x] are given (in a mode other
    than gencookie and gentoken, with an endpoint), [execute] prints
    "both cookie and token were provided... using existing cookie." and
    returns: no HTTP call is made and the cookie is not installed in
    [GLOBALS], so the operation does not proceed on the cookie path. *)
Theorem C1_token_and_cookie_halts (E : Env) (args : string -> value)
        (fuel : nat) (w : world) :
  JS.truthy (args "m") = true ->
  JS.truthy (args "e") = true ->
  DocuwareCMD.equals E (args "m") "gencookie" = false ->
  DocuwareCMD.equals E (args "m") "gentoken" = false ->
  JS.truthy (args "t") = true ->
  JS.truthy (args "x") = true ->
  exists w',
    DocuwareCMD.execute E args fuel w = Done (Ok tt) w'
    /\ calls w' = calls w
    /\ trace w' = (trace w
                   ++ [ConsoleLog (VStr "both cookie and token were provided... using existing cookie.")])%list
    /\ cookie (GLOBALS w') = cookie (GLOBALS w).
Proof.
  intros Hm He Hc Ht Htok Hcook.
  destruct (@execute_token_and_cookie E args fuel w Hm He Hc Ht Htok Hcook) as (g & H & Hg).
  eexists. split; [exact H|]. auto.
Qed.

(** [-m lscabinets -e ... -t ABC -x SID=1] against a server that would
    list a cabinet: nothing is requested. *)
Lemma C1_token_and_cookie_halts_witness :
  exists w',
    DocuwareCMD.execute (scripted (fun _ => mkResponse 200 None cabinets_body))
      args_token_and_cookie 1 world_initial = Done (Ok tt) w'
    /\ calls w' = 0%nat
    /\ trace w' = [ConsoleLog (VStr "both cookie and token were provided... using existing cookie.")]
    /\ cookie (GLOBALS w') = VStr "".
Proof.
  exact (@C1_token_and_cookie_halts (scripted (fun _ => mkResponse 200 None cabinets_body))
           args_token_and_cookie 1 world_initial eq_refl eq_refl eq_refl eq_refl eq_refl eq_refl).
Defined.

(** The same command line without [-t] does list the cabinet, with the
    cookie in the request. *)
Example execute_cookie_only :
  DocuwareCMD.execute (scripted (fun _ => mkResponse 200 None cabinets_body))
    args_cookie_only 1 world_initial
  = Done (Ok tt)
      {| GLOBALS := {| endpoint := VStr "https://test.docuware.cloud";
                       cookie := VStr "SID=1";
                       retryMaxCount := 100;
                       retryDelayBaseInSeconds := 10;
                       retryDelayRandomMinInSeconds := 10;
                       retryDelayRandomMaxInSeconds := 20 |};
         calls := 1; draws := 0;
         trace := [HttpCall (DocuwareHelper.get_config
                               {| endpoint := VStr "https://test.docuware.cloud";
                                  cookie := VStr "SID=1";
                                  retryMaxCount := 100;
                                  retryDelayBaseInSeconds := 10;
                                  retryDelayRandomMinInSeconds := 10;
                                  retryDelayRandomMaxInSeconds := 20 |}
                               "docuware/platform/FileCabinets?orgid=1" None);
                   ConsoleLog (VStr "Meter - STG: abc")] |}.
Proof. reflexivity. Qed.

(** *** The retry wrapper never throws *)

Section RetryTotal.

Variable E : Env.

Import DocuwareHelper.









End RetryTotal.


(** *** The backoff delay *)

Lemma floor_scaled (k : Z) (r : Q) :
  (0 <= k)%Z -> (0 <= r)%Q -> (r < 1)%Q ->
  (0 <= Qfloor (inject_Z k * r) <= k)%Z
  /\ ((0 < k)%Z -> (Qfloor (inject_Z k * r) < k)%Z).
Proof.
  intros Hk H0 H1.
  assert (Hk' : (inject_Z 0 <= inject_Z k)%Q) by (now rewrite <- Zle_Qle).
  change (inject_Z 0) with 0%Q in Hk'.
  assert (Hlo : (0 <= inject_Z k * r)%Q) by nra.
  assert (Hhi : (inject_Z k * r <= inject_Z k)%Q) by nra.
  split.
  - split.
    + rewrite <- (Qfloor_Z 0). now apply Qfloor_resp_le.
    + rewrite <- (Qfloor_Z k) at 2. now apply Qfloor_resp_le.
  - intros Hpos. rewrite Zlt_Qlt.
    apply Qle_lt_trans with (inject_Z k * r)%Q; [apply Qfloor_le|].
    assert (H : (inject_Z 0 < inject_Z k)%Q) by (now rewrite <- Zlt_Qlt).
    change (inject_Z 0) with 0%Q in H. nra.
Qed.

(** X2.  The backoff both retry loops wait for appends one [Delay] to
    the trace and changes nothing else but the count of random draws.
    When [Math.random()] gives a number in [0, 1) and the configured
    jitter bounds satisfy min <= max, the delay lies between the base
    delay and base + (max - min), and stays strictly below that upper end
    when min < max: with the defaults (10, 10, 20) between 10 and 19
    seconds. *)
Theorem X2_backoff_delay_bounds (E : Env) (w : world) :
  (0 <= Math_random E (draws w))%Q -> (Math_random E (draws w) < 1)%Q ->
  (retryDelayRandomMinInSeconds (GLOBALS w) <= retryDelayRandomMaxInSeconds (GLOBALS w))%Z ->
  exists seconds w',
    DocuwareHelper.backoff E w = Done (Ok tt) w'
    /\ trace w' = (trace w ++ [Delay seconds])%list
    /\ GLOBALS w' = GLOBALS w /\ calls w' = calls w
    /\ (retryDelayBaseInSeconds (GLOBALS w) <= seconds
        <= retryDelayBaseInSeconds (GLOBALS w)
           + (retryDelayRandomMaxInSeconds (GLOBALS w)
              - retryDelayRandomMinInSeconds (GLOBALS w)))%Z
    /\ ((retryDelayRandomMinInSeconds (GLOBALS w)
         < retryDelayRandomMaxInSeconds (GLOBALS w))%Z ->
        (seconds < retryDelayBaseInSeconds (GLOBALS w)
                   + (retryDelayRandomMaxInSeconds (GLOBALS w)
                      - retryDelayRandomMinInSeconds (GLOBALS w)))%Z).
Proof.
  intros H0 H1 Hmm.
  exists (backoff_seconds E w), (backed_off E w).
  split; [reflexivity|]. split; [reflexivity|]. split; [reflexivity|]. split; [reflexivity|].
  unfold backoff_seconds.
  destruct (floor_scaled (retryDelayRandomMaxInSeconds (GLOBALS w)
                          - retryDelayRandomMinInSeconds (GLOBALS w))
              (Math_random E (draws w))) as [Hb Hs]; [lia | assumption | assumption |].
  split; [lia|]. intros Hlt. specialize (Hs ltac:(lia)). lia.
Qed.

Lemma X2_backoff_delay_bounds_witness :
  exists seconds w',
    DocuwareHelper.backoff host_half world_initial = Done (Ok tt) w'
    /\ trace w' = [Delay seconds]
    /\ (10 <= seconds <= 20)%Z /\ (seconds < 20)%Z.
Proof.
  destruct (X2_backoff_delay_bounds host_half world_initial)
    as (seconds & w' & Hrun & Ht & _ & _ & Hb & Hs).
  - discriminate.
  - reflexivity.
  - simpl. lia.
  - exists seconds, w'. split; [exact Hrun|]. split; [exact Ht|].
    simpl in Hb, Hs. split; [lia|]. apply Hs. lia.
Defined.

(** *** The session functions *)

Section Session.

Variable E : Env.

Import DocuwareHelper.

Lemma accepted_test (r : response) :
  accepted r -> ((200 <=? status r)%Z && (status r <? 300)%Z) = true.
Proof.
  intros [H1 H2]. apply andb_true_iff. split; [now apply Z.leb_le | now apply Z.ltb_lt].
Qed.

Lemma axios_accepted (config : request) (w : world) (r : response) :
  axios_reply E (calls w) config = Resolves r ->
  accepted r ->
  axios E config w = Done (Ok r) (called config w).
Proof.
  intros Hr Ha. unfold axios. rewrite Hr, (accepted_test r Ha), orb_true_r. reflexivity.
Qed.

(** A raw [axios] call ends after one call, with a response or an
    exception. *)
Lemma axios_cases (config : request) (w : world) :
  (exists r, axios E config w = Done (Ok r) (called config w))
  \/ (exists e, axios E config w = Done (Throw e) (called config w)).
Proof.
  unfold axios. destruct (axios_reply E (calls w) config) as [r|what].
  - destruct (acceptAnyStatus config || ((200 <=? status r)%Z && (status r <? 300)%Z)).
    + left. now exists r.
    + right. eexists. reflexivity.
  - right. eexists. reflexivity.
Qed.

Lemma generateToken_unfold (username password hostID ep : value) (w : world) :
  generateToken E username password hostID ep w
  = match axios E (logon_request ep username password hostID) (with_endpoint ep w) with
    | Done (Ok response) w1 =>
        match formatCookie_header (set_cookie response) with
        | Ok loginCookie =>
            match axios E (login_token_request ep loginCookie) w1 with
            | Done (Ok response2) w2 =>
                Done (Ok (body response2)) (with_cookie (VStr loginCookie) w2)
            | Done (Throw e) w2 => Done (Throw e) w2
            | OutOfFuel => OutOfFuel
            end
        | Throw e => Done (Throw e) w1
        end
    | Done (Throw e) w1 => Done (Throw e) w1
    | OutOfFuel => OutOfFuel
    end.
Proof.
  unfold generateToken, set_endpoint, set_cookie_global, read_globals, write_globals,
    lift, ret, bind.
  cbv beta iota.
  change (axios E _ _) with
    (axios E (logon_request ep username password hostID) (with_endpoint ep w)) at 1.
  destruct (axios_cases (logon_request ep username password hostID) (with_endpoint ep w))
    as [[r H]|[e H]]; rewrite H; [|reflexivity].
  cbv beta iota.
  destruct (formatCookie_header (set_cookie r)) as [loginCookie|e]; [|reflexivity].
  cbv beta iota.
  change (axios E _ _) with
    (axios E (login_token_request ep loginCookie)
       (called (logon_request ep username password hostID) (with_endpoint ep w))) at 1.
  destruct (axios_cases (login_token_request ep loginCookie)
              (called (logon_request ep username password hostID) (with_endpoint ep w)))
    as [[r2 H2]|[e2 H2]]; rewrite H2; reflexivity.
Qed.

Lemma initAuthFromToken_unfold (token ep : value) (w : world) :
  initAuthFromToken E token ep w
  = match axios E (token_logon_request ep (cookie (GLOBALS w)) token) (with_endpoint ep w) with
    | Done (Ok response) w1 =>
        match formatCookie_header (set_cookie response) with
        | Ok tokenCookie => Done (Ok (VStr tokenCookie)) (with_cookie (VStr tokenCookie) w1)
        | Throw e => Done (Throw e) w1
        end
    | Done (Throw e) w1 => Done (Throw e) w1
    | OutOfFuel => OutOfFuel
    end.
Proof.
  unfold initAuthFromToken, set_endpoint, set_cookie_global, read_globals, write_globals,
    lift, ret, bind.
  cbv beta iota.
  change (axios E _ _) with
    (axios E (token_logon_request ep (cookie (GLOBALS w)) token) (with_endpoint ep w)).
  destruct (axios_cases (token_logon_request ep (cookie (GLOBALS w)) token)
              (with_endpoint ep w)) as [[r H]|[e H]]; rewrite H; [|reflexivity].
  cbv beta iota.
  destruct (formatCookie_header (set_cookie r)) as [c|e]; reflexivity.
Qed.

Lemma generateToken_success (username password hostID ep : value) (w : world)
      (r1 r2 : response) (headers : list string) :
  axios_reply E (calls w) (logon_request ep username password hostID) = Resolves r1 ->
  accepted r1 ->
  set_cookie r1 = Some headers ->
  axios_reply E (S (calls w)) (login_token_request ep (formatCookie headers)) = Resolves r2 ->
  accepted r2 ->
  generateToken E username password hostID ep w
  = Done (Ok (body r2))
      (with_cookie (VStr (formatCookie headers))
         (called (login_token_request ep (formatCookie headers))
            (called (logon_request ep username password hostID) (with_endpoint ep w)))).
Proof.
  intros H1 A1 Hc H2 A2. rewrite generateToken_unfold.
  rewrite (axios_accepted _ (with_endpoint ep w) r1 H1 A1), Hc. cbn [formatCookie_header].
  now rewrite (axios_accepted _ (called _ (with_endpoint ep w)) r2 H2 A2).
Qed.

Lemma initAuthFromToken_success (token ep : value) (w : world)
      (r : response) (headers : list string) :
  axios_reply E (calls w) (token_logon_request ep (cookie (GLOBALS w)) token) = Resolves r ->
  accepted r ->
  set_cookie r = Some headers ->
  initAuthFromToken E token ep w
  = Done (Ok (VStr (formatCookie headers)))
      (with_cookie (VStr (formatCookie headers))
         (called (token_logon_request ep (cookie (GLOBALS w)) token) (with_endpoint ep w))).
Proof.
  intros H1 A1 Hc. rewrite initAuthFromToken_unfold.
  now rewrite (axios_accepted _ (with_endpoint ep w) r H1 A1), Hc.
Qed.

End Session.

(** X3.  [generateToken] on a server that accepts both requests: the
    credentials are posted first, without any cookie; the token request
    that follows carries the cookie string [formatCookie] makes of the
    first response's Set-Cookie headers; the data of the second response
    is returned as the token; and in the end [GLOBALS] holds the given
    endpoint and that login cookie.  Exactly two calls are made. *)
Theorem X3_generateToken_success (E : Env) (username password hostID ep : value)
        (w : world) (r1 r2 : response) (headers : list string) :
  axios_reply E (calls w) (logon_request ep username password hostID) = Resolves r1 ->
  accepted r1 ->
  set_cookie r1 = Some headers ->
  axios_reply E (S (calls w)) (login_token_request ep (formatCookie headers)) = Resolves r2 ->
  accepted r2 ->
  exists w',
    DocuwareHelper.generateToken E username password hostID ep w = Done (Ok (body r2)) w'
    /\ trace w' = (trace w ++ [HttpCall (logon_request ep username password hostID);
                               HttpCall (login_token_request ep (formatCookie headers))])%list
    /\ calls w' = (calls w + 2)%nat
    /\ endpoint (GLOBALS w') = ep
    /\ cookie (GLOBALS w') = VStr (formatCookie headers).
Proof.
  intros H1 A1 Hc H2 A2. eexists. split.
  - now apply (generateToken_success E username password hostID ep w r1 r2 headers).
  - cbn. rewrite <- app_assoc. split; [reflexivity|]. split; [lia|]. split; reflexivity.
Qed.

Lemma X3_generateToken_success_witness :
  exists w',
    DocuwareHelper.generateToken (scripted script_login) (VStr "user") (VStr "secret")
      (VStr "123-456") (VStr "https://test.docuware.cloud") world_initial
    = Done (Ok (VStr "TOKEN-1")) w'
    /\ calls w' = 2%nat
    /\ cookie (GLOBALS w') = VStr ".DWPLATFORMAUTH=login".
Proof.
  destruct (X3_generateToken_success (scripted script_login) (VStr "user") (VStr "secret")
              (VStr "123-456") (VStr "https://test.docuware.cloud") world_initial
              (script_login 0) (script_login 1)
              [".DWPLATFORMAUTH=login; path=/; HttpOnly"])
    as (w' & Hrun & _ & Hcalls & _ & Hcookie).
  - reflexivity.
  - unfold accepted; simpl; lia.
  - reflexivity.
  - reflexivity.
  - unfold accepted; simpl; lia.
  - exists w'. split; [exact Hrun|]. split; [exact Hcalls | exact Hcookie].
Defined.

(** X4.  [initAuthFromToken] on a server that accepts the exchange: one
    call is made, carrying the token and, as its Cookie header, whatever
    cookie [GLOBALS] held before; the cookie string made of the response's
    Set-Cookie headers replaces it in [GLOBALS] and is the value
    returned. *)
Theorem X4_initAuthFromToken_success (E : Env) (token ep : value) (w : world)
        (r : response) (headers : list string) :
  axios_reply E (calls w) (token_logon_request ep (cookie (GLOBALS w)) token) = Resolves r ->
  accepted r ->
  set_cookie r = Some headers ->
  exists w',
    DocuwareHelper.initAuthFromToken E token ep w = Done (Ok (VStr (formatCookie headers))) w'
    /\ trace w' = (trace w ++ [HttpCall (token_logon_request ep (cookie (GLOBALS w)) token)])%list
    /\ calls w' = S (calls w)
    /\ endpoint (GLOBALS w') = ep
    /\ cookie (GLOBALS w') = VStr (formatCookie headers).
Proof.
  intros H1 A1 Hc. eexists. split.
  - now apply (initAuthFromToken_success E token ep w r headers).
  - cbn. repeat split.
Qed.

Lemma X4_initAuthFromToken_success_witness :
  exists w',
    DocuwareHelper.initAuthFromToken (scripted (fun _ => script_login 2)) (VStr "TOKEN-1")
      (VStr "https://test.docuware.cloud") world_initial
    = Done (Ok (VStr ".DWPLATFORMAUTH=session; DWPLATFORMBROWSERID=77")) w'
    /\ calls w' = 1%nat
    /\ cookie (GLOBALS w') = VStr ".DWPLATFORMAUTH=session; DWPLATFORMBROWSERID=77".
Proof.
  destruct (X4_initAuthFromToken_success (scripted (fun _ => script_login 2)) (VStr "TOKEN-1")
              (VStr "https://test.docuware.cloud") world_initial (script_login 2)
              [".DWPLATFORMAUTH=session; path=/; HttpOnly"; "DWPLATFORMBROWSERID=77; path=/"])
    as (w' & Hrun & _ & Hcalls & _ & Hcookie).
  - reflexivity.
  - unfold accepted; simpl; lia.
  - reflexivity.
  - exists w'. split; [exact Hrun|]. split; [exact Hcalls | exact Hcookie].
Defined.

(** X5.  [initAuthFromCreds] chains the two: on a server that accepts the
    three requests, the token exchange carries the login cookie of the
    first response and the token of the second, and the value returned is
    the cookie string made of the third response's Set-Cookie headers,
    which is also what [GLOBALS.cookie] holds in the end. *)
Theorem X5_initAuthFromCreds_success (E : Env) (username password hostID ep : value)
        (w : world) (r1 r2 r3 : response) (headers1 headers3 : list string) :
  axios_reply E (calls w) (logon_request ep username password hostID) = Resolves r1 ->
  accepted r1 ->
  set_cookie r1 = Some headers1 ->
  axios_reply E (S (calls w)) (login_token_request ep (formatCookie headers1)) = Resolves r2 ->
  accepted r2 ->
  axios_reply E (S (S (calls w)))
    (token_logon_request ep (VStr (formatCookie headers1)) (body r2)) = Resolves r3 ->
  accepted r3 ->
  set_cookie r3 = Some headers3 ->
  exists w',
    DocuwareHelper.initAuthFromCreds E username password hostID ep w
    = Done (Ok (VStr (formatCookie headers3))) w'
    /\ trace w'
       = (trace w
          ++ [HttpCall (logon_request ep username password hostID);
              HttpCall (login_token_request ep (formatCookie headers1));
              HttpCall (token_logon_request ep (VStr (formatCookie headers1)) (body r2))])%list
    /\ cookie (GLOBALS w') = VStr (formatCookie headers3)
    /\ endpoint (GLOBALS w') = ep.
Proof.
  intros H1 A1 C1 H2 A2 H3 A3 C3.
  unfold DocuwareHelper.initAuthFromCreds. unfold bind at 1.
  rewrite (generateToken_success E username password hostID ep w r1 r2 headers1
             H1 A1 C1 H2 A2).
  unfold bind at 1.
  rewrite (initAuthFromToken_success E (body r2) ep
             (with_cookie (VStr (formatCookie headers1))
                (called (login_token_request ep (formatCookie headers1))
                   (called (logon_request ep username password hostID)
                      (with_endpoint ep w))))
             r3 headers3 H3 A3 C3).
  eexists. split; [reflexivity|]. cbn. rewrite <- !app_assoc. repeat split.
Qed.

Lemma X5_initAuthFromCreds_success_witness :
  exists w',
    DocuwareHelper.initAuthFromCreds (scripted script_login) (VStr "user") (VStr "secret")
      (VStr "123-456") (VStr "https://test.docuware.cloud") world_initial
    = Done (Ok (VStr ".DWPLATFORMAUTH=session; DWPLATFORMBROWSERID=77")) w'
    /\ cookie (GLOBALS w') = VStr ".DWPLATFORMAUTH=session; DWPLATFORMBROWSERID=77".
Proof.
  destruct (X5_initAuthFromCreds_success (scripted script_login) (VStr "user") (VStr "secret")
              (VStr "123-456") (VStr "https://test.docuware.cloud") world_initial
              (script_login 0) (script_login 1) (script_login 2)
              [".DWPLATFORMAUTH=login; path=/; HttpOnly"]
              [".DWPLATFORMAUTH=session; path=/; HttpOnly"; "DWPLATFORMBROWSERID=77; path=/"])
    as (w' & Hrun & _ & Hcookie & _).
  - reflexivity.
  - unfold accepted; simpl; lia.
  - reflexivity.
  - reflexivity.
  - unfold accepted; simpl; lia.
  - reflexivity.
  - unfold accepted; simpl; lia.
  - reflexivity.
  - exists w'. split; [exact Hrun | exact Hcookie].
Defined.



(** *** Cabinets *)

Section Cabinets.

Variable E : Env.

Import DocuwareHelper.


Lemma get_null_throws (v : value) (k : string) :
  v = VNull \/ v = VUndefined -> exists msg, JS.get v k = Throw (TypeError msg).
Proof. intros [-> | ->]; eexists; reflexivity. Qed.

Lemma cabinets_named_entries (l : list (string * value)) (name : string) :
  cabinets_named E (VArr (map cabinet_entry l)) (VStr name)
  = Ok (map cabinet_entry (filter (fun p => String.eqb (fst p) name) l)).
Proof.
  unfold cabinets_named. cbn [JS.array_method res_bind].
  induction l as [|[n v] l IH]; [reflexivity|].
  cbn [map res_filter]. rewrite IH.
  cbn. destruct (String.eqb n name); reflexivity.
Qed.

Lemma ids_of_entries (l : list (string * value)) :
  res_map (fun x => JS.get x "Id") (map cabinet_entry l) = Ok (map snd l).
Proof.
  induction l as [|[n v] l IH]; [reflexivity|].
  cbn [map res_map]. rewrite IH. reflexivity.
Qed.

End Cabinets.



(** X8.  [getCabinetIDsFromName], when the cabinet list arrives at the
    first attempt: it returns the [Id] of every cabinet whose [Name] is
    exactly the given text, all of them and in the order of the list;
    the comparison is case-sensitive, and no match gives the empty
    list. *)
Theorem X8_getCabinetIDsFromName (E : Env) (w : world) (r : response)
        (l : list (string * value)) (name : string) :
  let config := DocuwareHelper.get_config (GLOBALS w)
                  "docuware/platform/FileCabinets?orgid=1" None in
  (0 < retryMaxCount (GLOBALS w))%Z ->
  axios_reply E (calls w) config = Resolves r ->
  status r = 200%Z ->
  body r = cabinets_reply l ->
  DocuwareHelper.getCabinetIDsFromName E (VStr name) w
  = Done (Ok (map snd (filter (fun p => String.eqb (fst p) name) l))) (called config w).
Proof.
  intros config Hmax Hr Hs Hb.
  unfold DocuwareHelper.getCabinetIDsFromName, DocuwareHelper.getFileCabinets, bind, lift.
  change ("docuware/platform/FileCabinets?orgid=" ++ "1")
    with "docuware/platform/FileCabinets?orgid=1".
  rewrite (getRequest_first_200 E _ None w r Hmax Hr Hs), Hb.
  cbn [cabinets_reply JS.get JSObject.lookup String.eqb Ascii.eqb Bool.eqb].
  rewrite cabinets_named_entries. cbn [res_bind]. now rewrite ids_of_entries.
Qed.

Lemma X8_getCabinetIDsFromName_witness :
  DocuwareHelper.getCabinetIDsFromName
    (scripted (fun _ => mkResponse 200 None
                 (cabinets_reply [("Meter - STG", VStr "a1"); ("meter - stg", VStr "b2");
                                  ("Meter - STG", VStr "c3")])))
    (VStr "Meter - STG") (world_with_attempts 100)
  = Done (Ok [VStr "a1"; VStr "c3"])
      (called (DocuwareHelper.get_config (GLOBALS (world_with_attempts 100))
                 "docuware/platform/FileCabinets?orgid=1" None)
         (world_with_attempts 100)).
Proof.
  apply (X8_getCabinetIDsFromName
           (scripted (fun _ => mkResponse 200 None
                        (cabinets_reply [("Meter - STG", VStr "a1"); ("meter - stg", VStr "b2");
                                         ("Meter - STG", VStr "c3")])))
           (world_with_attempts 100)
           (mkResponse 200 None
              (cabinets_reply [("Meter - STG", VStr "a1"); ("meter - stg", VStr "b2");
                               ("Meter - STG", VStr "c3")]))
           [("Meter - STG", VStr "a1"); ("meter - stg", VStr "b2"); ("Meter - STG", VStr "c3")]
           "Meter - STG").
  - simpl. lia.
  - reflexivity.
  - reflexivity.
  - reflexivity.
Defined.

(** *** The tabular translator *)

Section TableRow.

Import DocuwareHelper.

Lemma set_fresh {V : Type} (k : string) (v : V) (o : JSObject.t V) :
  ~ In k (map fst o) -> JSObject.set k v o = (o ++ [(k, v)])%list.
Proof.
  induction o as [|[k' v'] o IH]; simpl; intros H; [reflexivity|].
  destruct (String.eqb_spec k' k) as [->|Hk]; [exfalso; apply H; now left|].
  rewrite IH; [reflexivity|]. intros Hin. apply H. now right.
Qed.

Lemma skipn_nth (names : list string) : forall k,
  (k < List.length names)%nat ->
  skipn k names = nth k names "undefined" :: skipn (S k) names.
Proof.
  induction names as [|n names IH]; intros k Hk; simpl in Hk; [lia|].
  destruct k as [|k]; [reflexivity|]. simpl. apply IH. lia.
Qed.

Lemma firstn_nth (names : list string) : forall k,
  (k < List.length names)%nat ->
  firstn (S k) names = (firstn k names ++ [nth k names "undefined"])%list.
Proof.
  induction names as [|n names IH]; intros k Hk; simpl in Hk; [lia|].
  destruct k as [|k]; [reflexivity|].
  change (n :: firstn (S k) names = n :: (firstn k names ++ [nth k names "undefined"])%list).
  f_equal. apply IH. lia.
Qed.

Lemma nth_not_before (names : list string) (k : nat) :
  NoDup names -> (k < List.length names)%nat ->
  ~ In (nth k names "undefined") (firstn k names).
Proof.
  intros Hnd Hk Hin.
  rewrite <- (firstn_skipn k names) in Hnd. rewrite (skipn_nth names k Hk) in Hnd.
  apply NoDup_remove_2 in Hnd. apply Hnd. apply in_or_app. now left.
Qed.

Lemma header_key_nth (hs : list value) (k : nat) :
  header_key hs (Z.of_nat k) = nth k (map JS.to_string hs) "undefined".
Proof.
  unfold header_key, JS.nth_value.
  destruct (Z.ltb_spec (Z.of_nat k) 0) as [H|_]; [lia|].
  rewrite Nat2Z.id. change "undefined" with (JS.to_string VUndefined).
  now rewrite map_nth.
Qed.

(** Assigning the items from the [k]-th on, to an object that holds the
    first [k] names. *)
Lemma fold_row_items (hs : list value) (items : list value) : forall k acc,
  NoDup (map JS.to_string hs) ->
  forallb plain_name (map JS.to_string hs) = true ->
  map fst acc = firstn k (map JS.to_string hs) ->
  (k + List.length items <= List.length hs)%nat ->
  fold_left (fun m (p : Z * value) => JSObject.assign (header_key hs (fst p)) (snd p) m)
    (combine (map Z.of_nat (seq k (List.length items))) items) acc
  = (acc ++ combine (skipn k (map JS.to_string hs)) items)%list.
Proof.
  induction items as [|x items IH]; intros k acc Hnd Hplain Hacc Hlen.
  - simpl. destruct (skipn k (map JS.to_string hs)); now rewrite app_nil_r.
  - simpl in Hlen.
    assert (Hk : (k < List.length (map JS.to_string hs))%nat) by (rewrite length_map; lia).
    cbn [List.length seq map combine fold_left fst snd].
    rewrite header_key_nth.
    assert (Hp : plain_name (nth k (map JS.to_string hs) "undefined") = true).
    { rewrite forallb_forall in Hplain. apply Hplain. now apply nth_In. }
    unfold JSObject.assign. unfold plain_name in Hp.
    apply andb_true_iff in Hp as [_ Hp]. apply negb_true_iff in Hp. rewrite Hp.
    rewrite set_fresh by (rewrite Hacc; now apply nth_not_before).
    rewrite IH; try assumption.
    + rewrite (skipn_nth _ k Hk). cbn [combine]. now rewrite <- app_assoc.
    + rewrite map_app, Hacc. cbn [map fst]. symmetry. now apply firstn_nth.
    + lia.
Qed.

Lemma table_row_combine (hs : list value) (cab r : value) (items : list value) :
  JS.get r "Items" = Ok (VArr items) ->
  NoDup (map JS.to_string hs) ->
  forallb plain_name (map JS.to_string hs) = true ->
  (List.length items <= List.length hs)%nat ->
  table_row hs cab r
  = Ok {| id := read_or_undefined "DWDOCID" (combine (map JS.to_string hs) items);
          cabinetId := cab;
          row := combine (map JS.to_string hs) items |}.
Proof.
  intros Hitems Hnd Hplain Hlen. unfold table_row. rewrite Hitems.
  cbn [res_bind JS.array_method]. unfold indexed.
  rewrite (fold_row_items hs items 0 JSObject.empty Hnd Hplain eq_refl); [reflexivity|].
  simpl. lia.
Qed.

Lemma lookup_combine (names : list string) : forall (items : list value) (i : nat),
  NoDup names ->
  (i < List.length items)%nat -> (List.length items <= List.length names)%nat ->
  JSObject.lookup (nth i names "undefined") (combine names items)
  = Some (nth i items VUndefined).
Proof.
  induction names as [|n names IH]; intros items i Hnd Hi Hlen.
  - simpl in Hlen. lia.
  - destruct items as [|x items]; [simpl in Hi; lia|].
    inversion Hnd as [|n' names' Hn Hnd']; subst.
    simpl in Hi, Hlen.
    destruct i as [|i]; cbn [nth combine JSObject.lookup].
    + now rewrite String.eqb_refl.
    + destruct (String.eqb_spec n (nth i names "undefined")) as [Heq|_].
      * exfalso. apply Hn. rewrite Heq. apply nth_In. lia.
      * apply IH; [assumption | lia | lia].
Qed.

End TableRow.

(** X9.  The row callback of [getAllDocumentsFromCabinet] zips the items
    of a row against the header names: when the names are pairwise
    distinct (and none is an array index or ["__proto__"]) and the row has
    no more items than there are names, the field map is exactly the list
    of the pairs (name i, item i) in column order, the record's id is the
    item in the DWDOCID column ([undefined] when there is no such column
    or the row stops before it), and the cabinet id is the one asked
    for. *)
Theorem X9_table_row_zips_items (hs : list value) (fileCabinetId r : value)
        (items : list value) :
  JS.get r "Items" = Ok (VArr items) ->
  NoDup (map JS.to_string hs) ->
  forallb plain_name (map JS.to_string hs) = true ->
  (List.length items <= List.length hs)%nat ->
  exists document,
    DocuwareHelper.table_row hs fileCabinetId r = Ok document
    /\ row document = combine (map JS.to_string hs) items
    /\ id document
       = match JSObject.lookup "DWDOCID" (combine (map JS.to_string hs) items) with
         | Some v => v
         | None => VUndefined
         end
    /\ cabinetId document = fileCabinetId
    /\ forall i, (i < List.length items)%nat ->
         JSObject.lookup (nth i (map JS.to_string hs) "undefined") (row document)
         = Some (nth i items VUndefined).
Proof.
  intros Hitems Hnd Hplain Hlen. eexists. split.
  - now apply (table_row_combine hs fileCabinetId r items).
  - cbn [row id cabinetId]. split; [reflexivity|]. split; [reflexivity|].
    split; [reflexivity|].
    intros i Hi. apply lookup_combine; [assumption | assumption |].
    now rewrite length_map.
Qed.

Lemma X9_table_row_zips_items_witness :
  DocuwareHelper.table_row [VStr "NAME"; VStr "DWDOCID"; VStr "DATE"] (VStr "cab")
    (VObj [("Items", VArr [VStr "invoice"; VNum 5])])
  = Ok {| id := VNum 5; cabinetId := VStr "cab";
          row := [("NAME", VStr "invoice"); ("DWDOCID", VNum 5)] |}.
Proof.
  destruct (X9_table_row_zips_items [VStr "NAME"; VStr "DWDOCID"; VStr "DATE"] (VStr "cab")
              (VObj [("Items", VArr [VStr "invoice"; VNum 5])])
              [VStr "invoice"; VNum 5])
    as ([i c r] & Hrun & Hrow & Hid & Hcab & _).
  - reflexivity.
  - repeat constructor; simpl; intuition discriminate.
  - reflexivity.
  - simpl. lia.
  - simpl in Hrow, Hid, Hcab. subst. exact Hrun.
Defined.

(** *** Pagination without an end, and with a failing page *)

Section PaginationEdges.

Variable E : Env.

Import DocuwareHelper.

Lemma loop_never_ends (cab : value) (hs : list value) :
  (forall n config,
      exists r rows docs,
        axios_reply E n config = Resolves r /\ status r = 200%Z
        /\ table_headers (body r) = Ok hs
        /\ JS.get (body r) "Rows" = Ok (VArr rows) /\ rows <> []
        /\ res_map (table_row hs cab) rows = Ok docs) ->
  forall fuel start documents headers w,
    headers = None \/ headers = Some hs ->
    (0 < retryMaxCount (GLOBALS w))%Z ->
    getAllDocuments_loop E fuel cab start documents headers w = OutOfFuel.
Proof.
  intros Hserver. induction fuel as [|fuel IH]; intros start documents headers w Hh Hmax.
  - reflexivity.
  - destruct (Hserver (calls w) (get_config (GLOBALS w) (table_url cab start) None))
      as (r & rows & docs & Hr & Hs & Hnames & Hrows & Hne & Hmap).
    rewrite (loop_continues E fuel cab start documents headers w (body r)
               (called (get_config (GLOBALS w) (table_url cab start) None) w)
               hs rows docs); try assumption.
    + apply IH; [now right | exact Hmax].
    + now apply getRequest_first_200.
    + destruct Hh as [-> | ->]; [exact Hnames | reflexivity].
Qed.

Lemma loop_page_fails (fuel : nat) (cab : value) (start : Z)
      (documents : list DocumentRecord) (hs : list value) (w : world) (what : string) :
  (0 < retryMaxCount (GLOBALS w))%Z ->
  axios_reply E (calls w) (get_config (GLOBALS w) (table_url cab start) None) = Rejects what ->
  getAllDocuments_loop E (S fuel) cab start documents (Some hs) w
  = Done (Throw (TypeError "Cannot read properties of null (reading 'Rows')"))
      (logged (ConsoleLogError (TransportError what))
         (called (get_config (GLOBALS w) (table_url cab start) None) w)).
Proof.
  intros Hmax Hr. cbn [getAllDocuments_loop]. unfold bind at 1.
  rewrite getRequest_unfold.
  destruct (Z.to_nat (retryMaxCount (GLOBALS w))) as [|n] eqn:Hn; [lia|].
  rewrite (getRequest_loop_rejected E n _ None w what Hr). reflexivity.
Qed.

Lemma loop_first_page_fails (fuel : nat) (cab : value) (w : world) (what : string) :
  (0 < retryMaxCount (GLOBALS w))%Z ->
  axios_reply E (calls w) (get_config (GLOBALS w) (table_url cab 0) None) = Rejects what ->
  getAllDocuments_loop E (S fuel) cab 0 [] None w
  = Done (Throw (TypeError "Cannot read properties of null (reading 'Headers')"))
      (logged (ConsoleLogError (TransportError what))
         (called (get_config (GLOBALS w) (table_url cab 0) None) w)).
Proof.
  intros Hmax Hr. cbn [getAllDocuments_loop]. unfold bind at 1.
  rewrite getRequest_unfold.
  destruct (Z.to_nat (retryMaxCount (GLOBALS w))) as [|n] eqn:Hn; [lia|].
  rewrite (getRequest_loop_rejected E n _ None w what Hr). reflexivity.
Qed.

End PaginationEdges.

(** X10.  The pagination loop has no bound of its own: it ends only at a
    page without rows (or at an exception).  On a server that answers
    every request with a page that has rows, [getAllDocumentsFromCabinet]
    never returns, however many pages it is allowed to fetch. *)
Theorem X10_pagination_needs_an_empty_page (E : Env) (fileCabinetId : value)
        (hs : list value) :
  (forall n config,
      exists r rows docs,
        axios_reply E n config = Resolves r /\ status r = 200%Z
        /\ DocuwareHelper.table_headers (body r) = Ok hs
        /\ JS.get (body r) "Rows" = Ok (VArr rows) /\ rows <> []
        /\ res_map (DocuwareHelper.table_row hs fileCabinetId) rows = Ok docs) ->
  forall (fuel : nat) (w : world),
    (0 < retryMaxCount (GLOBALS w))%Z ->
    DocuwareHelper.getAllDocumentsFromCabinet E fuel fileCabinetId w = OutOfFuel.
Proof.
  intros Hserver fuel w Hmax. unfold DocuwareHelper.getAllDocumentsFromCabinet.
  apply (loop_never_ends E fileCabinetId hs Hserver); [now left | exact Hmax].
Qed.

Lemma X10_pagination_needs_an_empty_page_witness :
  DocuwareHelper.getAllDocumentsFromCabinet
    (scripted (fun _ => mkResponse 200 None (table_page [7%Z]))) 1000 (VStr "cab")
    (world_with_attempts 100)
  = OutOfFuel.
Proof.
  apply (X10_pagination_needs_an_empty_page
           (scripted (fun _ => mkResponse 200 None (table_page [7%Z]))) (VStr "cab")
           [VStr "DWDOCID"; VStr "NAME"]).
  - intros n config.
    exists (mkResponse 200 None (table_page [7%Z])),
      [VObj [("Items", VArr [VNum 7; VStr "doc"])]], [table_record (VStr "cab") 7].
    repeat split. discriminate.
  - simpl. lia.
Defined.

(** X11.  A page request that fails is not skipped and does not end the
    listing with what was gathered: the [null] it yields is read like a
    page.  When the very first request fails at transport level,
    [getAllDocumentsFromCabinet] throws a TypeError on reading
    ['Headers']; when the first page had rows and the request for the
    second one fails, it throws a TypeError on reading ['Rows'], and the
    documents of the first page are lost. *)
Theorem X11_pagination_page_failure (E : Env) (fileCabinetId : value) (w : world)
        (fuel : nat) (what : string) :
  (0 < retryMaxCount (GLOBALS w))%Z ->
  let first := DocuwareHelper.get_config (GLOBALS w)
                 (DocuwareHelper.table_url fileCabinetId 0) None in
  let second := DocuwareHelper.get_config (GLOBALS w)
                  (DocuwareHelper.table_url fileCabinetId 1000) None in
  (axios_reply E (calls w) first = Rejects what ->
   DocuwareHelper.getAllDocumentsFromCabinet E (S fuel) fileCabinetId w
   = Done (Throw (TypeError "Cannot read properties of null (reading 'Headers')"))
       (logged (ConsoleLogError (TransportError what)) (called first w)))
  /\
  (forall (r : response) (hs rows : list value) (docs : list DocumentRecord),
      axios_reply E (calls w) first = Resolves r -> status r = 200%Z ->
      DocuwareHelper.table_headers (body r) = Ok hs ->
      JS.get (body r) "Rows" = Ok (VArr rows) -> rows <> [] ->
      res_map (DocuwareHelper.table_row hs fileCabinetId) rows = Ok docs ->
      axios_reply E (S (calls w)) second = Rejects what ->
      DocuwareHelper.getAllDocumentsFromCabinet E (S (S fuel)) fileCabinetId w
      = Done (Throw (TypeError "Cannot read properties of null (reading 'Rows')"))
          (logged (ConsoleLogError (TransportError what)) (called second (called first w)))).
Proof.
  intros Hmax first second. split.
  - intros Hr. unfold DocuwareHelper.getAllDocumentsFromCabinet.
    now apply loop_first_page_fails.
  - intros r hs rows docs Hr Hs Hnames Hrows Hne Hmap Hr2.
    unfold DocuwareHelper.getAllDocumentsFromCabinet.
    rewrite (loop_continues E (S fuel) fileCabinetId 0 [] None w (body r) (called first w)
               hs rows docs); try assumption.
    + now apply (loop_page_fails E fuel fileCabinetId (0 + DocuwareHelper.batchRequestCount)
                   ([] ++ docs) hs (called first w) what).
    + now apply getRequest_first_200.
Qed.

Lemma X11_pagination_page_failure_witness :
  DocuwareHelper.getAllDocumentsFromCabinet
    (host (fun n _ => match n with
                      | 0%nat => Resolves (mkResponse 200 None (table_page [7%Z]))
                      | _ => Rejects "ECONNRESET"
                      end))
    2 (VStr "cab") (world_with_attempts 100)
  = Done (Throw (TypeError "Cannot read properties of null (reading 'Rows')"))
      (logged (ConsoleLogError (TransportError "ECONNRESET"))
         (called (DocuwareHelper.get_config (GLOBALS (world_with_attempts 100))
                    (DocuwareHelper.table_url (VStr "cab") 1000) None)
            (called (DocuwareHelper.get_config (GLOBALS (world_with_attempts 100))
                       (DocuwareHelper.table_url (VStr "cab") 0) None)
               (world_with_attempts 100)))).
Proof.
  refine (proj2 (X11_pagination_page_failure
                   (host (fun n _ => match n with
                                     | 0%nat => Resolves (mkResponse 200 None (table_page [7%Z]))
                                     | _ => Rejects "ECONNRESET"
                                     end))
                   (VStr "cab") (world_with_attempts 100) 0 "ECONNRESET" _)
            (mkResponse 200 None (table_page [7%Z])) [VStr "DWDOCID"; VStr "NAME"]
            [VObj [("Items", VArr [VNum 7; VStr "doc"])]] [table_record (VStr "cab") 7]
            eq_refl eq_refl eq_refl eq_refl _ eq_refl eq_refl).
  - simpl. lia.
  - discriminate.
Defined.

(** *** Upload and update *)

Section UploadUpdate.

Variable E : Env.

Import DocuwareHelper.

Lemma keys_plain_values (o : JSObject.t value) :
  forallb plain_name (map fst o) = true -> JSObject.keys o = map fst o.
Proof.
  intros H. unfold JSObject.keys. rewrite (index_keys_plain _ H). simpl.
  induction (map fst o) as [|k ks IH]; simpl in *; [reflexivity|].
  apply andb_true_iff in H as [Hk H]. unfold plain_name in Hk.
  apply andb_true_iff in Hk as [Hk _]. rewrite Hk. now rewrite IH.
Qed.

Lemma lookup_after (pre : JSObject.t value) (k : string) (v : value)
      (suf : JSObject.t value) :
  ~ In k (map fst pre) ->
  JSObject.lookup k (pre ++ (k, v) :: suf)%list = Some v.
Proof.
  induction pre as [|[k' v'] pre IH]; simpl; intros H.
  - now rewrite String.eqb_refl.
  - destruct (String.eqb_spec k' k) as [->|_]; [exfalso; apply H; now left|].
    apply IH. intros Hin. apply H. now right.
Qed.

Lemma update_fields_suffix (o suf : JSObject.t value) : forall pre,
  o = (pre ++ suf)%list -> NoDup (map fst o) ->
  res_map (fun field => let? item := JS.get (VObj o) field in Ok (field, item))
    (map fst suf)
  = Ok suf.
Proof.
  induction suf as [|[k v] suf IH]; intros pre Ho Hnd; [reflexivity|].
  cbn [map fst res_map].
  assert (Hget : JS.get (VObj o) k = Ok v).
  { cbn [JS.get]. rewrite Ho, lookup_after; [reflexivity|].
    rewrite Ho, map_app in Hnd. cbn [map fst] in Hnd.
    apply NoDup_remove_2 in Hnd. intros Hin. apply Hnd. apply in_or_app. now left. }
  rewrite Hget. cbn [res_bind].
  rewrite (IH (pre ++ [(k, v)])%list); [reflexivity| |exact Hnd].
  now rewrite <- app_assoc.
Qed.

Lemma update_fields_object (o : JSObject.t value) :
  NoDup (map fst o) -> forallb plain_name (map fst o) = true ->
  update_fields (VObj o) = Ok o.
Proof.
  intros Hnd Hplain. unfold update_fields. cbn [JS.object_keys res_bind].
  rewrite (keys_plain_values o Hplain). exact (update_fields_suffix o o [] eq_refl Hnd).
Qed.

End UploadUpdate.


(** X13.  [updateDocument] builds its field list from the keys of the
    parsed update JSON.  For [null] it throws a TypeError before any
    request is made.  For an object (distinct keys, as [JSON.parse] gives,
    none an array index or ["__proto__"]) the list sent is exactly the
    object's members, each once, in the order they were written.  A JSON
    number or boolean has no keys: the request is sent all the same, with
    an empty field list. *)
Theorem X13_updateDocument_fields (E : Env) (fileCabinetId documentId : value) (w : world) :
  DocuwareHelper.updateDocument E fileCabinetId documentId VNull w
  = Done (Throw (TypeError "Cannot convert undefined or null to object")) w
  /\ (forall o : JSObject.t value,
         NoDup (map fst o) -> forallb plain_name (map fst o) = true ->
         DocuwareHelper.updateDocument E fileCabinetId documentId (VObj o) w
         = DocuwareHelper.postRequest E
             (DocuwareHelper.update_url fileCabinetId documentId)
             (JsonFieldUpdate o) (Some "application/json") w)
  /\ (forall v : value,
         (exists n, v = VNum n) \/ (exists b, v = VBool b) ->
         DocuwareHelper.updateDocument E fileCabinetId documentId v w
         = DocuwareHelper.postRequest E
             (DocuwareHelper.update_url fileCabinetId documentId)
             (JsonFieldUpdate []) (Some "application/json") w).
Proof.
  split; [reflexivity|]. split.
  - intros o Hnd Hplain. unfold DocuwareHelper.updateDocument, bind, lift.
    now rewrite (update_fields_object o Hnd Hplain).
  - intros v [[n ->] | [b ->]]; reflexivity.
Qed.

Lemma X13_updateDocument_fields_witness :
  DocuwareHelper.updateDocument (scripted (fun _ => mkResponse 200 None (VStr "done")))
    (VStr "abc") (VNum 7)
    (VObj [("SERIAL_NO", VStr "3080RC20119"); ("STATUS", VStr "open")])
    (world_with_attempts 100)
  = DocuwareHelper.postRequest (scripted (fun _ => mkResponse 200 None (VStr "done")))
      (DocuwareHelper.update_url (VStr "abc") (VNum 7))
      (JsonFieldUpdate [("SERIAL_NO", VStr "3080RC20119"); ("STATUS", VStr "open")])
      (Some "application/json") (world_with_attempts 100)
  /\ DocuwareHelper.updateDocument (scripted (fun _ => mkResponse 200 None (VStr "done")))
       (VStr "abc") (VNum 7) (VNum 5) (world_with_attempts 100)
     = DocuwareHelper.postRequest (scripted (fun _ => mkResponse 200 None (VStr "done")))
         (DocuwareHelper.update_url (VStr "abc") (VNum 7))
         (JsonFieldUpdate []) (Some "application/json") (world_with_attempts 100).
Proof.
  split.
  - apply (proj1 (proj2 (X13_updateDocument_fields
                           (scripted (fun _ => mkResponse 200 None (VStr "done")))
                           (VStr "abc") (VNum 7) (world_with_attempts 100)))).
    + repeat constructor; simpl; intuition discriminate.
    + reflexivity.
  - apply (proj2 (proj2 (X13_updateDocument_fields
                           (scripted (fun _ => mkResponse 200 None (VStr "done")))
                           (VStr "abc") (VNum 7) (world_with_attempts 100)))).
    left. now exists 5%Z.
Defined.

(** *** The query parser on whole queries *)

Section ParserShape.

Import JSString.

Lemma split_length (c : ascii) (s : string) :
  List.length (split c s) = S (count_char c s).
Proof.
  induction s as [|x s IH]; simpl; [reflexivity|].
  destruct (Ascii.eqb x c); simpl; [now rewrite IH|].
  destruct (split c s) as [|h t] eqn:Hs; [now apply split_not_nil in Hs|].
  simpl in *. exact IH.
Qed.

Lemma count_char_contains (c : ascii) (s : string) :
  contains_char c s = negb (Nat.eqb (count_char c s) 0).
Proof.
  induction s as [|x s IH]; simpl; [reflexivity|].
  destruct (Ascii.eqb x c); simpl; [reflexivity | exact IH].
Qed.

Lemma split_without (c : ascii) (s : string) :
  contains_char c s = false -> split c s = [s].
Proof.
  intros H. rewrite <- (append_empty_r s) at 1.
  now rewrite (split_no_sep_l c s "" "" [] H eq_refl), append_empty_r.
Qed.

Lemma parseCondition_outcome (p : string) :
  if contains_char "=" p
  then exists cond, parseCondition p = Ok cond
  else parseCondition p
       = Throw (TypeError "Cannot read properties of undefined (reading 'slice')").
Proof.
  destruct (contains_char "=" p) eqn:Hp.
  - assert (Hlen := split_length "=" p).
    rewrite count_char_contains in Hp.
    destruct (count_char "=" p) as [|n]; [discriminate|].
    unfold parseCondition.
    destruct (split "=" p) as [|key [|value rest]]; try discriminate.
    eexists. reflexivity.
  - unfold parseCondition. now rewrite (split_without "=" p Hp).
Qed.

Lemma res_map_parseCondition (pieces : list string) :
  if forallb (contains_char "=") pieces
  then exists conds, res_map parseCondition pieces = Ok conds
                     /\ List.length conds = List.length pieces
  else res_map parseCondition pieces
       = Throw (TypeError "Cannot read properties of undefined (reading 'slice')").
Proof.
  induction pieces as [|p pieces IH]; simpl.
  - exists []. now split.
  - assert (Hp := parseCondition_outcome p).
    destruct (contains_char "=" p); simpl.
    + destruct Hp as [cond Hp]. rewrite Hp. simpl.
      destruct (forallb (contains_char "=") pieces).
      * destruct IH as (conds & -> & Hlen). exists (cond :: conds).
        split; [reflexivity | simpl; now rewrite Hlen].
      * now rewrite IH.
    + now rewrite Hp.
Qed.

Lemma trimEnd_keeps_last (c : ascii) (s : string) :
  isWhiteSpace c = false -> trimEnd (s ++ String c "") = s ++ String c "".
Proof.
  intros Hc. induction s as [|x s IH]; simpl; [now rewrite Hc|].
  rewrite IH. destruct s; reflexivity.
Qed.

Lemma length_append (a b : string) :
  String.length (a ++ b) = (String.length a + String.length b)%nat.
Proof. induction a as [|x a IH]; simpl; [reflexivity | now rewrite IH]. Qed.

Lemma substring_prefix (a b : string) :
  substring 0 (String.length a) (a ++ b) = a.
Proof.
  induction a as [|x a IH]; simpl; [now destruct b | now rewrite IH].
Qed.

(** A bracketed value comes back without its brackets. *)
Lemma slice_brackets (v : string) : slice ("[" ++ v ++ "]") 1 (-1) = v.
Proof.
  unfold slice. cbn [String.append String.length].
  rewrite length_append. cbn [String.length].
  replace (Z.of_nat (S (String.length v + 1))) with (Z.of_nat (String.length v) + 2)%Z by lia.
  replace (1 <? 0)%Z with false by reflexivity.
  replace (-1 <? 0)%Z with true by reflexivity.
  rewrite Z.min_l by lia.
  rewrite (Z.max_l (Z.of_nat (String.length v) + 2 + -1) 0) by lia.
  rewrite Z.max_l by lia.
  replace (Z.to_nat (Z.of_nat (String.length v) + 2 + -1 - 1)) with (String.length v) by lia.
  change (Z.to_nat 1) with 1%nat. cbn [substring].
  apply substring_prefix.
Qed.

Lemma trim_brackets (v : string) : trim ("[" ++ v ++ "]") = "[" ++ v ++ "]".
Proof.
  unfold trim. cbn [String.append trimStart]. 
  change (isWhiteSpace "[") with false. cbv iota.
  change (String "[" (v ++ "]")) with (String "[" v ++ "]").
  now apply trimEnd_keeps_last.
Qed.

Lemma parseCondition_text (c : string * string) :
  contains_char "=" (fst c) = false -> contains_char "=" (snd c) = false ->
  parseCondition (condition_text c) = Ok (mkCondition (trim (fst c)) [snd c]).
Proof.
  intros Hn Hv. unfold parseCondition, condition_text.
  change ("=[" ++ snd c ++ "]") with (String "=" ("[" ++ snd c ++ "]")).
  rewrite split_at_sep, (split_without "=" (fst c) Hn).
  rewrite (split_without "=" ("[" ++ snd c ++ "]")).
  - cbn [app map]. now rewrite trim_brackets, slice_brackets.
  - cbn [String.append contains_char]. rewrite contains_char_app, Hv. reflexivity.
Qed.

Lemma condition_text_no_bar (c : string * string) :
  no_separator (fst c) = true -> no_separator (snd c) = true ->
  contains_char "|" (condition_text c) = false.
Proof.
  unfold no_separator, condition_text. intros Hn Hv.
  apply andb_true_iff in Hn as [_ Hn]. apply andb_true_iff in Hv as [_ Hv].
  apply negb_true_iff in Hn, Hv.
  rewrite contains_char_app, Hn. cbn [String.append contains_char orb].
  rewrite contains_char_app, Hv. reflexivity.
Qed.

Lemma split_join (pieces : list string) :
  pieces <> [] -> forallb (fun p => negb (contains_char "|" p)) pieces = true ->
  split "|" (join "|" pieces) = pieces.
Proof.
  induction pieces as [|p pieces IH]; [congruence|]. intros _ H.
  cbn [forallb] in H. apply andb_true_iff in H as [Hp H]. apply negb_true_iff in Hp.
  destruct pieces as [|p' pieces].
  - unfold join. cbn [String.concat]. now apply split_without.
  - unfold join in *. cbn [String.concat] in *.
    change ("|" ++ ?x) with (String "|" x).
    change (p ++ "|" ++ String.concat "|" (p' :: pieces))
      with (p ++ String "|" (String.concat "|" (p' :: pieces))).
    rewrite split_at_sep, (split_without "|" p Hp).
    rewrite IH; [reflexivity | discriminate | exact H].
Qed.

End ParserShape.

(** X14.  The query text is cut at every ['|'], and each piece must hold
    an ['=']: when every piece does, the parser returns one condition per
    piece (one more than the number of ['|'] in the text), combined with
    ["Or"]; when some piece does not, it throws the TypeError of reading
    [slice] on [undefined], whatever the other pieces are. *)
Theorem X14_parseQuery_shape (q : string) :
  (forallb (JSString.contains_char "=") (JSString.split "|" q) = true ->
   exists conds, parseQuery q = Ok (mkQueryBody conds "Or")
                 /\ List.length conds = S (count_char "|" q))
  /\ (forallb (JSString.contains_char "=") (JSString.split "|" q) = false ->
      parseQuery q
      = Throw (TypeError "Cannot read properties of undefined (reading 'slice')")).
Proof.
  assert (H := res_map_parseCondition (JSString.split "|" q)).
  unfold parseQuery. split; intros Hall; rewrite Hall in H.
  - destruct H as (conds & -> & Hlen). exists conds. split; [reflexivity|].
    now rewrite Hlen, split_length.
  - now rewrite H.
Qed.

Lemma X14_parseQuery_shape_witness :
  (exists conds, parseQuery "A=[1]|B=[2]|C=x" = Ok (mkQueryBody conds "Or")
                 /\ List.length conds = S (count_char "|" "A=[1]|B=[2]|C=x"))
  /\ parseQuery "A=[1]||B=[2]"
     = Throw (TypeError "Cannot read properties of undefined (reading 'slice')").
Proof.
  split.
  - apply (proj1 (X14_parseQuery_shape "A=[1]|B=[2]|C=x")). reflexivity.
  - apply (proj2 (X14_parseQuery_shape "A=[1]||B=[2]")). reflexivity.
Defined.

(** X15.  Writing conditions as [NAME=[VALUE]] joined by ['|'] and
    parsing the text gives the conditions back, in order: for a non-empty
    list of names and values that contain neither ['='] nor ['|'], each
    condition has the name with its surrounding white space removed and
    the value exactly as written between the brackets (white space in
    the value is kept, an empty value gives the empty string). *)
Theorem X15_parseQuery_round_trip (cs : list (string * string)) :
  cs <> [] ->
  forallb (fun c => no_separator (fst c) && no_separator (snd c)) cs = true ->
  parseQuery (query_text cs)
  = Ok (mkQueryBody (map (fun c => mkCondition (JSString.trim (fst c)) [snd c]) cs) "Or").
Proof.
  intros Hne Hall. unfold parseQuery, query_text.
  rewrite split_join.
  - assert (Hmap : res_map parseCondition (map condition_text cs)
                   = Ok (map (fun c => mkCondition (JSString.trim (fst c)) [snd c]) cs)).
    { clear Hne. induction cs as [|c cs IH]; [reflexivity|].
      cbn [forallb] in Hall. apply andb_true_iff in Hall as [Hc Hall].
      apply andb_true_iff in Hc as [Hn Hv].
      unfold no_separator in Hn, Hv.
      apply andb_true_iff in Hn as [Hn _]. apply andb_true_iff in Hv as [Hv _].
      apply negb_true_iff in Hn, Hv.
      cbn [map res_map]. rewrite (parseCondition_text c Hn Hv). cbn [res_bind].
      now rewrite (IH Hall). }
    now rewrite Hmap.
  - destruct cs; [congruence | discriminate].
  - clear Hne. induction cs as [|c cs IH]; [reflexivity|].
    cbn [forallb] in Hall. apply andb_true_iff in Hall as [Hc Hall].
    apply andb_true_iff in Hc as [Hn Hv].
    cbn [map forallb]. rewrite (condition_text_no_bar c Hn Hv). cbn [negb andb].
    exact (IH Hall).
Qed.

Lemma X15_parseQuery_round_trip_witness :
  parseQuery (query_text [(" SERIAL_NO ", "3080 RC"); ("STATUS", "")])
  = Ok (mkQueryBody [mkCondition "SERIAL_NO" ["3080 RC"]; mkCondition "STATUS" [""]] "Or").
Proof.
  apply (X15_parseQuery_round_trip [(" SERIAL_NO ", "3080 RC"); ("STATUS", "")]).
  - discriminate.
  - reflexivity.
Defined.

(** *** Retrieval by query and by predicate *)

Section Retrieval.

Lemma res_filter_all_ok (p : JSObject.t value -> res value) (docs : list DocumentRecord) :
  Forall (fun d => exists v, p (row d) = Ok v) docs ->
  res_filter (fun document => let? keep := p (row document) in Ok (JS.truthy keep)) docs
  = Ok (filter (kept_by p) docs).
Proof.
  induction 1 as [|d docs [v Hv] _ IH]; [reflexivity|].
  cbn [res_filter filter]. unfold kept_by at 1. rewrite Hv. cbn [res_bind].
  rewrite IH. reflexivity.
Qed.

Lemma res_filter_first_throw (p : JSObject.t value -> res value)
      (pre : list DocumentRecord) (d : DocumentRecord) (post : list DocumentRecord)
      (e : exn) :
  Forall (fun d => exists v, p (row d) = Ok v) pre ->
  p (row d) = Throw e ->
  res_filter (fun document => let? keep := p (row document) in Ok (JS.truthy keep))
    (pre ++ d :: post)
  = Throw e.
Proof.
  intros Hpre Hd. induction Hpre as [|d' pre [v Hv] _ IH].
  - cbn [app res_filter]. now rewrite Hd.
  - cbn [app res_filter]. rewrite Hv. cbn [res_bind]. now rewrite IH.
Qed.

End Retrieval.



(** X17.  [getDocumentsWithFunction] compiles the predicate before it
    asks the server anything: a text that does not compile throws a
    SyntaxError and no request is made.  With a predicate that compiles,
    the whole cabinet is listed first, whatever the predicate is; when the
    predicate returns on every document the result is the documents of
    the listing on which it is truthy, in the order of the listing, and
    when it throws on some document (the first such one) the whole call
    throws that exception and no document is returned. *)
Theorem X17_getDocumentsWithFunction_filters (E : Env) (fuel : nat)
        (documentCabinetId downloadFunctionStr : value) (w : world) :
  (Function_return E (JS.to_string downloadFunctionStr) = None ->
   DocuwareHelper.getDocumentsWithFunction E fuel documentCabinetId downloadFunctionStr w
   = Done (Throw (SyntaxError "Function")) w)
  /\ (forall (p : JSObject.t value -> res value) (docs : list DocumentRecord) (w1 : world),
         Function_return E (JS.to_string downloadFunctionStr) = Some p ->
         DocuwareHelper.getAllDocumentsFromCabinet E fuel documentCabinetId w
         = Done (Ok docs) w1 ->
         (Forall (fun d => exists v, p (row d) = Ok v) docs ->
          DocuwareHelper.getDocumentsWithFunction E fuel documentCabinetId
            downloadFunctionStr w
          = Done (Ok (filter (kept_by p) docs)) w1)
         /\ (forall pre d post e,
                docs = (pre ++ d :: post)%list ->
                Forall (fun d => exists v, p (row d) = Ok v) pre ->
                p (row d) = Throw e ->
                DocuwareHelper.getDocumentsWithFunction E fuel documentCabinetId
                  downloadFunctionStr w
                = Done (Throw e) w1)).
Proof.
  split.
  - intros Hnone. unfold DocuwareHelper.getDocumentsWithFunction. now rewrite Hnone.
  - intros p docs w1 Hsome Hall. split.
    + intros Hok. unfold DocuwareHelper.getDocumentsWithFunction. rewrite Hsome.
      unfold bind. rewrite Hall. unfold lift.
      now rewrite (res_filter_all_ok p docs Hok).
    + intros pre d post e -> Hpre Hd.
      unfold DocuwareHelper.getDocumentsWithFunction. rewrite Hsome.
      unfold bind. rewrite Hall. unfold lift.
      now rewrite (res_filter_first_throw p pre d post e Hpre Hd).
Qed.

Lemma X17_getDocumentsWithFunction_filters_witness :
  DocuwareHelper.getDocumentsWithFunction (scripted (two_pages [1; 2] [3])) 3
    (VStr "cab") (VStr "fields.NAME ==") (world_with_attempts 100)
  = Done (Throw (SyntaxError "Function")) (world_with_attempts 100)
  /\ DocuwareHelper.getDocumentsWithFunction (host_with_predicate (two_pages [1; 2] [3])) 3
       (VStr "cab") (VStr "fields.NAME == 'doc' && fields.DWDOCID != 1")
       (world_with_attempts 100)
     = Done (Ok [table_record (VStr "cab") 2; table_record (VStr "cab") 3])
         (paged (VStr "cab") 0 3 (world_with_attempts 100)).
Proof.
  split.
  - apply (proj1 (X17_getDocumentsWithFunction_filters (scripted (two_pages [1; 2] [3])) 3
                    (VStr "cab") (VStr "fields.NAME ==") (world_with_attempts 100))).
    reflexivity.
  - apply (proj1 (proj2 (X17_getDocumentsWithFunction_filters
                           (host_with_predicate (two_pages [1; 2] [3])) 3
                           (VStr "cab") (VStr "fields.NAME == 'doc' && fields.DWDOCID != 1")
                           (world_with_attempts 100))
                    predicate_not_first
                    [table_record (VStr "cab") 1; table_record (VStr "cab") 2;
                     table_record (VStr "cab") 3]
                    (paged (VStr "cab") 0 3 (world_with_attempts 100))
                    eq_refl eq_refl)).
    repeat constructor; eexists; reflexivity.
Defined.

(** *** The command line: inputs that are missing *)

Section MissingInput.

Variable E : Env.
Variable args : string -> value.

Lemma execute_unfold (fuel : nat) (w : world) :
  DocuwareCMD.execute E args fuel w
  = (let w0 := {| GLOBALS :=
                    {| endpoint := endpoint (GLOBALS w);
                       cookie := cookie (GLOBALS w);
                       retryMaxCount :=
                         DocuwareCMD.override E args "retrymax" (retryMaxCount (GLOBALS w));
                       retryDelayBaseInSeconds :=
                         DocuwareCMD.override E args "retrybase"
                           (retryDelayBaseInSeconds (GLOBALS w));
                       retryDelayRandomMinInSeconds :=
                         DocuwareCMD.override E args "retryrandmin"
                           (retryDelayRandomMinInSeconds (GLOBALS w));
                       retryDelayRandomMaxInSeconds :=
                         DocuwareCMD.override E args "retryrandmax"
                           (retryDelayRandomMaxInSeconds (GLOBALS w)) |};
                  calls := calls w; draws := draws w; trace := trace w |} in
     if negb (JS.truthy (args "m")) then console_log "-m mode not defined." w0
     else
       let w1 := {| GLOBALS :=
                      mkGlobals (args "e") (cookie (GLOBALS w))
                        (retryMaxCount (GLOBALS w0)) (retryDelayBaseInSeconds (GLOBALS w0))
                        (retryDelayRandomMinInSeconds (GLOBALS w0))
                        (retryDelayRandomMaxInSeconds (GLOBALS w0));
                    calls := calls w; draws := draws w; trace := trace w |} in
       if negb (JS.truthy (args "e")) then console_log "-e endpoint not defined." w1
       else if DocuwareCMD.equals E (args "m") "gencookie" then
         DocuwareCMD.with_credentials args (fun username password hostID =>
           DocuwareHelper.initAuthFromCreds E username password hostID (args "e") ;;
           g <- read_globals ;;
           emit (ConsoleLog (cookie g)))%js w1
       else if DocuwareCMD.equals E (args "m") "gentoken" then
         DocuwareCMD.with_credentials args (fun username password hostID =>
           token <- DocuwareHelper.generateToken E username password hostID (args "e") ;;
           emit (ConsoleLog token))%js w1
       else if negb (JS.truthy (args "t")) && negb (JS.truthy (args "x")) then
         console_log "neither token -t nor cookie -c defined." w1
       else if JS.truthy (args "t") && JS.truthy (args "x") then
         console_log "both cookie and token were provided... using existing cookie." w1
       else
         ((if JS.truthy (args "t") && negb (JS.truthy (args "x"))
           then (DocuwareHelper.initAuthFromToken E (args "t") (args "e") ;; ret tt)
           else set_cookie_global (args "x")) ;;
          DocuwareCMD.with_session E args fuel (args "m"))%js w1).
Proof.
  unfold DocuwareCMD.execute.
  unfold bind at 1. unfold DocuwareCMD.retry_overrides at 1.
  unfold bind at 1. unfold read_globals at 1. unfold write_globals at 1.
  cbv zeta.
  destruct (negb (JS.truthy (args "m"))); [reflexivity|].
  unfold bind at 1. unfold set_endpoint at 1.
  unfold bind at 1. unfold read_globals at 1. unfold write_globals at 1.
  cbn [GLOBALS calls draws trace endpoint cookie retryMaxCount retryDelayBaseInSeconds
       retryDelayRandomMinInSeconds retryDelayRandomMaxInSeconds].
  destruct (negb (JS.truthy (args "e"))); [reflexivity|].
  destruct (DocuwareCMD.equals E (args "m") "gencookie"); [reflexivity|].
  destruct (DocuwareCMD.equals E (args "m") "gentoken"); [reflexivity|].
  destruct (negb (JS.truthy (args "t")) && negb (JS.truthy (args "x"))); [reflexivity|].
  destruct (JS.truthy (args "t") && JS.truthy (args "x")); reflexivity.
Qed.

Lemma console_log_says (msg : string) (g : Globals) (w : world) :
  cookie g = cookie (GLOBALS w) ->
  says_only (console_log msg {| GLOBALS := g; calls := calls w; draws := draws w;
                                trace := trace w |}) w msg.
Proof. intros Hg. exists g. split; [reflexivity | exact Hg]. Qed.

End MissingInput.

(** X18.  A command line that lacks one of the leading inputs makes
    [execute] print one message and return, with no HTTP call and the
    session cookie untouched: without [-m], "-m mode not defined."; with
    a mode but without [-e], "-e endpoint not defined."; and in a mode
    other than gencookie and gentoken, with neither [-t] nor [-x],
    "neither token -t nor cookie -c defined." (the message names [-c]
    although the cookie flag is [-x]).  A flag given as an empty string or
    as 0 counts as missing. *)
Theorem X18_execute_missing_input (E : Env) (args : string -> value) (fuel : nat)
        (w : world) :
  (JS.truthy (args "m") = false ->
   says_only (DocuwareCMD.execute E args fuel w) w "-m mode not defined.")
  /\ (JS.truthy (args "m") = true -> JS.truthy (args "e") = false ->
      says_only (DocuwareCMD.execute E args fuel w) w "-e endpoint not defined.")
  /\ (JS.truthy (args "m") = true -> JS.truthy (args "e") = true ->
      DocuwareCMD.equals E (args "m") "gencookie" = false ->
      DocuwareCMD.equals E (args "m") "gentoken" = false ->
      JS.truthy (args "t") = false -> JS.truthy (args "x") = false ->
      says_only (DocuwareCMD.execute E args fuel w) w
        "neither token -t nor cookie -c defined.").
Proof.
  split; [|split].
  - intros Hm. rewrite execute_unfold. cbv zeta. rewrite Hm. cbn [negb].
    now apply console_log_says.
  - intros Hm He. rewrite execute_unfold. cbv zeta. rewrite Hm, He. cbn [negb].
    now apply console_log_says.
  - intros Hm He Hc Ht Htok Hcook. rewrite execute_unfold. cbv zeta.
    rewrite Hm, He, Hc, Ht, Htok, Hcook. cbn [negb andb].
    now apply console_log_says.
Qed.

Lemma X18_execute_missing_input_witness :
  says_only (DocuwareCMD.execute (scripted script_always_429)
               (flags [("e", VStr "https://test.docuware.cloud"); ("m", VStr "")])
               1 world_initial)
    world_initial "-m mode not defined."
  /\ says_only (DocuwareCMD.execute (scripted script_always_429)
                  (flags [("m", VStr "get"); ("x", VStr "SID=1"); ("e", VNum 0)])
                  1 world_initial)
       world_initial "-e endpoint not defined."
  /\ says_only (DocuwareCMD.execute (scripted script_always_429)
                  (flags [("m", VStr "get"); ("e", VStr "https://test.docuware.cloud");
                          ("c", VStr "SID=1")])
                  1 world_initial)
       world_initial "neither token -t nor cookie -c defined.".
Proof.
  split; [|split].
  - apply (proj1 (X18_execute_missing_input (scripted script_always_429)
                    (flags [("e", VStr "https://test.docuware.cloud"); ("m", VStr "")])
                    1 world_initial)).
    reflexivity.
  - apply (proj1 (proj2 (X18_execute_missing_input (scripted script_always_429)
                           (flags [("m", VStr "get"); ("x", VStr "SID=1"); ("e", VNum 0)])
                           1 world_initial))); reflexivity.
  - apply (proj2 (proj2 (X18_execute_missing_input (scripted script_always_429)
                           (flags [("m", VStr "get"); ("e", VStr "https://test.docuware.cloud");
                                   ("c", VStr "SID=1")])
                           1 world_initial))); reflexivity.
Defined.

(** X19.  In the modes gencookie and gentoken, [execute] asks for the
    user name, the password and the host id in that order and stops at
    the first one that is missing, with its message and without any HTTP
    call: the logon is not attempted with partial credentials. *)
Theorem X19_execute_missing_credential (E : Env) (args : string -> value) (fuel : nat)
        (w : world) :
  JS.truthy (args "m") = true -> JS.truthy (args "e") = true ->
  DocuwareCMD.equals E (args "m") "gencookie" || DocuwareCMD.equals E (args "m") "gentoken"
  = true ->
  (JS.truthy (args "u") = false ->
   says_only (DocuwareCMD.execute E args fuel w) w "-u username not defined.")
  /\ (JS.truthy (args "u") = true -> JS.truthy (args "p") = false ->
      says_only (DocuwareCMD.execute E args fuel w) w "-p password not defined.")
  /\ (JS.truthy (args "u") = true -> JS.truthy (args "p") = true ->
      JS.truthy (args "h") = false ->
      says_only (DocuwareCMD.execute E args fuel w) w "-h hostname not defined.").
Proof.
  intros Hm He Hmode.
  split; [|split].
  - intros Hu. rewrite execute_unfold. cbv zeta. rewrite Hm, He. cbn [negb].
    destruct (DocuwareCMD.equals E (args "m") "gencookie");
      [|cbn [orb] in Hmode; rewrite Hmode];
      unfold DocuwareCMD.with_credentials; rewrite Hu; cbn [negb];
      now apply console_log_says.
  - intros Hu Hp. rewrite execute_unfold. cbv zeta. rewrite Hm, He. cbn [negb].
    destruct (DocuwareCMD.equals E (args "m") "gencookie");
      [|cbn [orb] in Hmode; rewrite Hmode];
      unfold DocuwareCMD.with_credentials; rewrite Hu, Hp; cbn [negb];
      now apply console_log_says.
  - intros Hu Hp Hh. rewrite execute_unfold. cbv zeta. rewrite Hm, He. cbn [negb].
    destruct (DocuwareCMD.equals E (args "m") "gencookie");
      [|cbn [orb] in Hmode; rewrite Hmode];
      unfold DocuwareCMD.with_credentials; rewrite Hu, Hp, Hh; cbn [negb];
      now apply console_log_says.
Qed.

Lemma X19_execute_missing_credential_witness :
  says_only (DocuwareCMD.execute (scripted script_login)
               (flags [("m", VStr "gentoken"); ("e", VStr "https://test.docuware.cloud");
                       ("u", VStr "admin"); ("h", VStr "host-1")])
               1 world_initial)
    world_initial "-p password not defined.".
Proof.
  apply (proj1 (proj2 (X19_execute_missing_credential (scripted script_login)
                         (flags [("m", VStr "gentoken");
                                 ("e", VStr "https://test.docuware.cloud");
                                 ("u", VStr "admin"); ("h", VStr "host-1")])
                         1 world_initial eq_refl eq_refl eq_refl)));
    reflexivity.
Defined.

(** *** The command line: retry overrides and the cabinet stage *)

Section CabinetStage.

Variable E : Env.
Variable args : string -> value.

Lemma cabinet_lines (l : list (string * value)) : forall w,
  mapM (fun cabinet =>
          name <- lift (JS.get cabinet "Name") ;;
          cid <- lift (JS.get cabinet "Id") ;;
          console_log (JS.to_string name ++ ": " ++ JS.to_string cid))%js
       (map cabinet_entry l) w
  = Done (Ok (map (fun _ => tt) l))
      {| GLOBALS := GLOBALS w; calls := calls w; draws := draws w;
         trace := (trace w
                   ++ map (fun p => ConsoleLog (VStr (fst p ++ ": " ++ JS.to_string (snd p)))) l)%list |}.
Proof.
  induction l as [|[n v] l IH]; intros w.
  - cbn [map mapM]. unfold ret. rewrite app_nil_r. now destruct w.
  - cbn [map mapM]. unfold bind at 1.
    unfold bind at 1. unfold lift at 1.
    cbn [cabinet_entry fst snd JS.get JSObject.lookup String.eqb Ascii.eqb Bool.eqb].
    unfold bind at 1. unfold lift at 1.
    cbn [JS.get JSObject.lookup String.eqb Ascii.eqb Bool.eqb].
    unfold console_log at 1. unfold emit at 1.
    unfold bind at 1. rewrite IH. unfold ret.
    cbn [GLOBALS calls draws trace JS.to_string fst snd].
    now rewrite <- app_assoc.
Qed.

Lemma equals_text (s literal : string) :
  DocuwareCMD.equals E (VStr s) literal = String.eqb s literal.
Proof. reflexivity. Qed.

End CabinetStage.

(** X20.  A numeric [--retrymax n] replaces the retry limit unless [n] is
    0: 0 is falsy, so it leaves the limit as it was.  A negative [n] is
    taken as it is, and from then on no request is sent at all:
    [getRequest] returns [undefined] and [postRequest] returns [null]
    without any HTTP call. *)
Theorem X20_retrymax_override (E : Env) (args : string -> value) (w : world) (n : Z) :
  args "retrymax" = VNum n ->
  exists w',
    DocuwareCMD.retry_overrides E args w = Done (Ok tt) w'
    /\ calls w' = calls w /\ trace w' = trace w
    /\ endpoint (GLOBALS w') = endpoint (GLOBALS w)
    /\ cookie (GLOBALS w') = cookie (GLOBALS w)
    /\ retryMaxCount (GLOBALS w') = (if (n =? 0)%Z then retryMaxCount (GLOBALS w) else n)
    /\ ((n < 0)%Z ->
        forall path,
          (forall rt, DocuwareHelper.getRequest E path rt w' = Done (Ok VUndefined) w')
          /\ (forall d ct, DocuwareHelper.postRequest E path d ct w' = Done (Ok VNull) w')).
Proof.
  intros Hn. eexists. split; [reflexivity|].
  cbn [GLOBALS calls draws trace endpoint cookie retryMaxCount].
  assert (Hover : DocuwareCMD.override E args "retrymax" (retryMaxCount (GLOBALS w))
                  = if (n =? 0)%Z then retryMaxCount (GLOBALS w) else n).
  { unfold DocuwareCMD.override. rewrite Hn. cbn [JS.truthy].
    destruct (n =? 0)%Z; reflexivity. }
  repeat (split; [reflexivity|]). split; [exact Hover|].
  intros Hneg path.
  assert (Hz : (n =? 0)%Z = false) by (apply Z.eqb_neq; lia).
  rewrite Hz in Hover.
  split.
  - intros rt. rewrite getRequest_unfold.
    cbn [GLOBALS retryMaxCount]. rewrite Hover.
    replace (Z.to_nat n) with 0%nat by lia. reflexivity.
  - intros d ct. rewrite postRequest_unfold.
    cbn [GLOBALS retryMaxCount]. rewrite Hover.
    replace (Z.to_nat n) with 0%nat by lia. reflexivity.
Qed.

Lemma X20_retrymax_override_witness :
  exists w',
    DocuwareCMD.retry_overrides (scripted script_3_failures)
      (flags [("retrymax", VNum (-1))]) world_initial = Done (Ok tt) w'
    /\ retryMaxCount (GLOBALS w') = (-1)%Z
    /\ DocuwareHelper.getRequest (scripted script_3_failures)
         "docuware/platform/Organizations" None w' = Done (Ok VUndefined) w'.
Proof.
  destruct (X20_retrymax_override (scripted script_3_failures)
              (flags [("retrymax", VNum (-1))]) world_initial (-1) eq_refl)
    as (w' & Hrun & _ & _ & _ & _ & Hmax & Hnone).
  exists w'. split; [exact Hrun|]. split; [exact Hmax|].
  apply (proj1 (Hnone ltac:(lia) "docuware/platform/Organizations")).
Defined.

(** X21.  In mode lscabinets the session stage asks for the cabinet list
    once and prints one line [Name: Id] per cabinet, in the order of the
    reply; nothing else is requested, and the flags [-c], [-i], [-q] and
    [-f] play no part. *)
Theorem X21_lscabinets_lines (E : Env) (args : string -> value) (fuel : nat)
        (w w1 : world) (l : list (string * value)) :
  DocuwareHelper.getFileCabinets E "1" w = Done (Ok (VArr (map cabinet_entry l))) w1 ->
  DocuwareCMD.with_session E args fuel (VStr "lscabinets") w
  = Done (Ok tt)
      {| GLOBALS := GLOBALS w1; calls := calls w1; draws := draws w1;
         trace := (trace w1
                   ++ map (fun p => ConsoleLog (VStr (fst p ++ ": " ++ JS.to_string (snd p)))) l)%list |}.
Proof.
  intros Hcab. unfold DocuwareCMD.with_session.
  unfold bind at 1. rewrite Hcab.
  rewrite equals_text. cbn [String.eqb Ascii.eqb Bool.eqb].
  unfold bind at 1. unfold lift at 1. cbn [JS.array_method].
  unfold bind at 1. rewrite cabinet_lines. reflexivity.
Qed.

Lemma X21_lscabinets_lines_witness :
  DocuwareCMD.with_session
    (scripted (fun _ => mkResponse 200 None
                 (cabinets_reply [("Meter - STG", VStr "a1"); ("Invoices", VNum 7)])))
    (flags []) 1 (VStr "lscabinets") (world_with_attempts 100)
  = Done (Ok tt)
      {| GLOBALS := GLOBALS (world_with_attempts 100); calls := 1; draws := 0;
         trace := [HttpCall (DocuwareHelper.get_config (GLOBALS (world_with_attempts 100))
                               "docuware/platform/FileCabinets?orgid=1" None);
                   ConsoleLog (VStr "Meter - STG: a1");
                   ConsoleLog (VStr "Invoices: 7")] |}.
Proof.
  apply (X21_lscabinets_lines
           (scripted (fun _ => mkResponse 200 None
                        (cabinets_reply [("Meter - STG", VStr "a1"); ("Invoices", VNum 7)])))
           (flags []) 1 (world_with_attempts 100)
           (called (DocuwareHelper.get_config (GLOBALS (world_with_attempts 100))
                      "docuware/platform/FileCabinets?orgid=1" None)
              (world_with_attempts 100))
           [("Meter - STG", VStr "a1"); ("Invoices", VNum 7)]).
  reflexivity.
Defined.

(** X22.  Where the session stage stops after the cabinet list has
    arrived, in a mode other than lscabinets.  Without [-c] it prints
    "-c cabinet name not defined."; when no cabinet carries the name it
    prints that no cabinet matches; and in mode update with exactly one
    cabinet of that name but none of [-i], [-q], [-f], it prints
    "Fetching documents..." and "None of -f -q -i defined." and returns.
    In all three cases no request follows the cabinet list: an update
    never falls back to listing the whole cabinet. *)
Theorem X22_session_stage_halts (E : Env) (args : string -> value) (fuel : nat)
        (mode cabinets : value) (w w1 : world) :
  DocuwareHelper.getFileCabinets E "1" w = Done (Ok cabinets) w1 ->
  DocuwareCMD.equals E mode "lscabinets" = false ->
  (JS.truthy (args "c") = false ->
   DocuwareCMD.with_session E args fuel mode w
   = Done (Ok tt) (logged (ConsoleLog (VStr "-c cabinet name not defined.")) w1))
  /\ (JS.truthy (args "c") = true ->
      DocuwareHelper.cabinets_named E cabinets (args "c") = Ok [] ->
      DocuwareCMD.with_session E args fuel mode w
      = Done (Ok tt)
          (logged (ConsoleLog (VStr ("No matching cabinet(s) for " ++ DocuwareCMD.dquote
                                     ++ JS.to_string (args "c") ++ DocuwareCMD.dquote ++ ".")))
             w1))
  /\ (forall cabinet,
         JS.truthy (args "c") = true ->
         DocuwareHelper.cabinets_named E cabinets (args "c") = Ok [cabinet] ->
         mode = VStr "update" ->
         JS.truthy (args "i") = false -> JS.truthy (args "q") = false ->
         JS.truthy (args "f") = false ->
         DocuwareCMD.with_session E args fuel mode w
         = Done (Ok tt)
             (logged (ConsoleLog (VStr "None of -f -q -i defined."))
                (logged (ConsoleLog (VStr "Fetching documents...")) w1))).
Proof.
  intros Hcab Hls. split; [|split].
  - intros Hc. unfold DocuwareCMD.with_session.
    unfold bind at 1. rewrite Hcab, Hls, Hc. reflexivity.
  - intros Hc Hnone. unfold DocuwareCMD.with_session.
    unfold bind at 1. rewrite Hcab, Hls, Hc. cbn [negb].
    unfold bind at 1. unfold lift at 1. rewrite Hnone. reflexivity.
  - intros cabinet Hc Hone -> Hi Hq Hf. unfold DocuwareCMD.with_session.
    unfold bind at 1. rewrite Hcab, Hls, Hc. cbn [negb].
    unfold bind at 1. unfold lift at 1. rewrite Hone.
    unfold bind at 1. unfold ret at 1.
    rewrite !equals_text. cbn [String.eqb Ascii.eqb Bool.eqb].
    unfold bind at 1. unfold console_log at 1. unfold emit at 1.
    fold (logged (ConsoleLog (VStr "Fetching documents...")) w1).
    unfold bind at 1. unfold DocuwareCMD.fetch_documents.
    rewrite Hi, Hq, Hf. rewrite equals_text. cbn [String.eqb Ascii.eqb Bool.eqb negb].
    reflexivity.
Qed.

Lemma X22_session_stage_halts_witness :
  DocuwareCMD.with_session
    (scripted (fun _ => mkResponse 200 None
                 (cabinets_reply [("Meter - STG", VStr "a1"); ("Invoices", VNum 7)])))
    (flags [("c", VStr "Invoices"); ("u", VStr "{'STATUS': 'open'}")]) 1 (VStr "update")
    (world_with_attempts 100)
  = Done (Ok tt)
      (logged (ConsoleLog (VStr "None of -f -q -i defined."))
         (logged (ConsoleLog (VStr "Fetching documents..."))
            (called (DocuwareHelper.get_config (GLOBALS (world_with_attempts 100))
                       "docuware/platform/FileCabinets?orgid=1" None)
               (world_with_attempts 100)))).
Proof.
  apply (proj2 (proj2 (X22_session_stage_halts
                         (scripted (fun _ => mkResponse 200 None
                                      (cabinets_reply [("Meter - STG", VStr "a1");
                                                       ("Invoices", VNum 7)])))
                         (flags [("c", VStr "Invoices"); ("u", VStr "{'STATUS': 'open'}")])
                         1 (VStr "update")
                         (VArr (map cabinet_entry [("Meter - STG", VStr "a1");
                                                   ("Invoices", VNum 7)]))
                         (world_with_attempts 100)
                         (called (DocuwareHelper.get_config (GLOBALS (world_with_attempts 100))
                                    "docuware/platform/FileCabinets?orgid=1" None)
                            (world_with_attempts 100))
                         eq_refl eq_refl))
           (cabinet_entry ("Invoices", VNum 7)));
    reflexivity.
Defined.

(** *** Download, update and single documents *)

Section DownloadUpdate.

Variable E : Env.

Lemma download_loop (cabinet cabId fileName : value) (folder : string)
      (content : nat -> string) (docs : list DocumentRecord) :
  JS.get cabinet "Id" = Ok cabId ->
  (forall n config, exists r,
      axios_reply E n config = Resolves r /\ status r = 200%Z
      /\ body r = VStream (content n)) ->
  forall i w,
    (0 < retryMaxCount (GLOBALS w))%Z ->
    exists done,
      mapM (DocuwareCMD.download_one E cabinet fileName (VStr folder))
        (combine (map Z.of_nat (seq i (List.length docs))) docs) w
      = Done (Ok done)
          {| GLOBALS := GLOBALS w; calls := (calls w + List.length docs)%nat;
             draws := draws w;
             trace := (trace w
                       ++ download_trace (GLOBALS w) cabId (VStr folder) fileName content
                            i (calls w) docs)%list |}.
Proof.
  intros Hid Hreply. induction docs as [|d docs IH]; intros i w Hmax.
  - exists []. cbn [List.length seq map combine mapM download_trace]. unfold ret.
    rewrite app_nil_r, Nat.add_0_r. now destruct w.
  - cbn [List.length seq map combine mapM download_trace].
    destruct (Hreply (calls w)
                (DocuwareHelper.get_config (GLOBALS w)
                   ("docuware/platform/FileCabinets/" ++ JS.to_string cabId
                    ++ "/Documents/" ++ JS.to_string (id d)
                    ++ "/FileDownload?targetFileType=Auto&keepAnnotations=false")
                   (Some "stream")))
      as (r & Hr & Hs & Hb).
    destruct (IH (S i)
                (logged (ConsoleLog (VStr ("File " ++ DocuwareCMD.dquote
                                           ++ download_title fileName i
                                           ++ DocuwareCMD.dquote ++ " downloaded.")))
                   (logged (FileWritten (VStr folder) (download_title fileName i)
                              (VStream (content (calls w))))
                      (called (DocuwareHelper.get_config (GLOBALS w)
                                 ("docuware/platform/FileCabinets/" ++ JS.to_string cabId
                                  ++ "/Documents/" ++ JS.to_string (id d)
                                  ++ "/FileDownload?targetFileType=Auto&keepAnnotations=false")
                                 (Some "stream")) w)))
                Hmax)
      as [done Hdone].
    exists (tt :: done).
    unfold bind at 1. unfold DocuwareCMD.download_one at 1.
    unfold bind at 1. unfold lift at 1. rewrite Hid.
    unfold bind at 1. unfold DocuwareHelper.downloadDocument.
    cbn [fst snd].
    rewrite (getRequest_first_200 E _ (Some "stream") w r Hmax Hr Hs), Hb.
    unfold bind at 1. unfold emit at 1.
    unfold console_log at 1. unfold emit at 1.
    unfold bind at 1.
    change (JS.to_string fileName ++ "_" ++ JSString.of_Z (Z.of_nat i) ++ ".pdf")
      with (download_title fileName i).
    match goal with
    | |- match mapM _ _ ?w0 with _ => _ end = _ =>
        change w0 with
          (logged (ConsoleLog (VStr ("File " ++ DocuwareCMD.dquote
                                     ++ download_title fileName i
                                     ++ DocuwareCMD.dquote ++ " downloaded.")))
             (logged (FileWritten (VStr folder) (download_title fileName i)
                        (VStream (content (calls w))))
                (called (DocuwareHelper.get_config (GLOBALS w)
                           ("docuware/platform/FileCabinets/" ++ JS.to_string cabId
                            ++ "/Documents/" ++ JS.to_string (id d)
                            ++ "/FileDownload?targetFileType=Auto&keepAnnotations=false")
                           (Some "stream")) w)))
    end.
    rewrite Hdone. unfold ret.
    cbn [logged called GLOBALS calls draws trace].
    f_equal. f_equal; [lia|].
    rewrite <- !app_assoc. reflexivity.
Qed.


Lemma fold_fields (l : list (string * value)) : forall acc : JSObject.t value,
  NoDup (map fst acc ++ map fst l) ->
  forallb plain_name (map fst l) = true ->
  res_fold DocuwareHelper.field_reducer (map field_entry l) acc
  = Ok (acc ++ map (fun p => (fst p, stored (snd p))) l)%list.
Proof.
  induction l as [|[n item] l IH]; intros acc Hnd Hplain.
  - cbn [map res_fold]. now rewrite app_nil_r.
  - cbn [map fst forallb] in Hnd, Hplain. apply andb_true_iff in Hplain as [Hn Hplain].
    unfold plain_name in Hn. apply andb_true_iff in Hn as [_ Hn].
    apply negb_true_iff in Hn.
    cbn [map res_fold]. unfold DocuwareHelper.field_reducer at 1.
    cbn [field_entry fst snd JS.get JSObject.lookup String.eqb Ascii.eqb Bool.eqb
         res_bind JS.to_string].
    unfold JSObject.assign. rewrite Hn.
    rewrite set_fresh.
    + rewrite IH; [|rewrite map_app; cbn [map fst]; now rewrite <- app_assoc | exact Hplain].
      cbn [map fst snd]. unfold stored at 2. now rewrite <- app_assoc.
    + apply NoDup_remove_2 in Hnd. intros Hin. apply Hnd. apply in_or_app. now left.
Qed.

End DownloadUpdate.

(** X23.  The download branch writes the matched documents one by one, in
    the order of the list, under the titles [prefix_0.pdf],
    [prefix_1.pdf], ...: with a write folder and a prefix given, the
    retry limit positive and a server that answers every call with
    status 200 and a stream, it prints the starting line, then for each
    document makes one request to that document's FileDownload address
    (with the response type "stream"), writes the stream it received to
    the file with the document's title, and prints the title; it ends
    with the completion line, after exactly one call per document. *)
Theorem X23_download_titles (E : Env) (args : string -> value)
        (cabinet cabId cabinetName : value) (folder : string) (content : nat -> string)
        (documents : list DocumentRecord) (w : world) :
  args "p" = VStr folder -> folder <> EmptyString ->
  JS.truthy (args "n") = true ->
  JS.get cabinet "Id" = Ok cabId ->
  (0 < retryMaxCount (GLOBALS w))%Z ->
  (forall n config, exists r,
      axios_reply E n config = Resolves r /\ status r = 200%Z
      /\ body r = VStream (content n)) ->
  DocuwareCMD.dispatch E args (VStr "download") cabinet cabinetName documents w
  = Done (Ok tt)
      {| GLOBALS := GLOBALS w; calls := (calls w + List.length documents)%nat;
         draws := draws w;
         trace := (trace w
                   ++ ConsoleLog (VStr ("Starting downloads for " ++ DocuwareCMD.dquote
                                        ++ JS.to_string cabinetName ++ DocuwareCMD.dquote))
                   :: download_trace (GLOBALS w) cabId (VStr folder) (args "n") content
                        0 (calls w) documents
                   ++ [ConsoleLog (VStr ("Downloads completed for " ++ DocuwareCMD.dquote
                                         ++ JS.to_string cabinetName
                                         ++ DocuwareCMD.dquote))])%list |}.
Proof.
  intros Hp Hfolder Hn Hid Hmax Hreply.
  change (DocuwareCMD.dispatch E args (VStr "download") cabinet cabinetName documents w)
    with (DocuwareCMD.download E args cabinet cabinetName documents w).
  unfold DocuwareCMD.download. rewrite Hn, Hp. cbn [JS.truthy].
  destruct (String.eqb_spec folder EmptyString) as [|_]; [contradiction|].
  rewrite <- Hp at 1. rewrite Hn. cbn [negb]. rewrite Hp.
  unfold bind at 1. unfold console_log at 1. unfold emit at 1.
  destruct (download_loop E cabinet cabId (args "n") folder content documents Hid Hreply 0%nat
              (logged (ConsoleLog (VStr ("Starting downloads for " ++ DocuwareCMD.dquote
                                         ++ JS.to_string cabinetName ++ DocuwareCMD.dquote)))
                 w) Hmax)
    as [done Hdone].
  unfold indexed.
  unfold bind at 1.
  match goal with
  | |- match mapM _ _ ?w0 with _ => _ end = _ =>
      change w0 with
        (logged (ConsoleLog (VStr ("Starting downloads for " ++ DocuwareCMD.dquote
                                   ++ JS.to_string cabinetName ++ DocuwareCMD.dquote)))
           w)
  end.
  rewrite Hdone. unfold console_log, emit.
  cbn [logged GLOBALS calls draws trace].
  f_equal. f_equal.
  rewrite <- !app_assoc. reflexivity.
Qed.

Lemma X23_download_titles_witness :
  DocuwareCMD.dispatch
    (scripted (fun _ => mkResponse 200 None (VStream "%PDF")))
    (flags [("p", VStr "out"); ("n", VStr "meter")])
    (VStr "download") (cabinet_entry ("Meter - STG", VStr "abc")) (VStr "Meter - STG")
    two_documents (world_with_attempts 100)
  = Done (Ok tt)
      {| GLOBALS := GLOBALS (world_with_attempts 100); calls := 2; draws := 0;
         trace := (ConsoleLog (VStr ("Starting downloads for " ++ DocuwareCMD.dquote
                                     ++ "Meter - STG" ++ DocuwareCMD.dquote))
                   :: download_trace (GLOBALS (world_with_attempts 100)) (VStr "abc")
                        (VStr "out") (VStr "meter") (fun _ => "%PDF") 0 0 two_documents
                   ++ [ConsoleLog (VStr ("Downloads completed for " ++ DocuwareCMD.dquote
                                         ++ "Meter - STG" ++ DocuwareCMD.dquote))])%list |}
  /\ map (fun e => match e with FileWritten _ title _ => title | _ => "" end)
         (filter (fun e => match e with FileWritten _ _ _ => true | _ => false end)
            (download_trace (GLOBALS (world_with_attempts 100)) (VStr "abc")
               (VStr "out") (VStr "meter") (fun _ => "%PDF") 0 0 two_documents))
     = ["meter_0.pdf"; "meter_1.pdf"].
Proof.
  split; [|reflexivity].
  apply (X23_download_titles
           (scripted (fun _ => mkResponse 200 None (VStream "%PDF")))
           (flags [("p", VStr "out"); ("n", VStr "meter")])
           (cabinet_entry ("Meter - STG", VStr "abc")) (VStr "abc") (VStr "Meter - STG")
           "out" (fun _ => "%PDF") two_documents (world_with_attempts 100)).
  - reflexivity.
  - discriminate.
  - reflexivity.
  - reflexivity.
  - simpl. lia.
  - intros n config. eexists. split; [reflexivity|]. split; reflexivity.
Defined.



(** X25.  [getDocument] makes one [getRequest] for the document and
    builds the record from the reply's field list.  The record's id and
    cabinet id are the ones asked for, never read from the reply.  When
    the request gives [null] or [undefined], or the reply has no
    [Fields], the call throws a TypeError.  When the reply lists fields
    with pairwise distinct names (none an array index or ["__proto__"]),
    the row holds exactly those names in the order of the reply, each
    with its item, a falsy item replaced by the empty string. *)
Theorem X25_getDocument_record (E : Env) (documentCabinetId documentId : value)
        (w : world) :
  let path := "docuware/platform/FileCabinets/" ++ JS.to_string documentCabinetId
              ++ "/Documents/" ++ JS.to_string documentId in
  (forall document w1,
      DocuwareHelper.getDocument E documentCabinetId documentId w = Done (Ok document) w1 ->
      id document = documentId /\ cabinetId document = documentCabinetId)
  /\ (forall v w1,
         DocuwareHelper.getRequest E path None w = Done (Ok v) w1 ->
         v = VNull \/ v = VUndefined
         \/ (exists o, v = VObj o /\ JSObject.lookup "Fields" o = None) ->
         exists what,
           DocuwareHelper.getDocument E documentCabinetId documentId w
           = Done (Throw (TypeError what)) w1)
  /\ (forall l w1,
         DocuwareHelper.getRequest E path None w = Done (Ok (fields_reply l)) w1 ->
         NoDup (map fst l) -> forallb plain_name (map fst l) = true ->
         DocuwareHelper.getDocument E documentCabinetId documentId w
         = Done (Ok {| id := documentId; cabinetId := documentCabinetId;
                       row := map (fun p => (fst p, stored (snd p))) l |}) w1).
Proof.
  intros path. split; [|split].
  - intros document w1. unfold DocuwareHelper.getDocument, bind, lift.
    fold path.
    destruct (DocuwareHelper.getRequest E path None w) as [[v|e] w'|]; try discriminate.
    unfold DocuwareHelper.document_of.
    destruct (JS.get v "Fields") as [fields|]; cbn [res_bind]; [|discriminate].
    destruct (JS.array_method "reduce" fields) as [fl|]; cbn [res_bind]; [|discriminate].
    destruct (res_fold DocuwareHelper.field_reducer fl JSObject.empty) as [r|];
      cbn [res_bind]; [|discriminate].
    intros H. inversion H; subst. split; reflexivity.
  - intros v w1 Hget Hv. unfold DocuwareHelper.getDocument, bind, lift.
    fold path. rewrite Hget.
    destruct Hv as [-> | [-> | (o & -> & Ho)]].
    + eexists. reflexivity.
    + eexists. reflexivity.
    + unfold DocuwareHelper.document_of. cbn [JS.get]. rewrite Ho.
      eexists. reflexivity.
  - intros l w1 Hget Hnd Hplain. unfold DocuwareHelper.getDocument, bind, lift.
    fold path. rewrite Hget.
    unfold DocuwareHelper.document_of, fields_reply.
    cbn [JS.get JSObject.lookup String.eqb Ascii.eqb Bool.eqb res_bind JS.array_method].
    rewrite (fold_fields l JSObject.empty Hnd Hplain). reflexivity.
Qed.

Lemma X25_getDocument_record_witness :
  DocuwareHelper.getDocument
    (scripted (fun _ => mkResponse 200 None
                 (fields_reply [("DWDOCID", VNum 9); ("COMPANY", VNull);
                                ("STATUS", VStr "open")])))
    (VStr "cab") (VNum 7) (world_with_attempts 100)
  = Done (Ok {| id := VNum 7; cabinetId := VStr "cab";
                row := [("DWDOCID", VNum 9); ("COMPANY", VStr ""); ("STATUS", VStr "open")] |})
      (called (DocuwareHelper.get_config (GLOBALS (world_with_attempts 100))
                 "docuware/platform/FileCabinets/cab/Documents/7" None)
         (world_with_attempts 100)).
Proof.
  apply (proj2 (proj2 (X25_getDocument_record
                         (scripted (fun _ => mkResponse 200 None
                                      (fields_reply [("DWDOCID", VNum 9); ("COMPANY", VNull);
                                                     ("STATUS", VStr "open")])))
                         (VStr "cab") (VNum 7) (world_with_attempts 100)))
           [("DWDOCID", VNum 9); ("COMPANY", VNull); ("STATUS", VStr "open")]).
  - reflexivity.
  - repeat constructor; simpl; intuition discriminate.
  - reflexivity.
Defined.

(** *** The document stage and the upload branch *)

Section DocumentStage.

Variable E : Env.
Variable args : string -> value.

(** The session stage up to the fetched documents, for a mode that
    lists the whole cabinet. *)
Lemma with_session_whole_cabinet (fuel : nat) (m : string)
      (cabinets cabinet cabId : value) (docs : list DocumentRecord) (w w1 w2 : world) :
  DocuwareHelper.getFileCabinets E "1" w = Done (Ok cabinets) w1 ->
  m <> "lscabinets" -> m <> "upload" -> m <> "update" ->
  JS.truthy (args "c") = true ->
  DocuwareHelper.cabinets_named E cabinets (args "c") = Ok [cabinet] ->
  JS.truthy (args "i") = false -> JS.truthy (args "q") = false ->
  JS.truthy (args "f") = false ->
  JS.get cabinet "Id" = Ok cabId ->
  DocuwareHelper.getAllDocumentsFromCabinet E fuel cabId
    (logged (ConsoleLog (VStr "Fetching documents...")) w1) = Done (Ok docs) w2 ->
  DocuwareCMD.with_session E args fuel (VStr m) w
  = match docs with
    | [] => console_log "No matching documents found."
    | _ :: _ => DocuwareCMD.dispatch E args (VStr m) cabinet (args "c") docs
    end (logged (ConsoleLog (VStr "Completed document fetching.")) w2).
Proof.
  intros Hcab Hls Hup Hupd Hc Hone Hi Hq Hf Hid Hall.
  apply String.eqb_neq in Hls, Hup, Hupd.
  unfold DocuwareCMD.with_session.
  unfold bind at 1. rewrite Hcab, equals_text, Hls, Hc. cbn [negb].
  unfold bind at 1. unfold lift at 1. rewrite Hone.
  unfold bind at 1. unfold ret at 1.
  rewrite equals_text, Hup.
  unfold bind at 1. unfold console_log at 1. unfold emit at 1.
  fold (logged (ConsoleLog (VStr "Fetching documents...")) w1).
  unfold bind at 1. unfold DocuwareCMD.fetch_documents.
  rewrite Hi, Hq, Hf, equals_text, Hupd. cbn [negb].
  unfold bind at 1. unfold lift at 1. rewrite Hid.
  unfold bind at 1. rewrite Hall. unfold ret at 1.
  unfold bind at 1. unfold console_log at 1. unfold emit at 1.
  fold (logged (ConsoleLog (VStr "Completed document fetching.")) w2).
  destruct docs; reflexivity.
Qed.

Lemma find_where_field (fields : list (string * value)) (k : string) (v : value) :
  JSObject.lookup k fields = Some v ->
  DocuwareCMD.find_where E (VArr (map field_entry fields)) "FieldName" k "Item" = Ok v.
Proof.
  unfold DocuwareCMD.find_where. cbn [JS.array_method res_bind].
  induction fields as [|[k' v'] fields IH]; [discriminate|].
  cbn [JSObject.lookup map DocuwareCMD.res_find].
  cbn [field_entry fst snd JS.get JSObject.lookup String.eqb Ascii.eqb Bool.eqb res_bind].
  rewrite equals_text.
  destruct (String.eqb k' k).
  - intros H. inversion H; subst. reflexivity.
  - exact IH.
Qed.

Lemma find_where_link (links : list (string * value)) (k : string) (v : value) :
  JSObject.lookup k links = Some v ->
  DocuwareCMD.find_where E (VArr (map link_entry links)) "rel" k "href" = Ok v.
Proof.
  unfold DocuwareCMD.find_where. cbn [JS.array_method res_bind].
  induction links as [|[k' v'] links IH]; [discriminate|].
  cbn [JSObject.lookup map DocuwareCMD.res_find].
  cbn [link_entry fst snd JS.get JSObject.lookup String.eqb Ascii.eqb Bool.eqb res_bind].
  rewrite equals_text.
  destruct (String.eqb k' k).
  - intros H. inversion H; subst. reflexivity.
  - exact IH.
Qed.

End DocumentStage.

(** X26.  In a mode other than lscabinets, upload and update, with one
    cabinet of the given name and none of [-i], [-q], [-f], the session
    stage lists the whole cabinet before it looks at the mode again.
    With no document it prints "No matching documents found."; in mode
    get it prints the JSON of all documents of the cabinet; and a mode
    that is none of get, update, download is reported as not supported
    only then, after every page of the cabinet was fetched. *)
Theorem X26_whole_cabinet_modes (E : Env) (args : string -> value) (fuel : nat)
        (m : string) (cabinets cabinet cabId : value) (docs : list DocumentRecord)
        (w w1 w2 : world) :
  DocuwareHelper.getFileCabinets E "1" w = Done (Ok cabinets) w1 ->
  m <> "lscabinets" -> m <> "upload" -> m <> "update" ->
  JS.truthy (args "c") = true ->
  DocuwareHelper.cabinets_named E cabinets (args "c") = Ok [cabinet] ->
  JS.truthy (args "i") = false -> JS.truthy (args "q") = false ->
  JS.truthy (args "f") = false ->
  JS.get cabinet "Id" = Ok cabId ->
  DocuwareHelper.getAllDocumentsFromCabinet E fuel cabId
    (logged (ConsoleLog (VStr "Fetching documents...")) w1) = Done (Ok docs) w2 ->
  (docs = [] ->
   DocuwareCMD.with_session E args fuel (VStr m) w
   = Done (Ok tt)
       (logged (ConsoleLog (VStr "No matching documents found."))
          (logged (ConsoleLog (VStr "Completed document fetching.")) w2)))
  /\ (docs <> [] -> m = "get" ->
      DocuwareCMD.with_session E args fuel (VStr m) w
      = Done (Ok tt)
          (logged (ConsoleLogJSON docs)
             (logged (ConsoleLog (VStr "Completed document fetching.")) w2)))
  /\ (docs <> [] -> m <> "get" -> m <> "download" ->
      DocuwareCMD.with_session E args fuel (VStr m) w
      = Done (Ok tt)
          (logged (ConsoleLog (VStr ("Mode " ++ DocuwareCMD.dquote ++ m ++ DocuwareCMD.dquote
                                     ++ " not supported, use one of upload/update/download.")))
             (logged (ConsoleLog (VStr "Completed document fetching.")) w2))).
Proof.
  intros Hcab Hls Hup Hupd Hc Hone Hi Hq Hf Hid Hall.
  rewrite (with_session_whole_cabinet E args fuel m cabinets cabinet cabId docs w w1 w2
             Hcab Hls Hup Hupd Hc Hone Hi Hq Hf Hid Hall).
  split; [|split].
  - intros ->. reflexivity.
  - intros Hne ->. destruct docs; [congruence | reflexivity].
  - intros Hne Hget Hdl. destruct docs; [congruence|].
    apply String.eqb_neq in Hget, Hdl, Hupd.
    unfold DocuwareCMD.dispatch, DocuwareCMD.is_case. rewrite Hget, Hupd, Hdl.
    reflexivity.
Qed.

Lemma X26_whole_cabinet_modes_witness :
  DocuwareCMD.with_session
    (scripted (fun n => match n with
                        | O => mkResponse 200 None
                                 (cabinets_reply [("Invoices", VStr "cab")])
                        | S n' => two_pages [1; 2] [3] n'
                        end))
    (flags [("c", VStr "Invoices")]) 3 (VStr "list") (world_with_attempts 100)
  = Done (Ok tt)
      (logged (ConsoleLog (VStr ("Mode " ++ DocuwareCMD.dquote ++ "list" ++ DocuwareCMD.dquote
                                 ++ " not supported, use one of upload/update/download.")))
         (logged (ConsoleLog (VStr "Completed document fetching."))
            (paged (VStr "cab") 0 3
               (logged (ConsoleLog (VStr "Fetching documents..."))
                  (called (DocuwareHelper.get_config (GLOBALS (world_with_attempts 100))
                             "docuware/platform/FileCabinets?orgid=1" None)
                     (world_with_attempts 100)))))).
Proof.
  apply (proj2 (proj2 (X26_whole_cabinet_modes
                         (scripted (fun n => match n with
                                             | O => mkResponse 200 None
                                                      (cabinets_reply [("Invoices", VStr "cab")])
                                             | S n' => two_pages [1; 2] [3] n'
                                             end))
                         (flags [("c", VStr "Invoices")]) 3 "list"
                         (VArr [cabinet_entry ("Invoices", VStr "cab")])
                         (cabinet_entry ("Invoices", VStr "cab")) (VStr "cab")
                         [table_record (VStr "cab") 1; table_record (VStr "cab") 2;
                          table_record (VStr "cab") 3]
                         (world_with_attempts 100)
                         (called (DocuwareHelper.get_config (GLOBALS (world_with_attempts 100))
                                    "docuware/platform/FileCabinets?orgid=1" None)
                            (world_with_attempts 100))
                         (paged (VStr "cab") 0 3
                            (logged (ConsoleLog (VStr "Fetching documents..."))
                               (called (DocuwareHelper.get_config
                                          (GLOBALS (world_with_attempts 100))
                                          "docuware/platform/FileCabinets?orgid=1" None)
                                  (world_with_attempts 100))))
                         eq_refl ltac:(discriminate) ltac:(discriminate) ltac:(discriminate)
                         eq_refl eq_refl eq_refl eq_refl eq_refl eq_refl eq_refl)));
    discriminate.
Defined.

(** X27.  The upload branch.  Without [-p] it prints "-p read path not
    specified." and neither opens the file nor sends anything.  When the
    upload failed ([uploadDocument] gave [null]) the branch throws the
    TypeError of reading [Fields] on [null], and nothing is printed.
    When the reply lists a DWDOCID field and a link with rel "self", it
    prints the new document's id, then the link as the endpoint followed
    directly by the link's href, then "File uploaded". *)
Theorem X27_upload_branch (E : Env) (args : string -> value) (cabinet cabId : value)
        (w : world) :
  JS.get cabinet "Id" = Ok cabId ->
  (JS.truthy (args "p") = false ->
   DocuwareCMD.upload E args cabinet w
   = Done (Ok tt) (logged (ConsoleLog (VStr "-p read path not specified.")) w))
  /\ (forall w1,
         JS.truthy (args "p") = true ->
         DocuwareHelper.uploadDocument E cabId (args "p") w = Done (Ok VNull) w1 ->
         DocuwareCMD.upload E args cabinet w
         = Done (Throw (TypeError "Cannot read properties of null (reading 'Fields')")) w1)
  /\ (forall fields links docId href e w1,
         JS.truthy (args "p") = true ->
         DocuwareHelper.uploadDocument E cabId (args "p") w
         = Done (Ok (upload_reply fields links)) w1 ->
         JSObject.lookup "DWDOCID" fields = Some docId ->
         JSObject.lookup "self" links = Some (VStr href) ->
         endpoint (GLOBALS w1) = VStr e ->
         DocuwareCMD.upload E args cabinet w
         = Done (Ok tt)
             (logged (ConsoleLog (VStr "File uploaded"))
                (logged (ConsoleLog (VStr ("LINK: " ++ e ++ href)))
                   (logged (ConsoleLog (VStr ("DWDOCID: " ++ JS.to_string docId))) w1)))).
Proof.
  intros Hid. split; [|split].
  - intros Hp. unfold DocuwareCMD.upload. rewrite Hp. reflexivity.
  - intros w1 Hp Hup. unfold DocuwareCMD.upload. rewrite Hp. cbn [negb].
    unfold bind at 1. unfold lift at 1. rewrite Hid.
    unfold bind at 1. rewrite Hup. reflexivity.
  - intros fields links docId href e w1 Hp Hup Hdoc Hself He.
    unfold DocuwareCMD.upload. rewrite Hp. cbn [negb].
    unfold bind at 1. unfold lift at 1. rewrite Hid.
    unfold bind at 1. rewrite Hup.
    unfold bind at 1. unfold lift at 1.
    unfold upload_reply at 1.
    cbn [JS.get JSObject.lookup String.eqb Ascii.eqb Bool.eqb res_bind].
    rewrite (find_where_field E fields "DWDOCID" docId Hdoc).
    unfold bind at 1. unfold console_log at 1. unfold emit at 1.
    fold (logged (ConsoleLog (VStr ("DWDOCID: " ++ JS.to_string docId))) w1).
    unfold bind at 1. unfold read_globals at 1.
    unfold bind at 1. unfold lift at 1.
    unfold upload_reply at 1.
    cbn [JS.get JSObject.lookup String.eqb Ascii.eqb Bool.eqb res_bind].
    rewrite (find_where_link E links "self" (VStr href) Hself).
    cbn [logged GLOBALS]. rewrite He.
    reflexivity.
Qed.

Lemma X27_upload_branch_witness :
  DocuwareCMD.upload (scripted script_always_429) (flags [("c", VStr "Invoices")])
    (cabinet_entry ("Invoices", VStr "cab")) (world_with_attempts 100)
  = Done (Ok tt)
      (logged (ConsoleLog (VStr "-p read path not specified.")) (world_with_attempts 100))
  /\ DocuwareCMD.upload
       (scripted (fun _ => mkResponse 200 None
                    (upload_reply [("NAME", VStr "doc"); ("DWDOCID", VNum 42)]
                       [("self", VStr "/docuware/platform/FileCabinets/cab/Documents/42")])))
       (flags [("p", VStr "scan.pdf")])
       (cabinet_entry ("Invoices", VStr "cab")) (world_with_attempts 100)
     = Done (Ok tt)
         (logged (ConsoleLog (VStr "File uploaded"))
            (logged (ConsoleLog
                       (VStr "LINK: https://test.docuware.cloud/docuware/platform/FileCabinets/cab/Documents/42"))
               (logged (ConsoleLog (VStr "DWDOCID: 42"))
                  (logged ReadStreamClosed
                     (called (DocuwareHelper.post_config (GLOBALS (world_with_attempts 100))
                                "docuware/platform/FileCabinets/cab/Documents"
                                (MultipartFile "file" (VStr "scan.pdf"))
                                (Some "multipart/form-data"))
                        (logged (ReadStreamOpened (VStr "scan.pdf"))
                           (world_with_attempts 100))))))).
Proof.
  split.
  - apply (proj1 (X27_upload_branch (scripted script_always_429)
                    (flags [("c", VStr "Invoices")])
                    (cabinet_entry ("Invoices", VStr "cab")) (VStr "cab")
                    (world_with_attempts 100) eq_refl)).
    reflexivity.
  - apply (proj2 (proj2 (X27_upload_branch
                           (scripted (fun _ => mkResponse 200 None
                                        (upload_reply [("NAME", VStr "doc"); ("DWDOCID", VNum 42)]
                                           [("self", VStr "/docuware/platform/FileCabinets/cab/Documents/42")])))
                           (flags [("p", VStr "scan.pdf")])
                           (cabinet_entry ("Invoices", VStr "cab")) (VStr "cab")
                           (world_with_attempts 100) eq_refl))
             [("NAME", VStr "doc"); ("DWDOCID", VNum 42)]
             [("self", VStr "/docuware/platform/FileCabinets/cab/Documents/42")]
             (VNum 42) "/docuware/platform/FileCabinets/cab/Documents/42"
             "https://test.docuware.cloud"
             (logged ReadStreamClosed
                (called (DocuwareHelper.post_config (GLOBALS (world_with_attempts 100))
                           "docuware/platform/FileCabinets/cab/Documents"
                           (MultipartFile "file" (VStr "scan.pdf"))
                           (Some "multipart/form-data"))
                   (logged (ReadStreamOpened (VStr "scan.pdf"))
                      (world_with_attempts 100)))));
      reflexivity.
Defined.
